(** * gitlab-stale-branch-cleaner

    A shallow embedding of [src/lib/cleaner.js] (the function [runCleaner]
    with its inner functions [getBranches], [isBranchStale] and
    [deleteBranch], and the helper [formatGitLabError]) and the properties
    of the natural-language specification proved about it.

    Conventions of the embedding.

    - The program is effectful: it calls the GitLab API through axios, reads
      the wall clock, writes to the console, mutates the [result] object and
      the two closure counters, throws, catches and calls [process.exit].
      All of it is threaded through one state ([State]) by a small monad
      ([M]) whose outcomes are: normal completion, a thrown exception, a call
      of [process.exit], or a loop that is still running when the fuel of the
      model is used up.
    - The collaborators that are not code of the repository (the GitLab host
      behind axios, [Date.now], the parser of [new Date(string)]) are the
      fields of an environment record [Env]; every general theorem
      quantifies over all environments.
    - JavaScript numbers: the counters and lengths are integers far below
      2^53 and are modelled by [Z]; the age of a branch is a fraction of a
      day and is modelled by an exact rational or [NaN] ([JS.number]).
      The program rounds the quotient of [isBranchStale] to binary64 and
      the model does not.  Against a threshold that is a whole number of
      days the two tests return the same ([isBranchStale_rounded]); against
      a threshold with a fraction of a day they can differ at the boundary
      ([isBranchStale_binary64_fraction]), and what is proved of the
      boundary is stated for whole days.  The module [Binary64] evaluates
      the test in binary64 arithmetic on given numbers.
    - [getBranches] loops until the host sends a short page, so the model
      of the loop takes fuel, one unit per request; the run is [Pending]
      when the fuel does not suffice.
    - Console output is recorded as structured lines (which line, with which
      data), not as the coloured text. *)

From Stdlib Require Import ZArith QArith List String Bool Lia.
From Stdlib Require Import DecimalString Floats.
Import ListNotations.
Local Open Scope string_scope.
Local Open Scope list_scope.
Local Open Scope Z_scope.

(* ===================================================================== *)
(** ** JavaScript numbers that may be NaN *)
(* ===================================================================== *)

Module JS.

(** A JavaScript number as the staleness test meets it: [NaN] or a finite
    value.  Infinities do not arise: the only divisor is a non-zero literal. *)
Inductive number : Type :=
| NaN
| Num (q : Q).

Definition of_Z (z : Z) : number := Num (inject_Z z).

(** [a - b]: NaN as soon as one operand is. *)
Definition sub (a b : number) : number :=
  match a, b with
  | Num x, Num y => Num (x - y)
  | _, _ => NaN
  end.

(** [a / b] for a non-zero [b]; a zero divisor, which the program never
    uses, is mapped to NaN.  The quotient is exact; the program's is the
    number of binary64 nearest to it. *)
Definition div (a b : number) : number :=
  match a, b with
  | Num x, Num y => if Qeq_bool y 0 then NaN else Num (x / y)
  | _, _ => NaN
  end.

(** [a > b]: false as soon as one operand is NaN. *)
Definition gt (a b : number) : bool :=
  match a, b with
  | Num x, Num y => negb (Qle_bool x y)
  | _, _ => false
  end.

End JS.

Module Binary64.

(** The comparison of [isBranchStale] in IEEE binary64 arithmetic, the
    arithmetic of JavaScript numbers: [now] is the value of [Date.now()],
    [time] the value of [updatedAt.getTime()], [days] the value of
    [Number(staleDays)]. *)
Definition isBranchStale (now time days : float) : bool :=
  PrimFloat.ltb days
    (PrimFloat.div (PrimFloat.sub now time) (1000 * 60 * 60 * 24)%float).

End Binary64.

(* ===================================================================== *)
(** ** Data *)
(* ===================================================================== *)

(** A branch object of the GitLab API, restricted to the fields the program
    reads: [branch.name], [branch.protected], [branch.commit.committed_date]. *)
Record Branch : Type := {
  name : string;
  protected : bool;
  committed_date : string
}.

(** The response part of an axios error: [err.response.status] and
    [err.response.data?.message]. *)
Record Response : Type := {
  status : Z;
  data_message : option string
}.

(** A rejected axios call: [err.message], and [err.response], which is
    absent when no response was received. *)
Record ApiError : Type := {
  err_message : string;
  response : option Response
}.

(** What can be thrown and caught: an axios error, or [new Error(message)]. *)
Inductive Exn : Type :=
| AxiosError (e : ApiError)
| JsError (message : string).

Definition exn_response (err : Exn) : option Response :=
  match err with
  | AxiosError e => response e
  | JsError _ => None
  end.

Definition exn_message (err : Exn) : string :=
  match err with
  | AxiosError e => err_message e
  | JsError m => m
  end.

(** The object returned by [formatGitLabError]. *)
Record GitLabError : Type := {
  type : string;
  message : string;
  action : string
}.

Definition string_of_Z (z : Z) : string :=
  NilZero.string_of_int (Z.to_int z).

(** [formatGitLabError(err)], cleaner.js lines 7-50. *)
Definition formatGitLabError (err : Exn) : GitLabError :=
  match exn_response err with
  | None =>
      {| type := "network";
         message := "Network error while communicating with GitLab.";
         action := "Check internet connectivity or GitLab availability." |}
  | Some r =>
      if status r =? 401 then
        {| type := "auth";
           message := "Unauthorized: Invalid GitLab API token.";
           action := "Verify that the token is correct and not expired." |}
      else if status r =? 403 then
        {| type := "permission";
           message := "Forbidden: Insufficient permissions.";
           action := "Ensure the token has 'api' scope and project access." |}
      else if status r =? 404 then
        {| type := "not_found";
           message := "Project not found.";
           action := "Verify the GitLab Project ID." |}
      else if status r =? 429 then
        {| type := "rate_limit";
           message := "Rate limit exceeded by GitLab API.";
           action := "Retry later or reduce request frequency." |}
      else
        {| type := "unknown";
           message := ("GitLab API error (" ++ string_of_Z (status r) ++ ").")%string;
           action := match data_message r with
                     | Some m => if String.eqb m "" then "Inspect GitLab API response." else m
                     | None => "Inspect GitLab API response."
                     end |}
  end.

(** The argument object of [runCleaner].  [staleDays] holds the value of
    [Number(staleDays)]. *)
Record Config : Type := {
  gitlabToken : string;
  projectId : string;
  mainBranch : string;
  staleDays : JS.number;
  dryRun : bool;
  excludedBranches : list string;
  json : bool
}.

(** The [result] object, cleaner.js lines 72-82.  Its [projectId], [dryRun]
    and [excludedBranches] are copies of the configuration and never change;
    they are read from the configuration where it is printed. *)
Record Result : Type := {
  branchesScanned : Z;
  branchesEligible : Z;
  branchesDeleted : Z;
  branchesFailed : Z;
  failedBranches : list string;
  success : bool
}.

(** One console line, by what it reports. *)
Inductive Line : Type :=
| LineFetching
| LineFetchError (msg : string)
| LineFetchAction (act : string)
| LineDryRun (branchName : string)
| LineDeleted (branchName : string)
| LineDeleteFailed (branchName : string) (msg : string)
| LineFound (n : Z)
| LineSummary
| LineEligible (n : Z)
| LineProcessed (previewed : bool) (n : Z)
| LineFailedDeletions (n : Z)
| LineExcluded (summary : string)
| LineJson (r : Result)
| LineAborted
| LineMessage (msg : string).

(** What the run does to the outside, in order: the requests it issues to
    the host (with whether the host answered them successfully) and the
    lines it prints. *)
Inductive Event : Type :=
| ApiGet (per_page page : Z) (ok : bool)
| ApiDelete (branchName : string) (ok : bool)
| Console (l : Line).

(** The environment of a run: the host behind axios, the clock and the date
    parser.  The host and the clock are stateful: each call may change the
    world. [Date_parse] gives the time value in milliseconds of
    [new Date(s).getTime()], [None] standing for NaN (an invalid date). *)
Record Env : Type := {
  World : Type;
  api_get : Z -> Z -> World -> (ApiError + list Branch) * World;
  api_delete : string -> World -> (ApiError + unit) * World;
  Date_now : World -> Z * World;
  Date_parse : string -> option Z
}.

(* ===================================================================== *)
(** ** The program state and its monad *)
(* ===================================================================== *)

(** How a computation ends. [Pending] is a loop of the program that is
    still running when the fuel of the model is used up. *)
Inductive Outcome (A : Type) : Type :=
| Return (a : A)
| Throw (err : Exn)
| Exit (code : Z)
| Pending.

Arguments Return {A} a.
Arguments Throw {A} err.
Arguments Exit {A} code.
Arguments Pending {A}.

Definition returned {A} (o : Outcome A) : bool :=
  match o with Return _ => true | _ => false end.

Definition finished {A} (o : Outcome A) : bool :=
  match o with Pending => false | _ => true end.

(** [array.length], as a JavaScript number. *)
Definition length_Z {A} (l : list A) : Z := Z.of_nat (List.length l).

(** The requests for a page that a trace holds, as (per_page, page). *)
Fixpoint get_requests (evs : list Event) : list (Z * Z) :=
  match evs with
  | [] => []
  | ApiGet pp p _ :: evs' => (pp, p) :: get_requests evs'
  | _ :: evs' => get_requests evs'
  end.

(** The delete requests that a trace holds, as (branch name, succeeded). *)
Fixpoint delete_requests (evs : list Event) : list (string * bool) :=
  match evs with
  | [] => []
  | ApiDelete n ok :: evs' => (n, ok) :: delete_requests evs'
  | _ :: evs' => delete_requests evs'
  end.

Section Cleaner.

Variable E : Env.

(** The mutable state of a run: the outside world, the [result] object, the
    closure variables [deletedCount] and [failedCount], and the trace. *)
Record State : Type := {
  world : World E;
  result : Result;
  deletedCount : Z;
  failedCount : Z;
  events : list Event
}.

Definition M (A : Type) : Type := State -> Outcome A * State.

Definition ret {A} (a : A) : M A := fun s => (Return a, s).

Definition bind {A B} (m : M A) (k : A -> M B) : M B :=
  fun s =>
    match m s with
    | (Return a, s') => k a s'
    | (Throw err, s') => (Throw err, s')
    | (Exit code, s') => (Exit code, s')
    | (Pending, s') => (Pending, s')
    end.

Notation "x <- m ;; k" := (bind m (fun x => k))
  (at level 61, m at next level, right associativity).
Notation "m ;; k" := (bind m (fun _ => k))
  (at level 61, right associativity).

Definition throw {A} (err : Exn) : M A := fun s => (Throw err, s).

(** [process.exit(code)]: nothing of the program runs after it. *)
Definition process_exit {A} (code : Z) : M A := fun s => (Exit code, s).

Definition pending {A} : M A := fun s => (Pending, s).

(** [try { body } catch (err) { handler }]. *)
Definition try_catch {A} (body : M A) (handler : Exn -> M A) : M A :=
  fun s =>
    match body s with
    | (Throw err, s') => handler err s'
    | r => r
    end.

Definition when (c : bool) (m : M unit) : M unit :=
  if c then m else ret tt.

Definition emit (ev : Event) : M unit :=
  fun s =>
    (Return tt,
     {| world := world s; result := result s; deletedCount := deletedCount s;
        failedCount := failedCount s; events := events s ++ [ev] |}).

Definition console (l : Line) : M unit := emit (Console l).

Definition set_world (w : World E) (s : State) : State :=
  {| world := w; result := result s; deletedCount := deletedCount s;
     failedCount := failedCount s; events := events s |}.

Definition update_result (f : Result -> Result) : M unit :=
  fun s =>
    (Return tt,
     {| world := world s; result := f (result s); deletedCount := deletedCount s;
        failedCount := failedCount s; events := events s |}).

Definition get_result : M Result := fun s => (Return (result s), s).
Definition get_deletedCount : M Z := fun s => (Return (deletedCount s), s).
Definition get_failedCount : M Z := fun s => (Return (failedCount s), s).

(** [deletedCount++] and [failedCount++]. *)
Definition incr_deletedCount : M unit :=
  fun s =>
    (Return tt,
     {| world := world s; result := result s; deletedCount := deletedCount s + 1;
        failedCount := failedCount s; events := events s |}).

Definition incr_failedCount : M unit :=
  fun s =>
    (Return tt,
     {| world := world s; result := result s; deletedCount := deletedCount s;
        failedCount := failedCount s + 1; events := events s |}).

(** [await api.get("/repository/branches", { params: { per_page, page } })]:
    the data of the response, or the axios error thrown. *)
Definition api_get_branches (per_page page : Z) : M (list Branch) :=
  fun s =>
    match api_get E per_page page (world s) with
    | (inr data, w) =>
        bind (emit (ApiGet per_page page true)) (fun _ => ret data) (set_world w s)
    | (inl e, w) =>
        bind (emit (ApiGet per_page page false)) (fun _ => throw (AxiosError e)) (set_world w s)
    end.

(** [await api.delete(`/repository/branches/${encodeURIComponent(branchName)}`)]. *)
Definition api_delete_branch (branchName : string) : M unit :=
  fun s =>
    match api_delete E branchName (world s) with
    | (inr _, w) =>
        bind (emit (ApiDelete branchName true)) (fun _ => ret tt) (set_world w s)
    | (inl e, w) =>
        bind (emit (ApiDelete branchName false)) (fun _ => throw (AxiosError e)) (set_world w s)
    end.

(** [Date.now()]. *)
Definition now : M Z :=
  fun s => let (t, w) := Date_now E (world s) in (Return t, set_world w s).

(** [new Date(s).getTime()]. *)
Definition getTime (s : string) : JS.number :=
  match Date_parse E s with
  | Some t => JS.of_Z t
  | None => JS.NaN
  end.

(** [array.filter(p)] with an effectful predicate: the predicate is called
    on every element, in order. *)
Fixpoint filterM {A} (p : A -> M bool) (l : list A) : M (list A) :=
  match l with
  | [] => ret []
  | x :: xs =>
      keep <- p x ;;
      rest <- filterM p xs ;;
      ret (if keep then x :: rest else rest)
  end.

(** [for (const x of l) { await f(x) }]. *)
Fixpoint forEach {A} (f : A -> M unit) (l : list A) : M unit :=
  match l with
  | [] => ret tt
  | x :: xs => f x ;; forEach f xs
  end.

(* ===================================================================== *)
(** ** [runCleaner] and its inner functions *)
(* ===================================================================== *)

Variable cfg : Config.

Definition perPage : Z := 100.

(** Milliseconds in a day: [1000 * 60 * 60 * 24]. *)
Definition msPerDay : Z := 1000 * 60 * 60 * 24.

(** The [while (true)] loop of [getBranches], cleaner.js lines 93-101, from
    the accumulated [branches] and the current [page].  One unit of fuel is
    one iteration. *)
Fixpoint getBranches_loop (fuel : nat) (branches : list Branch) (page : Z)
  : M (list Branch) :=
  match fuel with
  | O => pending
  | S fuel' =>
      data <- api_get_branches perPage page ;;
      let branches' := branches ++ data in
      if length_Z data <? perPage then ret branches'
      else getBranches_loop fuel' branches' (page + 1)
  end.

(** [getBranches()], cleaner.js lines 87-112. *)
Definition getBranches (fuel : nat) : M (list Branch) :=
  try_catch
    (getBranches_loop fuel [] 1)
    (fun err =>
       let error := formatGitLabError err in
       when (negb (json cfg))
         (console (LineFetchError (message error)) ;;
          console (LineFetchAction (action error))) ;;
       throw (JsError "Failed to fetch branches from GitLab.")).

(** [daysSinceLastUpdate] of [isBranchStale] at the clock reading [t]. *)
Definition daysSinceLastUpdate (t : Z) (branch : Branch) : JS.number :=
  JS.div (JS.sub (JS.of_Z t) (getTime (committed_date branch)))
         (JS.of_Z msPerDay).

(** [isBranchStale(branch)], cleaner.js lines 114-120.  The clock is read
    at every call. *)
Definition isBranchStale (branch : Branch) : M bool :=
  t <- now ;;
  ret (JS.gt (daysSinceLastUpdate t branch) (staleDays cfg)).

(** [excludedBranches.includes(x)]. *)
Definition includes (l : list string) (x : string) : bool :=
  existsb (String.eqb x) l.

(** The predicate of the filter, cleaner.js lines 163-167; [&&] evaluates
    its right operand only when the left one is true. *)
Definition eligible (branch : Branch) : M bool :=
  if negb (String.eqb (name branch) (mainBranch cfg)) then
    if negb (protected branch) then
      stale <- isBranchStale branch ;;
      if stale then ret (negb (includes (excludedBranches cfg) (name branch)))
      else ret false
    else ret false
  else ret false.

(** [branches.filter(...)], cleaner.js lines 162-168. *)
Definition staleBranches (branches : list Branch) : M (list Branch) :=
  filterM eligible branches.

(** [deleteBranch(branchName)], cleaner.js lines 122-152. *)
Definition deleteBranch (branchName : string) : M unit :=
  if dryRun cfg then
    when (negb (json cfg)) (console (LineDryRun branchName))
  else
    try_catch
      (api_delete_branch branchName ;;
       incr_deletedCount ;;
       update_result (fun r =>
         {| branchesScanned := branchesScanned r;
            branchesEligible := branchesEligible r;
            branchesDeleted := branchesDeleted r + 1;
            branchesFailed := branchesFailed r;
            failedBranches := failedBranches r;
            success := success r |}) ;;
       when (negb (json cfg)) (console (LineDeleted branchName)))
      (fun err =>
         incr_failedCount ;;
         update_result (fun r =>
           {| branchesScanned := branchesScanned r;
              branchesEligible := branchesEligible r;
              branchesDeleted := branchesDeleted r;
              branchesFailed := branchesFailed r + 1;
              failedBranches := failedBranches r ++ [branchName];
              success := false |}) ;;
         when (negb (json cfg))
           (console (LineDeleteFailed branchName (message (formatGitLabError err))))).

Definition set_branchesScanned (n : Z) : M unit :=
  update_result (fun r =>
    {| branchesScanned := n;
       branchesEligible := branchesEligible r;
       branchesDeleted := branchesDeleted r;
       branchesFailed := branchesFailed r;
       failedBranches := failedBranches r;
       success := success r |}).

Definition set_branchesEligible (n : Z) : M unit :=
  update_result (fun r =>
    {| branchesScanned := branchesScanned r;
       branchesEligible := n;
       branchesDeleted := branchesDeleted r;
       branchesFailed := branchesFailed r;
       failedBranches := failedBranches r;
       success := success r |}).

Definition set_success (b : bool) : M unit :=
  update_result (fun r =>
    {| branchesScanned := branchesScanned r;
       branchesEligible := branchesEligible r;
       branchesDeleted := branchesDeleted r;
       branchesFailed := branchesFailed r;
       failedBranches := failedBranches r;
       success := b |}).

(** [console.log(JSON.stringify(result, null, 2))]. *)
Definition print_json : M unit :=
  r <- get_result ;; console (LineJson r).

(** The summary of the human-readable mode, cleaner.js lines 182-202. *)
Definition print_summary (eligibleCount : Z) : M unit :=
  console LineSummary ;;
  console (LineEligible eligibleCount) ;;
  d <- get_deletedCount ;;
  console (LineProcessed (dryRun cfg) d) ;;
  f <- get_failedCount ;;
  when (f >? 0) (console (LineFailedDeletions f)) ;;
  console (LineExcluded
             (match excludedBranches cfg with
              | [] => "None"
              | _ => String.concat ", " (excludedBranches cfg)
              end)).

(** The [try] block of [runCleaner], cleaner.js lines 154-210. *)
Definition runCleaner_body (fuel : nat) : M unit :=
  when (negb (json cfg)) (console LineFetching) ;;
  branches <- getBranches fuel ;;
  set_branchesScanned (length_Z branches) ;;
  stale <- staleBranches branches ;;
  set_branchesEligible (length_Z stale) ;;
  when (negb (json cfg)) (console (LineFound (length_Z stale))) ;;
  forEach (fun branch => deleteBranch (name branch)) stale ;;
  when (negb (json cfg)) (print_summary (length_Z stale)) ;;
  when (json cfg) print_json ;;
  f <- get_failedCount ;;
  if f >? 0 then process_exit 2 else ret tt.

(** [runCleaner(...)], cleaner.js lines 55-223, after the creation of the
    axios instance and of [result]. *)
Definition runCleaner (fuel : nat) : M unit :=
  try_catch
    (runCleaner_body fuel)
    (fun err =>
       set_success false ;;
       (if json cfg then print_json
        else console LineAborted ;; console (LineMessage (exn_message err))) ;;
       process_exit 2).

(** The state in which [runCleaner] starts: [result] as initialised at
    lines 72-82, both counters zero, nothing done yet. *)
Definition initial (w : World E) : State :=
  {| world := w;
     result := {| branchesScanned := 0; branchesEligible := 0;
                  branchesDeleted := 0; branchesFailed := 0;
                  failedBranches := []; success := true |};
     deletedCount := 0;
     failedCount := 0;
     events := [] |}.

(** A whole run against the world [w]. *)
Definition run (fuel : nat) (w : World E) : Outcome unit * State :=
  runCleaner fuel (initial w).

End Cleaner.

Arguments world {E} s.
Arguments result {E} s.
Arguments deletedCount {E} s.
Arguments failedCount {E} s.
Arguments events {E} s.
Arguments set_world {E} w s.

(* ===================================================================== *)
(** ** A scripted environment for concrete runs *)
(* ===================================================================== *)

Module Sim.

(** A script fixes what the outside does: the clock shows [start]
    milliseconds at its first reading and [tick] milliseconds more at every
    further one; the host answers the request for page [p] with [pages p]
    and rejects the deletion of the branches that [rejects] selects; [dates]
    is the table of the date strings that parse, with their time values in
    milliseconds. *)
Record Script : Type := {
  start : Z;
  tick : Z;
  pages : Z -> ApiError + list Branch;
  rejects : string -> bool;
  dates : list (string * Z)
}.

Fixpoint lookup (s : string) (table : list (string * Z)) : option Z :=
  match table with
  | [] => None
  | (k, v) :: table' => if String.eqb s k then Some v else lookup s table'
  end.

Definition forbidden : ApiError :=
  {| err_message := "Request failed with status code 403";
     response := Some {| status := 403; data_message := None |} |}.

Definition timeout : ApiError :=
  {| err_message := "timeout of 15000ms exceeded"; response := None |}.

(** The world of a scripted environment is the number of readings of the
    clock so far. *)
Definition env (sc : Script) : Env :=
  {| World := Z;
     api_get := fun _ page w => (pages sc page, w);
     api_delete := fun branchName w =>
       (if rejects sc branchName then inl forbidden else inr tt, w);
     Date_now := fun w => (w * tick sc + start sc, w + 1);
     Date_parse := fun s => lookup s (dates sc) |}.

Definition day : Z := 86400000.

(** Midnights (UTC) of 1970, by their day number since the epoch. *)
Definition calendar : list (string * Z) :=
  [ ("1970-01-01T00:00:00.000Z", 0);
    ("1970-03-02T00:00:00.000Z", 60 * day);
    ("1970-04-21T00:00:00.000Z", 110 * day);
    ("1970-05-11T00:00:00.000Z", 130 * day);
    ("1970-07-10T00:00:00.000Z", 190 * day);
    ("1970-07-20T00:00:00.000Z", 200 * day) ].

Definition branch (n : string) (p : bool) (d : string) : Branch :=
  {| name := n; protected := p; committed_date := d |}.

Definition config (main : string) (days : Z) (dry : bool)
  (excluded : list string) (js : bool) : Config :=
  {| gitlabToken := "glpat-token"; projectId := "123456";
     mainBranch := main; staleDays := JS.of_Z days; dryRun := dry;
     excludedBranches := excluded; json := js |}.

End Sim.

(* ===================================================================== *)
(** ** The staleness filter *)
(* ===================================================================== *)

(** The value of the filter predicate of [staleBranches] on [b] when the
    clock reads [t] at its call. *)
Definition eligible_at (E : Env) (cfg : Config) (t : Z) (b : Branch) : bool :=
  negb (String.eqb (name b) (mainBranch cfg))
  && negb (protected b)
  && JS.gt (daysSinceLastUpdate E t b) (staleDays cfg)
  && negb (includes (excludedBranches cfg) (name b)).

(** The clock of [E] shows [t] at every reading. *)
Definition clock_reads (E : Env) (t : Z) : Prop :=
  forall w, fst (Date_now E w) = t.

(** [R] relates worlds in which the clock shows the same readings, now and
    at every later reading. *)
Definition same_readings (E : Env) (R : World E -> World E -> Prop) : Prop :=
  forall w1 w2,
    R w1 w2 ->
    fst (Date_now E w1) = fst (Date_now E w2) /\
    R (snd (Date_now E w1)) (snd (Date_now E w2)).

(** Whether the filter predicate gets as far as [isBranchStale], and so
    reads the clock, on [b]. *)
Definition reads_clock (cfg : Config) (b : Branch) : bool :=
  negb (String.eqb (name b) (mainBranch cfg)) && negb (protected b).


(* ===================================================================== *)
(** ** Concrete scenarios *)
(* ===================================================================== *)

Module Scenario.

Import Sim.

(** A host with no branch that accepts every deletion, on 1970-07-20 (day
    200 after the epoch), with a clock that does not advance. *)
Definition day200 : Script :=
  {| start := 200 * day; tick := 0;
     pages := fun _ => inr [];
     rejects := fun _ => false;
     dates := calendar |}.

(** The branches of the example of the specification, by their age on day
    200: main 200 days, feat/x 70 days, release 90 days (protected),
    feat/y 10 days. *)
Definition feat_x : Branch := branch "feat/x" false "1970-05-11T00:00:00.000Z".

Definition example_branches : list Branch :=
  [ branch "main" false "1970-01-01T00:00:00.000Z";
    feat_x;
    branch "release" true "1970-04-21T00:00:00.000Z";
    branch "feat/y" false "1970-07-10T00:00:00.000Z" ].

Definition example_config : Config := config "main" 60 true [] false.

(** A clock that starts on day 60 (1970-03-02, midnight) and advances by
    one millisecond at every reading. *)
Definition ticking : Script :=
  {| start := 60 * day; tick := 1;
     pages := fun _ => inr [];
     rejects := fun _ => false;
     dates := calendar |}.

(** A branch whose last commit is the epoch: exactly 60 days old at the
    first reading of the [ticking] clock. *)
Definition sixty_days_old : Branch := branch "old" false "1970-01-01T00:00:00.000Z".

(** A clock stopped 60.01 days after the epoch (60 days and 864 seconds). *)
Definition day60_01 : Script :=
  {| start := 60 * day + 864000; tick := 0;
     pages := fun _ => inr [];
     rejects := fun _ => false;
     dates := calendar |}.

(** A branch whose commit date does not parse. *)
Definition undated : Branch := branch "undated" false "not a date".

(** [count] branches named [prefix1], [prefix2], ... from the number [from]
    on, unprotected, all with the commit date [date]. *)
Definition numbered (prefix : string) (from count : nat) (date : string)
  : list Branch :=
  map (fun i => branch (prefix ++ string_of_Z (Z.of_nat i))%string false date)
      (seq from count).

Definition epoch : string := "1970-01-01T00:00:00.000Z".

(** Five branches of 200 days, on a host that rejects the deletion of the
    third of them. *)
Definition five_branches : list Branch := numbered "branch#" 1 5 epoch.

Definition third_fails : Script :=
  {| start := 200 * day; tick := 1;
     pages := fun p => if p =? 1 then inr five_branches else inr [];
     rejects := fun n => String.eqb n "branch#3";
     dates := calendar |}.

Definition live_config : Config := config "main" 60 false [] true.

(** A host with 237 branches: two pages of 100, one of 37; a request for a
    fourth page would time out. *)
Definition page1 : list Branch := numbered "b" 1 100 epoch.
Definition page2 : list Branch := numbered "b" 101 100 epoch.
Definition page3 : list Branch := numbered "b" 201 37 epoch.

Definition three_pages : Script :=
  {| start := 200 * day; tick := 1;
     pages := fun p =>
       if p =? 1 then inr page1
       else if p =? 2 then inr page2
       else if p =? 3 then inr page3
       else inl timeout;
     rejects := fun _ => false;
     dates := calendar |}.

(** A host that serves a first page of 100 branches and answers the request
    for the second page with 403. *)
Definition second_page_forbidden : Script :=
  {| start := 200 * day; tick := 1;
     pages := fun p => if p =? 1 then inr page1 else inl forbidden;
     rejects := fun _ => false;
     dates := calendar |}.

End Scenario.

(* ===================================================================== *)
(** ** What the host does during the listing *)
(* ===================================================================== *)

(** [serves E w p fulls last w']: from the world [w], the host answers the
    requests for the pages [p], [p + 1], ... (each of [perPage] items at
    most per request) first with the pages [fulls], none of them shorter
    than [perPage], and then with the page [last], which is shorter; [w'] is
    the world after the last answer. *)
Inductive serves (E : Env) :
  World E -> Z -> list (list Branch) -> list Branch -> World E -> Prop :=
| serves_short w p data w' :
    api_get E perPage p w = (inr data, w') ->
    length_Z data < perPage ->
    serves E w p [] data w'
| serves_full w p data w1 fulls last w' :
    api_get E perPage p w = (inr data, w1) ->
    perPage <= length_Z data ->
    serves E w1 (p + 1) fulls last w' ->
    serves E w p (data :: fulls) last w'.

(** [refuses E w p n e w']: from the world [w], the host answers the
    requests for the pages [p], ..., [p + n - 1] with pages that are not
    shorter than [perPage], and the request for the page [p + n] fails with
    the error [e]; [w'] is the world after the failure. *)
Inductive refuses (E : Env) :
  World E -> Z -> nat -> ApiError -> World E -> Prop :=
| refuses_now w p e w' :
    api_get E perPage p w = (inl e, w') ->
    refuses E w p O e w'
| refuses_later w p data w1 n e w' :
    api_get E perPage p w = (inr data, w1) ->
    perPage <= length_Z data ->
    refuses E w1 (p + 1) n e w' ->
    refuses E w p (S n) e w'.

(** The successful requests for the [n] pages from page [p] on. *)
Fixpoint page_requests (p : Z) (n : nat) : list Event :=
  match n with
  | O => []
  | S n' => ApiGet perPage p true :: page_requests (p + 1) n'
  end.

(** The state [s] after the outside moved to the world [w] and the events
    [evs] were added to the trace. *)
Definition after {E : Env} (s : State E) (w : World E) (evs : list Event) : State E :=
  {| world := w; result := result s; deletedCount := deletedCount s;
     failedCount := failedCount s; events := events s ++ evs |}.

(* ===================================================================== *)
(** ** What a run leaves behind *)
(* ===================================================================== *)

(** What the properties below look at in a state: the [result] object, the
    two counters, and the requests of the trace.  Console lines and the
    world are left out. *)
Record Observed : Type := {
  seen_result : Result;
  seen_deletedCount : Z;
  seen_failedCount : Z;
  seen_gets : list (Z * Z);
  seen_deletes : list (string * bool)
}.

Definition observe {E : Env} (s : State E) : Observed :=
  {| seen_result := result s;
     seen_deletedCount := deletedCount s;
     seen_failedCount := failedCount s;
     seen_gets := get_requests (events s);
     seen_deletes := delete_requests (events s) |}.

(** The delete requests that the host rejected, and those it accepted. *)
Definition rejected (reqs : list (string * bool)) : list (string * bool) :=
  filter (fun req => negb (snd req)) reqs.

Definition accepted (reqs : list (string * bool)) : list (string * bool) :=
  filter (fun req => snd req) reqs.

(** The effect on [result] of one delete request that the host accepted
    ([ok = true], the [try] branch of [deleteBranch]) or rejected (its
    [catch] branch). *)
Definition record_deletion (r : Result) (req : string * bool) : Result :=
  if snd req then
    {| branchesScanned := branchesScanned r;
       branchesEligible := branchesEligible r;
       branchesDeleted := branchesDeleted r + 1;
       branchesFailed := branchesFailed r;
       failedBranches := failedBranches r;
       success := success r |}
  else
    {| branchesScanned := branchesScanned r;
       branchesEligible := branchesEligible r;
       branchesDeleted := branchesDeleted r;
       branchesFailed := branchesFailed r + 1;
       failedBranches := failedBranches r ++ [fst req];
       success := false |}.

(** The state in which [runCleaner] calls [getBranches]. *)
Definition fetch_state (E : Env) (cfg : Config) (w : World E) : State E :=
  snd (when E (negb (json cfg)) (console E LineFetching) (initial E w)).

(** The call of [getBranches] of a run. *)
Definition fetch (E : Env) (cfg : Config) (fuel : nat) (w : World E)
  : Outcome (list Branch) * State E :=
  getBranches E cfg fuel (fetch_state E cfg w).

(** How a whole run ends, and the state it leaves. *)
Definition outcome (E : Env) (cfg : Config) (fuel : nat) (w : World E) : Outcome unit :=
  fst (run E cfg fuel w).

Definition final (E : Env) (cfg : Config) (fuel : nat) (w : World E) : State E :=
  snd (run E cfg fuel w).

(** A computation is silent when it returns and changes nothing of what is
    observed: neither [result], nor a counter, nor the requests issued. *)
Definition silent (E : Env) (m : M E unit) : Prop :=
  forall s, exists s', m s = (Return tt, s') /\ observe s' = observe s.

(** What [runCleaner] does with the branches that [getBranches] returned:
    the rest of its [try] block, cleaner.js lines 160-210. *)
Definition after_fetch (E : Env) (cfg : Config) (branches : list Branch) : M E unit :=
  bind E (set_branchesScanned E (length_Z branches)) (fun _ =>
  bind E (staleBranches E cfg branches) (fun stale =>
  bind E (set_branchesEligible E (length_Z stale)) (fun _ =>
  bind E (when E (negb (json cfg)) (console E (LineFound (length_Z stale)))) (fun _ =>
  bind E (forEach E (fun branch => deleteBranch E cfg (name branch)) stale) (fun _ =>
  bind E (when E (negb (json cfg)) (print_summary E cfg (length_Z stale))) (fun _ =>
  bind E (when E (json cfg) (print_json E)) (fun _ =>
  bind E (get_failedCount E) (fun f =>
  if f >? 0 then process_exit E 2 else ret E tt)))))))).

(** The [result] object once the lengths of the two lists are stored. *)
Definition counted (r : Result) (scanned eligible : Z) : Result :=
  {| branchesScanned := scanned;
     branchesEligible := eligible;
     branchesDeleted := branchesDeleted r;
     branchesFailed := branchesFailed r;
     failedBranches := failedBranches r;
     success := success r |}.

(** The zero-initialised [result], as the catch of [runCleaner] leaves it. *)
Definition aborted_result : Result :=
  {| branchesScanned := 0; branchesEligible := 0;
     branchesDeleted := 0; branchesFailed := 0;
     failedBranches := []; success := false |}.

(* ===================================================================== *)
(** ** The trace of a run, event by event *)
(* ===================================================================== *)

(** The lines that a trace prints, in order. *)
Fixpoint console_lines (evs : list Event) : list Line :=
  match evs with
  | [] => []
  | Console l :: evs' => l :: console_lines evs'
  | _ :: evs' => console_lines evs'
  end.

(** The branch names that the dry-run lines of a trace announce. *)
Fixpoint previewed (evs : list Event) : list string :=
  match evs with
  | [] => []
  | Console (LineDryRun n) :: evs' => n :: previewed evs'
  | _ :: evs' => previewed evs'
  end.

Definition is_get (ev : Event) : bool :=
  match ev with ApiGet _ _ _ => true | _ => false end.

Definition is_delete (ev : Event) : bool :=
  match ev with ApiDelete _ _ => true | _ => false end.

(** Whether the host accepted a delete request. *)
Definition accepted_by_host (answer : ApiError + unit) : bool :=
  match answer with inr _ => true | inl _ => false end.

(** What [deleteBranch] adds to the trace outside a dry run, for the branch
    name and the answer of the host: the request, and in the human-readable
    mode the line of lines 137 or 147-149. *)
Definition deletion_events (cfg : Config) (req : string * (ApiError + unit))
  : list Event :=
  match snd req with
  | inr _ =>
      ApiDelete (fst req) true ::
      (if json cfg then [] else [Console (LineDeleted (fst req))])
  | inl e =>
      ApiDelete (fst req) false ::
      (if json cfg then []
       else [Console (LineDeleteFailed (fst req)
                        (message (formatGitLabError (AxiosError e))))])
  end.

(** What [deleteBranch] adds to the trace in a dry run. *)
Definition preview_events (cfg : Config) (branchName : string) : list Event :=
  if json cfg then [] else [Console (LineDryRun branchName)].

(** The delete request of a branch name with the answer of the host, as
    [delete_requests] lists it. *)
Definition as_request (req : string * (ApiError + unit)) : string * bool :=
  (fst req, accepted_by_host (snd req)).

(** The lines of [print_summary] for the eligible count [n] and the values
    [d] and [f] of the two counters. *)
Definition summary_lines (cfg : Config) (n d f : Z) : list Line :=
  [LineSummary; LineEligible n; LineProcessed (dryRun cfg) d]
  ++ (if f >? 0 then [LineFailedDeletions f] else [])
  ++ [LineExcluded
        (match excludedBranches cfg with
         | [] => "None"
         | _ => String.concat ", " (excludedBranches cfg)
         end)].

(** What the end of the [try] block prints: the summary in the
    human-readable mode, the result in the machine-readable mode. *)
Definition closing_lines (cfg : Config) (r : Result) (n d f : Z) : list Line :=
  (if json cfg then [] else summary_lines cfg n d f)
  ++ (if json cfg then [LineJson r] else []).

(** What the catch of [getBranches] prints for the error [err]. *)
Definition fetch_error_lines (cfg : Config) (err : Exn) : list Line :=
  if json cfg then []
  else [LineFetchError (message (formatGitLabError err));
        LineFetchAction (action (formatGitLabError err))].

(** [l'] holds elements of [l], in the order of [l]. *)
Inductive subsequence {A : Type} : list A -> list A -> Prop :=
| subsequence_nil : subsequence [] []
| subsequence_skip x l' l : subsequence l' l -> subsequence l' (x :: l)
| subsequence_keep x l' l : subsequence l' l -> subsequence (x :: l') (x :: l).

(** From the world [w], the host answers the requests for the [n] pages
    from [p] on with pages that are not shorter than [perPage]. *)
Inductive serves_full_pages (E : Env) : World E -> Z -> nat -> World E -> Prop :=
| serves_none w p : serves_full_pages E w p O w
| serves_one_more w p data w1 n w' :
    api_get E perPage p w = (inr data, w1) ->
    perPage <= length_Z data ->
    serves_full_pages E w1 (p + 1) n w' ->
    serves_full_pages E w p (S n) w'.

(** The configuration [cfg] with another [dryRun] flag. *)
Definition with_dryRun (dry : bool) (cfg : Config) : Config :=
  {| gitlabToken := gitlabToken cfg; projectId := projectId cfg;
     mainBranch := mainBranch cfg; staleDays := staleDays cfg;
     dryRun := dry; excludedBranches := excludedBranches cfg;
     json := json cfg |}.

(** The state [s] with the events [evs] added to its trace. *)
Definition add_events {E : Env} (s : State E) (evs : list Event) : State E :=
  {| world := world s; result := result s; deletedCount := deletedCount s;
     failedCount := failedCount s; events := events s ++ evs |}.

(** The state of a run that went on from [s]: the outside moved to [w],
    [result] and the counters became [r], [d] and [f], and [evs] was added
    to the trace. *)
Definition went_on {E : Env} (s : State E) (w : World E) (r : Result)
  (d f : Z) (evs : list Event) : State E :=
  {| world := w; result := r; deletedCount := d; failedCount := f;
     events := events s ++ evs |}.

(** What the run prints before it lists the branches, and once it has
    filtered them. *)
Definition fetching_events (cfg : Config) : list Event :=
  if json cfg then [] else [Console LineFetching].

Definition found_events (cfg : Config) (n : Z) : list Event :=
  if json cfg then [] else [Console (LineFound n)].

(** What the catch of [runCleaner] prints for the error [err], with the
    result [r] as the catch left it. *)
Definition abort_lines (cfg : Config) (r : Result) (err : Exn) : list Line :=
  if json cfg then [LineJson r]
  else [LineAborted; LineMessage (exn_message err)].

(** [R] relates a world to one in which the clock shows a reading that is
    not earlier, now and at every later reading. *)
Definition later_readings (E : Env) (R : World E -> World E -> Prop) : Prop :=
  forall w1 w2,
    R w1 w2 ->
    fst (Date_now E w1) <= fst (Date_now E w2) /\
    R (snd (Date_now E w1)) (snd (Date_now E w2)).

(** The six classes of [formatGitLabError]. *)
Definition error_types : list string :=
  ["network"; "auth"; "permission"; "not_found"; "rate_limit"; "unknown"].

(** Runs that print: a host with the five branches of [five_branches] that
    rejects the deletion of the third, run in the human-readable mode. *)
Module Scenario2.

Import Sim.

Definition live_verbose : Config := config "main" 60 false [] false.

Definition dry_verbose : Config := config "main" 60 true [] false.

Definition dry_json : Config := config "main" 60 true [] true.

(** A configuration whose threshold is not a number. *)
Definition no_threshold : Config :=
  {| gitlabToken := "glpat-token"; projectId := "123456";
     mainBranch := "main"; staleDays := JS.NaN; dryRun := false;
     excludedBranches := []; json := true |}.

End Scenario2.

Module Scenario3.

Import Sim.

(** A host that answers every page request with the same 100 branches. *)
Definition endless : Script :=
  {| start := 200 * day; tick := 1;
     pages := fun _ => inr Scenario.page1;
     rejects := fun _ => false;
     dates := calendar |}.

End Scenario3.

(* ===================================================================== *)
(** ** The rounding of binary64 *)
(* ===================================================================== *)

From Stdlib Require Qabs Lqa.

Module Rounded.

(** The finite numbers of binary64: [m * 2^e] with a significand [m] of at
    most 53 bits and an exponent [e] from -1074 to 971. *)
Definition representable (q : Q) : Prop :=
  exists m e : Z,
    Z.abs m < 2 ^ 53 /\ -1074 <= e <= 971 /\ (q == inject_Z m * 2 ^ e)%Q.

(** [f] may be the result of an operation of JavaScript ([-], [/]) whose
    exact result is [q]: a finite number of binary64 that is nearest to
    [q].  Which of two nearest numbers is taken (the one with the even
    significand) is left open. *)
Definition nearest (q f : Q) : Prop :=
  representable f /\
  forall g : Q, representable g -> (Qabs.Qabs (q - f) <= Qabs.Qabs (q - g))%Q.

End Rounded.

(* ===================================================================== *)
(** ** The command line: [src/bin/index.js] *)
(* ===================================================================== *)

(** The options object that commander hands to the program,
    [program.opts()], restricted to the options that [run] reads; [None] is
    [undefined].  [opt_staleDays] holds the value of [Number] of the option,
    as [staleDays] of [Config] does; [opt_dryRun] is [None] when the option
    is not a boolean. *)
Record Options : Type := {
  opt_token : option string;
  opt_projectId : option string;
  opt_mainBranch : option string;
  opt_staleDays : option JS.number;
  opt_exclude : option (list string);
  opt_dryRun : option bool
}.

(** The answers object that [inquirer.prompt] resolves to. *)
Record Answers : Type := {
  ans_token : option string;
  ans_projectId : option string;
  ans_mainBranch : option string;
  ans_staleDays : option JS.number;
  ans_exclude : option (list string);
  ans_dryRun : option bool
}.

(** The questions of [promptForMissingOptions], by the option they ask. *)
Inductive Question : Type :=
| AskToken
| AskProjectId
| AskMainBranch
| AskStaleDays
| AskExclude
| AskDryRun.

(** [!s] for a string that may be undefined: undefined and the empty string
    are falsy. *)
Definition falsy_string (s : option string) : bool :=
  match s with
  | None => true
  | Some s => String.eqb s ""
  end.

(** [!n] for a number that may be undefined: undefined, NaN and zero are
    falsy. *)
Definition falsy_number (n : option JS.number) : bool :=
  match n with
  | None => true
  | Some JS.NaN => true
  | Some (JS.Num q) => Qeq_bool q 0
  end.

(** [a ?? b]. *)
Definition nullish {A} (a b : option A) : option A :=
  match a with
  | Some _ => a
  | None => b
  end.

(** [a ?? b] with a [b] that is defined. *)
Definition nullish_or {A} (a : option A) (b : A) : A :=
  match a with
  | Some x => x
  | None => b
  end.

(** The list [questions] that [promptForMissingOptions] builds, index.js
    lines 92-147. *)
Definition questions (options : Options) : list Question :=
  (if falsy_string (opt_token options) then [AskToken] else [])
  ++ (if falsy_string (opt_projectId options) then [AskProjectId] else [])
  ++ (if falsy_string (opt_mainBranch options) then [AskMainBranch] else [])
  ++ (if falsy_number (opt_staleDays options) then [AskStaleDays] else [])
  ++ (match opt_exclude options with None => [AskExclude] | Some _ => [] end)
  ++ (match opt_dryRun options with None => [AskDryRun] | Some _ => [] end).

(** The empty object [{}]. *)
Definition no_answers : Answers :=
  {| ans_token := None; ans_projectId := None; ans_mainBranch := None;
     ans_staleDays := None; ans_exclude := None; ans_dryRun := None |}.

(** [promptForMissingOptions()], index.js lines 91-150: [prompt] is
    [inquirer.prompt], which resolves to the answers or rejects. *)
Definition promptForMissingOptions (prompt : list Question -> Exn + Answers)
  (options : Options) : Exn + Answers :=
  match questions options with
  | [] => inr no_answers
  | qs => prompt qs
  end.

(** The token and the project of [finalInput], index.js lines 157-158. *)
Definition final_token (options : Options) (interactiveInput : Answers) : option string :=
  nullish (opt_token options) (ans_token interactiveInput).

Definition final_projectId (options : Options) (interactiveInput : Answers) : option string :=
  nullish (opt_projectId options) (ans_projectId interactiveInput).

(** The object [finalInput], index.js lines 156-167, as [runCleaner] takes it
    apart: [json] is not among its properties and defaults to false. *)
Definition finalInput (options : Options) (interactiveInput : Answers) : Config :=
  {| gitlabToken := nullish_or (final_token options interactiveInput) "";
     projectId := nullish_or (final_projectId options interactiveInput) "";
     mainBranch :=
       nullish_or (nullish (opt_mainBranch options) (ans_mainBranch interactiveInput)) "main";
     staleDays :=
       nullish_or (nullish (opt_staleDays options) (ans_staleDays interactiveInput))
                  (JS.of_Z 90);
     dryRun :=
       match opt_dryRun options with
       | Some b => b
       | None => nullish_or (ans_dryRun interactiveInput) true
       end;
     excludedBranches :=
       nullish_or (nullish (opt_exclude options) (ans_exclude interactiveInput)) [];
     json := false |}.

(** Whether the final safety validation of line 172 fails. *)
Definition missing_input (options : Options) (interactiveInput : Answers) : bool :=
  falsy_string (final_token options interactiveInput)
  || falsy_string (final_projectId options interactiveInput).

Definition usage_error : string :=
  "ERROR: --project-id and --token are required (flag or interactive).".

(** The function [run] of index.js, lines 152-186, on the options that
    [program.parse] (line 84) has left in [program.opts()].  The parsing of
    the command line is commander's and comes before [run]; it is not part
    of the model. *)
Definition cli (E : Env) (prompt : list Question -> Exn + Answers)
  (options : Options) (fuel : nat) : M E unit :=
  try_catch E
    (match promptForMissingOptions prompt options with
     | inl err => throw E err
     | inr interactiveInput =>
         if missing_input options interactiveInput then
           bind E (console E (LineMessage usage_error)) (fun _ => process_exit E 1)
         else
           bind E (runCleaner E (finalInput options interactiveInput) fuel)
             (fun _ => process_exit E 0)
     end)
    (fun err =>
       bind E (console E (LineMessage ("ERROR: " ++ exn_message err)%string))
         (fun _ => process_exit E 2)).

(** [run] called in the world [w]. *)
Definition cli_run (E : Env) (prompt : list Question -> Exn + Answers)
  (options : Options) (fuel : nat) (w : World E) : Outcome unit * State E :=
  cli E prompt options fuel (initial E w).

Module CliScenario.

(** The options that commander gives for
    [--project-id 123456 --token glpat-token --stale-days 60]: the options
    with a default, [mainBranch] and [dryRun], are set to it, and [exclude],
    which has none, is undefined. *)
Definition flags : Options :=
  {| opt_token := Some "glpat-token"; opt_projectId := Some "123456";
     opt_mainBranch := Some "main"; opt_staleDays := Some (JS.of_Z 60);
     opt_exclude := None; opt_dryRun := Some true |}.

(** The same with an empty token. *)
Definition empty_token : Options :=
  {| opt_token := Some ""; opt_projectId := Some "123456";
     opt_mainBranch := Some "main"; opt_staleDays := Some (JS.of_Z 60);
     opt_exclude := None; opt_dryRun := Some true |}.

(** A user who types a token whenever asked. *)
Definition types_token (qs : list Question) : Exn + Answers :=
  inr {| ans_token := Some "typed-token"; ans_projectId := None;
         ans_mainBranch := None; ans_staleDays := None; ans_exclude := None;
         ans_dryRun := None |}.

(** A prompt that fails. *)
Definition closed_terminal (qs : list Question) : Exn + Answers :=
  inl (JsError "User force closed the prompt").

End CliScenario.

(* ===================================================================== *)
(** ** The parser of [--exclude], index.js line 48 *)
(* ===================================================================== *)

From Stdlib Require Import Ascii.

Module Exclude.

(** [s.split(sep)] for a separator [sep] of one character: the pieces of
    [s] between the occurrences of [sep]; one piece more than there are
    occurrences. *)
Fixpoint split (sep : Ascii.ascii) (s : string) : list string :=
  match s with
  | EmptyString => [EmptyString]
  | String c s' =>
      if Ascii.eqb c sep then EmptyString :: split sep s'
      else match split sep s' with
           | [] => [String c EmptyString]
           | piece :: pieces => String c piece :: pieces
           end
  end.

Section Trim.

(** The test of the runtime for the characters that [trim] removes (white
    space and line terminators); the theorems hold for every such test. *)
Variable white : Ascii.ascii -> bool.

Fixpoint trimStart (s : string) : string :=
  match s with
  | EmptyString => EmptyString
  | String c s' => if white c then trimStart s' else s
  end.

Fixpoint trimEnd (s : string) : string :=
  match s with
  | EmptyString => EmptyString
  | String c s' =>
      match trimEnd s' with
      | EmptyString => if white c then EmptyString else String c EmptyString
      | t => String c t
      end
  end.

(** [s.trim()]. *)
Definition trim (s : string) : string := trimEnd (trimStart s).

(** [(value) => value.split(",").map(v => v.trim())]. *)
Definition parse (value : string) : list string :=
  map trim (split ","%char value).

Fixpoint all_white (s : string) : bool :=
  match s with
  | EmptyString => true
  | String c s' => white c && all_white s'
  end.

End Trim.

Fixpoint contains (c : Ascii.ascii) (s : string) : bool :=
  match s with
  | EmptyString => false
  | String c' s' => Ascii.eqb c' c || contains c s'
  end.

(** The number of occurrences of [c] in [s]. *)
Fixpoint occurrences (c : Ascii.ascii) (s : string) : nat :=
  match s with
  | EmptyString => O
  | String c' s' => (if Ascii.eqb c' c then 1 else 0) + occurrences c s'
  end.

(** A name as it may stand in the flag: with white space before and
    after. *)
Record Padded : Type := {
  before : string;
  written : string;
  behind : string
}.

Definition padded (p : Padded) : string :=
  (before p ++ written p ++ behind p)%string.

(** The white space of ASCII: tab, line feed, vertical tab, form feed,
    carriage return and space.  These are the characters below 128 that
    [trim] removes; it also removes white space outside ASCII (U+00A0,
    U+FEFF, the line separators U+2028 and U+2029, the space separators of
    Unicode), so [ascii_white] is the test of the runtime on ASCII input
    only. *)
Definition ascii_white (c : Ascii.ascii) : bool :=
  let n := Ascii.nat_of_ascii c in
  ((9 <=? n) && (n <=? 13))%nat || (n =? 32)%nat.

End Exclude.

Module ExcludeScenario.

Import Exclude.

(** The names of the flag [--exclude "main, develop ,release"]. *)
Definition names : list Padded :=
  [ {| before := ""; written := "main"; behind := "" |};
    {| before := " "; written := "develop"; behind := " " |};
    {| before := ""; written := "release"; behind := "" |} ].

End ExcludeScenario.
Section FilterFacts.

Variable E : Env.
Variable cfg : Config.

Lemma set_world_same (s : State E) : set_world (world s) s = s.
Proof. destruct s; reflexivity. Qed.

Lemma set_world_twice (w w' : World E) (s : State E) :
  set_world w (set_world w' s) = set_world w s.
Proof. reflexivity. Qed.

Lemma includes_In (l : list string) (x : string) :
  includes l x = true <-> In x l.
Proof.
  unfold includes. rewrite existsb_exists. split.
  - intros [y [Hy Heq]]. apply String.eqb_eq in Heq. now subst.
  - intros H. exists x. split; [assumption | apply String.eqb_refl].
Qed.

Lemma isBranchStale_run (b : Branch) (s : State E) :
  isBranchStale E cfg b s =
  (Return (JS.gt (daysSinceLastUpdate E (fst (Date_now E (world s))) b) (staleDays cfg)),
   set_world (snd (Date_now E (world s))) s).
Proof.
  unfold isBranchStale, bind, now, ret.
  destruct (Date_now E (world s)) as [t w]. reflexivity.
Qed.

(** One call of the predicate: it returns its value at the reading of the
    clock, and changes nothing but the world. *)
Lemma eligible_run (b : Branch) (s : State E) :
  exists w,
    eligible E cfg b s =
    (Return (eligible_at E cfg (fst (Date_now E (world s))) b), set_world w s).
Proof.
  unfold eligible, eligible_at.
  destruct (String.eqb (name b) (mainBranch cfg)); cbn [negb andb].
  - exists (world s). now rewrite set_world_same.
  - destruct (protected b); cbn [negb andb].
    + exists (world s). now rewrite set_world_same.
    + exists (snd (Date_now E (world s))).
      unfold bind. rewrite isBranchStale_run.
      destruct (JS.gt _ _); reflexivity.
Qed.

(** The filter always returns, keeps the order of the list, and changes
    nothing but the world (by reading the clock). *)
Lemma staleBranches_run (l : list Branch) :
  forall s : State E,
  exists l' w,
    staleBranches E cfg l s = (Return l', set_world w s) /\
    (forall b, In b l' -> In b l /\ exists t, eligible_at E cfg t b = true).
Proof.
  unfold staleBranches.
  induction l as [|x xs IH]; intros s.
  - exists [], (world s). cbn. rewrite set_world_same. split; [reflexivity | intros b []].
  - destruct (eligible_run x s) as [w Hx].
    destruct (IH (set_world w s)) as (l' & w' & Hxs & Hin).
    cbn [filterM]. unfold bind at 1. rewrite Hx.
    unfold bind at 1. rewrite Hxs. rewrite set_world_twice.
    unfold ret.
    destruct (eligible_at E cfg (fst (Date_now E (world s))) x) eqn:Hel.
    + exists (x :: l'), w'. split; [reflexivity|].
      intros b [Hb | Hb].
      * subst b. split; [now left | eauto].
      * destruct (Hin b Hb). split; [now right | assumption].
    + exists l', w'. split; [reflexivity|].
      intros b Hb. destruct (Hin b Hb). split; [now right | assumption].
Qed.

(** With a clock that shows [t] throughout, the filter is [List.filter] of
    the predicate at [t]. *)
Lemma staleBranches_fixed_clock (t : Z) (l : list Branch) :
  clock_reads E t ->
  forall s : State E,
  exists w,
    staleBranches E cfg l s = (Return (filter (eligible_at E cfg t) l), set_world w s).
Proof.
  intros Hclock. unfold staleBranches.
  induction l as [|x xs IH]; intros s.
  - exists (world s). cbn. now rewrite set_world_same.
  - destruct (eligible_run x s) as [w Hx]. rewrite Hclock in Hx.
    destruct (IH (set_world w s)) as (w' & Hxs).
    exists w'. cbn [filterM filter]. unfold bind at 1. rewrite Hx.
    unfold bind at 1. rewrite Hxs. reflexivity.
Qed.

(** One call of the predicate, with the world it leaves. *)
Lemma eligible_run_world (b : Branch) (s : State E) :
  eligible E cfg b s =
  (Return (eligible_at E cfg (fst (Date_now E (world s))) b),
   if reads_clock cfg b then set_world (snd (Date_now E (world s))) s else s).
Proof.
  unfold eligible, eligible_at, reads_clock.
  destruct (String.eqb (name b) (mainBranch cfg)); cbn [negb andb]; [reflexivity|].
  destruct (protected b); cbn [negb andb]; [reflexivity|].
  unfold bind. rewrite isBranchStale_run.
  destruct (JS.gt _ _); reflexivity.
Qed.

(** The list that the filter returns depends on the world only through the
    readings of the clock. *)
Lemma staleBranches_same_readings (R : World E -> World E -> Prop) (l : list Branch) :
  same_readings E R ->
  forall s1 s2 : State E,
    R (world s1) (world s2) ->
    fst (staleBranches E cfg l s1) = fst (staleBranches E cfg l s2).
Proof.
  intros HR. unfold staleBranches.
  induction l as [|x xs IH]; intros s1 s2 Hw; [reflexivity|].
  cbn [filterM]. unfold bind at 1 3.
  rewrite (eligible_run_world x s1), (eligible_run_world x s2).
  destruct (HR _ _ Hw) as [Hread Hnext]. rewrite Hread.
  set (keep := eligible_at E cfg (fst (Date_now E (world s2))) x).
  assert (Hrest :
            fst (filterM E (eligible E cfg) xs
                   (if reads_clock cfg x
                    then set_world (snd (Date_now E (world s1))) s1 else s1)) =
            fst (filterM E (eligible E cfg) xs
                   (if reads_clock cfg x
                    then set_world (snd (Date_now E (world s2))) s2 else s2))).
  { apply IH. destruct (reads_clock cfg x); [exact Hnext | exact Hw]. }
  unfold bind.
  destruct (filterM E (eligible E cfg) xs
              (if reads_clock cfg x
               then set_world (snd (Date_now E (world s1))) s1 else s1))
    as [o1 s1'].
  destruct (filterM E (eligible E cfg) xs
              (if reads_clock cfg x
               then set_world (snd (Date_now E (world s2))) s2 else s2))
    as [o2 s2'].
  cbn [fst] in Hrest. subst o2.
  destruct o1; reflexivity.
Qed.

Lemma eligible_at_spec (t : Z) (b : Branch) :
  eligible_at E cfg t b = true <->
  name b <> mainBranch cfg /\
  protected b = false /\
  JS.gt (daysSinceLastUpdate E t b) (staleDays cfg) = true /\
  ~ In (name b) (excludedBranches cfg).
Proof.
  unfold eligible_at.
  rewrite !andb_true_iff, !negb_true_iff, String.eqb_neq.
  rewrite <- includes_In, not_true_iff_false. tauto.
Qed.

End FilterFacts.

(* ===================================================================== *)
(** ** The age of a branch *)
(* ===================================================================== *)

Section AgeFacts.

Variable E : Env.

Lemma gt_true_iff (x y : Q) : JS.gt (JS.Num x) (JS.Num y) = true <-> (y < x)%Q.
Proof.
  cbn. rewrite negb_true_iff. split.
  - intros H. apply Qnot_le_lt. intros Hle.
    apply Qle_bool_iff in Hle. congruence.
  - intros H. destruct (Qle_bool x y) eqn:Hb; [|reflexivity].
    apply Qle_bool_iff in Hb. exfalso. exact (Qlt_not_le _ _ H Hb).
Qed.

Lemma gt_false_iff (x y : Q) : JS.gt (JS.Num x) (JS.Num y) = false <-> (x <= y)%Q.
Proof.
  cbn. rewrite negb_false_iff. apply Qle_bool_iff.
Qed.

Lemma daysSinceLastUpdate_valid (t t0 : Z) (b : Branch) :
  Date_parse E (committed_date b) = Some t0 ->
  daysSinceLastUpdate E t b =
  JS.Num ((inject_Z t - inject_Z t0) / inject_Z msPerDay).
Proof.
  intros H. unfold daysSinceLastUpdate, getTime. rewrite H. reflexivity.
Qed.

Lemma daysSinceLastUpdate_invalid (t : Z) (b : Branch) :
  Date_parse E (committed_date b) = None ->
  daysSinceLastUpdate E t b = JS.NaN.
Proof.
  intros H. unfold daysSinceLastUpdate, getTime. rewrite H. reflexivity.
Qed.

(** The age in days as one fraction: elapsed milliseconds over the
    milliseconds of a day. *)
Lemma age_as_fraction (t t0 : Z) :
  ((inject_Z t - inject_Z t0) / inject_Z msPerDay == inject_Z (t - t0) / inject_Z msPerDay)%Q.
Proof.
  unfold Z.sub. rewrite inject_Z_plus, inject_Z_opp. reflexivity.
Qed.

(** Against a whole number of days, the comparison of the ages is the
    comparison of the elapsed milliseconds. *)
Lemma age_exceeds_days (elapsed days : Z) :
  (inject_Z days < inject_Z elapsed / inject_Z msPerDay)%Q <->
  days * msPerDay < elapsed.
Proof.
  unfold Qlt, Qdiv, Qmult, Qinv, inject_Z, msPerDay. cbn. lia.
Qed.

End AgeFacts.

(** In binary64 arithmetic, against a threshold of 60 days: an age of
    exactly 60 days is not stale; 60 days and one millisecond, and 60.01
    days, are; an invalid date (NaN) is not. *)
Lemma isBranchStale_binary64 :
  Binary64.isBranchStale 5184000000 0 60 = false /\
  Binary64.isBranchStale 5184000001 0 60 = true /\
  Binary64.isBranchStale 5184864000 0 60 = true /\
  Binary64.isBranchStale 5184864000 nan 60 = false.
Proof. repeat split; reflexivity. Qed.

(* ===================================================================== *)
(** ** The branch lister *)
(* ===================================================================== *)

Section ListerFacts.

Variable E : Env.
Variable cfg : Config.

Lemma after_after (s : State E) (w1 w2 : World E) (evs1 evs2 : list Event) :
  after (after s w1 evs1) w2 evs2 = after s w2 (evs1 ++ evs2).
Proof. unfold after. cbn. now rewrite app_assoc. Qed.

(** One request that the host answers with [data]. *)
Lemma api_get_branches_ok (p : Z) (s : State E) (data : list Branch) (w : World E) :
  api_get E perPage p (world s) = (inr data, w) ->
  api_get_branches E perPage p s = (Return data, after s w [ApiGet perPage p true]).
Proof. intros H. unfold api_get_branches. rewrite H. reflexivity. Qed.

(** One request that the host fails. *)
Lemma api_get_branches_fail (p : Z) (s : State E) (e : ApiError) (w : World E) :
  api_get E perPage p (world s) = (inl e, w) ->
  api_get_branches E perPage p s =
  (Throw (AxiosError e), after s w [ApiGet perPage p false]).
Proof. intros H. unfold api_get_branches. rewrite H. reflexivity. Qed.

(** The loop, against a host that serves full pages and then a short one:
    with fuel for every page it returns all the items in order, having
    requested exactly these pages. *)
Lemma getBranches_loop_serves (w : World E) (p : Z) (fulls : list (list Branch))
  (last : list Branch) (w' : World E) :
  serves E w p fulls last w' ->
  forall (fuel : nat) (acc : list Branch) (s : State E),
    world s = w ->
    (List.length fulls < fuel)%nat ->
    getBranches_loop E fuel acc p s =
    (Return (acc ++ List.concat fulls ++ last),
     after s w' (page_requests p (S (List.length fulls)))).
Proof.
  induction 1 as [w p data w' Hget Hshort | w p data w1 fulls last w' Hget Hfull _ IH];
    intros fuel acc s Hw Hfuel.
  - destruct fuel as [|fuel]; [cbn in Hfuel; lia|].
    cbn [getBranches_loop]. unfold bind at 1. subst w.
    rewrite (api_get_branches_ok p s data w' Hget).
    apply Z.ltb_lt in Hshort. rewrite Hshort. reflexivity.
  - destruct fuel as [|fuel]; [cbn in Hfuel; lia|].
    cbn [getBranches_loop]. unfold bind at 1. subst w.
    rewrite (api_get_branches_ok p s data w1 Hget).
    assert (Hge : (length_Z data <? perPage) = false) by (apply Z.ltb_ge; exact Hfull).
    rewrite Hge.
    rewrite (IH fuel (acc ++ data) (after s w1 [ApiGet perPage p true])); cbn in *; try lia; try reflexivity.
    rewrite after_after. cbn. now rewrite <- !app_assoc.
Qed.

(** The loop, against a host that fails the request for a page: the axios
    error is thrown, whatever was accumulated is lost. *)
Lemma getBranches_loop_refuses (w : World E) (p : Z) (n : nat) (e : ApiError)
  (w' : World E) :
  refuses E w p n e w' ->
  forall (fuel : nat) (acc : list Branch) (s : State E),
    world s = w ->
    (n < fuel)%nat ->
    getBranches_loop E fuel acc p s =
    (Throw (AxiosError e),
     after s w' (page_requests p n ++ [ApiGet perPage (p + Z.of_nat n) false])).
Proof.
  induction 1 as [w p e w' Hget | w p data w1 n e w' Hget Hfull _ IH];
    intros fuel acc s Hw Hfuel.
  - destruct fuel as [|fuel]; [lia|].
    cbn [getBranches_loop]. unfold bind at 1. subst w.
    rewrite (api_get_branches_fail p s e w' Hget).
    cbn. now rewrite Z.add_0_r.
  - destruct fuel as [|fuel]; [lia|].
    cbn [getBranches_loop]. unfold bind at 1. subst w.
    rewrite (api_get_branches_ok p s data w1 Hget).
    assert (Hge : (length_Z data <? perPage) = false) by (apply Z.ltb_ge; exact Hfull).
    rewrite Hge.
    rewrite (IH fuel (acc ++ data) (after s w1 [ApiGet perPage p true])); cbn in *; try lia; try reflexivity.
    rewrite after_after. cbn [page_requests app].
    replace (p + 1 + Z.of_nat n) with (p + Z.pos (Pos.of_succ_nat n)) by lia.
    reflexivity.
Qed.

Lemma get_requests_app (evs1 evs2 : list Event) :
  get_requests (evs1 ++ evs2) = get_requests evs1 ++ get_requests evs2.
Proof.
  induction evs1 as [|[pp p ok | n ok | l] evs1 IH]; cbn; now rewrite ?IH.
Qed.

Lemma delete_requests_app (evs1 evs2 : list Event) :
  delete_requests (evs1 ++ evs2) = delete_requests evs1 ++ delete_requests evs2.
Proof.
  induction evs1 as [|[pp p ok | n ok | l] evs1 IH]; cbn; now rewrite ?IH.
Qed.

End ListerFacts.

(* ===================================================================== *)
(** ** Computations that only print *)
(* ===================================================================== *)

Section Silent.

Variable E : Env.

Lemma bind_Return {A B} (m : M E A) (k : A -> M E B) (s s' : State E) (a : A) :
  m s = (Return a, s') -> bind E m k s = k a s'.
Proof. intros H. unfold bind. now rewrite H. Qed.

Lemma silent_ret : silent E (ret E tt).
Proof. intros s. exists s. split; reflexivity. Qed.

Lemma silent_console (l : Line) : silent E (console E l).
Proof.
  intros s. eexists. split; [reflexivity|].
  unfold observe. cbn.
  now rewrite get_requests_app, delete_requests_app, !app_nil_r.
Qed.

Lemma silent_seq (m1 m2 : M E unit) :
  silent E m1 -> silent E m2 -> silent E (bind E m1 (fun _ => m2)).
Proof.
  intros H1 H2 s.
  destruct (H1 s) as (s1 & Hm1 & Ho1).
  destruct (H2 s1) as (s2 & Hm2 & Ho2).
  exists s2. split.
  - now rewrite (bind_Return _ _ _ _ _ Hm1).
  - congruence.
Qed.

(** Reading a variable and going on silently. *)
Lemma silent_read {A} (m : M E A) (k : A -> M E unit) :
  (forall s, exists a, m s = (Return a, s)) ->
  (forall a, silent E (k a)) ->
  silent E (bind E m k).
Proof.
  intros Hm Hk s. destruct (Hm s) as [a Ha].
  destruct (Hk a s) as (s' & Hrun & Ho).
  exists s'. split; [|exact Ho].
  now rewrite (bind_Return _ _ _ _ _ Ha).
Qed.

Lemma silent_when (c : bool) (m : M E unit) : silent E m -> silent E (when E c m).
Proof. intros H. destruct c; [exact H | apply silent_ret]. Qed.

Lemma silent_print_json : silent E (print_json E).
Proof.
  apply silent_read.
  - intros s. eexists. reflexivity.
  - intros r. apply silent_console.
Qed.

Lemma silent_print_summary (cfg : Config) (n : Z) : silent E (print_summary E cfg n).
Proof.
  unfold print_summary.
  apply silent_seq; [apply silent_console|].
  apply silent_seq; [apply silent_console|].
  apply silent_read; [intros s; eexists; reflexivity|]. intros d.
  apply silent_seq; [apply silent_console|].
  apply silent_read; [intros s; eexists; reflexivity|]. intros f.
  apply silent_seq; [apply silent_when, silent_console|].
  apply silent_console.
Qed.

End Silent.

(* ===================================================================== *)
(** ** The accounting of the deletions *)
(* ===================================================================== *)

Section Accounting.

Lemma record_deletions_scanned (reqs : list (string * bool)) (r : Result) :
  branchesScanned (fold_left record_deletion reqs r) = branchesScanned r.
Proof.
  revert r. induction reqs as [|[n ok] reqs IH]; intros r; cbn [fold_left]; [reflexivity|].
  rewrite IH. unfold record_deletion. now destruct ok.
Qed.

Lemma record_deletions_eligible (reqs : list (string * bool)) (r : Result) :
  branchesEligible (fold_left record_deletion reqs r) = branchesEligible r.
Proof.
  revert r. induction reqs as [|[n ok] reqs IH]; intros r; cbn [fold_left]; [reflexivity|].
  rewrite IH. unfold record_deletion. now destruct ok.
Qed.

Lemma record_deletions_deleted (reqs : list (string * bool)) (r : Result) :
  branchesDeleted (fold_left record_deletion reqs r) =
  branchesDeleted r + length_Z (accepted reqs).
Proof.
  revert r. induction reqs as [|[n ok] reqs IH]; intros r; cbn [fold_left].
  - unfold length_Z. cbn. lia.
  - rewrite IH. unfold record_deletion, accepted, length_Z.
    destruct ok; cbn [snd fst filter negb branchesDeleted List.length]; lia.
Qed.

Lemma record_deletions_failed (reqs : list (string * bool)) (r : Result) :
  branchesFailed (fold_left record_deletion reqs r) =
  branchesFailed r + length_Z (rejected reqs).
Proof.
  revert r. induction reqs as [|[n ok] reqs IH]; intros r; cbn [fold_left].
  - unfold length_Z. cbn. lia.
  - rewrite IH. unfold record_deletion, rejected, length_Z.
    destruct ok; cbn [snd fst filter negb branchesFailed List.length]; lia.
Qed.

Lemma record_deletions_names (reqs : list (string * bool)) (r : Result) :
  failedBranches (fold_left record_deletion reqs r) =
  failedBranches r ++ map fst (rejected reqs).
Proof.
  revert r. induction reqs as [|[n ok] reqs IH]; intros r; cbn [fold_left].
  - cbn. now rewrite app_nil_r.
  - rewrite IH. unfold record_deletion, rejected.
    destruct ok; cbn [snd fst filter negb failedBranches map]; [reflexivity|].
    now rewrite <- app_assoc.
Qed.

Lemma record_deletions_success (reqs : list (string * bool)) (r : Result) :
  success (fold_left record_deletion reqs r) = success r && forallb snd reqs.
Proof.
  revert r. induction reqs as [|[n ok] reqs IH]; intros r; cbn [fold_left forallb].
  - now rewrite andb_true_r.
  - rewrite IH. unfold record_deletion.
    destruct ok; cbn [snd success]; [reflexivity|].
    now rewrite andb_false_r.
Qed.

(** Every request was either accepted or rejected. *)
Lemma accepted_rejected (reqs : list (string * bool)) :
  length_Z (accepted reqs) + length_Z (rejected reqs) = length_Z reqs.
Proof.
  unfold length_Z, accepted, rejected.
  induction reqs as [|[n ok] reqs IH]; [reflexivity|].
  destruct ok; cbn [filter snd negb List.length]; lia.
Qed.

Lemma rejected_nil_iff (reqs : list (string * bool)) :
  rejected reqs = [] <-> forallb snd reqs = true.
Proof.
  unfold rejected. induction reqs as [|[n ok] reqs IH]; cbn [filter forallb snd].
  - tauto.
  - destruct ok; cbn [negb andb]; [exact IH|]. split; discriminate.
Qed.

Lemma length_Z_nil_iff {A} (l : list A) : length_Z l = 0 <-> l = [].
Proof.
  unfold length_Z. destruct l; cbn; split; intros H; try reflexivity; try discriminate; lia.
Qed.

End Accounting.

(* ===================================================================== *)
(** ** The deletion loop *)
(* ===================================================================== *)

Section DeletionFacts.

Variable E : Env.
Variable cfg : Config.

(** In a dry run [deleteBranch] only prints. *)
Lemma deleteBranch_dry (branchName : string) :
  dryRun cfg = true -> silent E (deleteBranch E cfg branchName).
Proof.
  intros Hdry. unfold deleteBranch. rewrite Hdry.
  apply silent_when, silent_console.
Qed.

(** Outside a dry run [deleteBranch] issues one delete request, returns
    whatever the host answers, and records the answer. *)
Lemma deleteBranch_live (branchName : string) (s : State E) :
  dryRun cfg = false ->
  exists ok s',
    deleteBranch E cfg branchName s = (Return tt, s') /\
    observe s' =
    {| seen_result := record_deletion (result s) (branchName, ok);
       seen_deletedCount := deletedCount s + (if ok then 1 else 0);
       seen_failedCount := failedCount s + (if ok then 0 else 1);
       seen_gets := get_requests (events s);
       seen_deletes := delete_requests (events s) ++ [(branchName, ok)] |}.
Proof.
  intros Hdry. unfold deleteBranch. rewrite Hdry.
  unfold try_catch, bind at 1, api_delete_branch.
  destruct (api_delete E branchName (world s)) as [[e | u] w].
  - exists false. cbn.
    destruct (json cfg); cbn; eexists; (split; [reflexivity|]);
      unfold observe; cbn;
      rewrite ?get_requests_app, ?delete_requests_app; cbn;
      rewrite ?app_nil_r, ?Z.add_0_r; reflexivity.
  - exists true. cbn.
    destruct (json cfg); cbn; eexists; (split; [reflexivity|]);
      unfold observe; cbn;
      rewrite ?get_requests_app, ?delete_requests_app; cbn;
      rewrite ?app_nil_r, ?Z.add_0_r; reflexivity.
Qed.

(** The loop in a dry run only prints. *)
Lemma forEach_deleteBranch_dry (l : list Branch) :
  dryRun cfg = true ->
  silent E (forEach E (fun branch => deleteBranch E cfg (name branch)) l).
Proof.
  intros Hdry. induction l as [|b l IH]; cbn [forEach].
  - apply silent_ret.
  - apply silent_seq; [now apply deleteBranch_dry | exact IH].
Qed.

(** The loop outside a dry run: it returns after one delete request per
    branch of the list, in the order of the list, each recorded in turn. *)
Lemma forEach_deleteBranch_live (l : list Branch) :
  dryRun cfg = false ->
  forall s : State E,
  exists reqs s',
    forEach E (fun branch => deleteBranch E cfg (name branch)) l s = (Return tt, s') /\
    map fst reqs = map name l /\
    observe s' =
    {| seen_result := fold_left record_deletion reqs (result s);
       seen_deletedCount := deletedCount s + length_Z (accepted reqs);
       seen_failedCount := failedCount s + length_Z (rejected reqs);
       seen_gets := get_requests (events s);
       seen_deletes := delete_requests (events s) ++ reqs |}.
Proof.
  intros Hdry. induction l as [|b l IH]; intros s.
  - exists [], s. split; [reflexivity|]. split; [reflexivity|].
    unfold observe, length_Z. cbn. now rewrite !Z.add_0_r, app_nil_r.
  - destruct (deleteBranch_live (name b) s Hdry) as (ok & s1 & Hb & Ho1).
    destruct (IH s1) as (reqs & s2 & Hl & Hnames & Ho2).
    exists ((name b, ok) :: reqs), s2.
    split; [|split].
    + cbn [forEach]. now rewrite (bind_Return E _ _ _ _ _ Hb).
    + cbn. now rewrite Hnames.
    + rewrite Ho2. unfold observe in Ho1. injection Ho1 as Hr Hd Hf Hg Hdel.
      rewrite Hr, Hd, Hf, Hg, Hdel. cbn [fold_left].
      unfold accepted, rejected, length_Z. rewrite <- app_assoc.
      destruct ok; cbn [filter snd negb List.length app]; f_equal; lia.
Qed.

End DeletionFacts.

(* ===================================================================== *)
(** ** The run, by the outcome of its fetch *)
(* ===================================================================== *)

Section RunFacts.

Variable E : Env.
Variable cfg : Config.

(** The listing touches neither [result] nor the counters, issues no
    delete request and never exits. *)
Lemma getBranches_loop_frame (fuel : nat) :
  forall (acc : list Branch) (p : Z) (s : State E),
    result (snd (getBranches_loop E fuel acc p s)) = result s /\
    deletedCount (snd (getBranches_loop E fuel acc p s)) = deletedCount s /\
    failedCount (snd (getBranches_loop E fuel acc p s)) = failedCount s /\
    delete_requests (events (snd (getBranches_loop E fuel acc p s))) =
      delete_requests (events s) /\
    forall code, fst (getBranches_loop E fuel acc p s) <> Exit code.
Proof.
  induction fuel as [|fuel IH]; intros acc p s.
  - cbn. repeat split; discriminate.
  - cbn [getBranches_loop]. unfold bind at 1 2 3 4 5, api_get_branches.
    destruct (api_get E perPage p (world s)) as [[e | data] w]; cbn.
    + rewrite delete_requests_app. cbn. rewrite app_nil_r.
      repeat split; discriminate.
    + destruct (length_Z data <? perPage).
      * cbn. rewrite delete_requests_app. cbn. rewrite app_nil_r.
        repeat split; discriminate.
      * match goal with
        | |- context [getBranches_loop E fuel ?a ?q ?st] =>
            destruct (IH a q st) as (Hr & Hd & Hf & Hdel & Hex)
        end.
        cbn in Hr, Hd, Hf, Hdel.
        rewrite delete_requests_app in Hdel. cbn in Hdel. rewrite app_nil_r in Hdel.
        repeat split; assumption.
Qed.

Lemma getBranches_frame (fuel : nat) (s : State E) :
  result (snd (getBranches E cfg fuel s)) = result s /\
  deletedCount (snd (getBranches E cfg fuel s)) = deletedCount s /\
  failedCount (snd (getBranches E cfg fuel s)) = failedCount s /\
  delete_requests (events (snd (getBranches E cfg fuel s))) =
    delete_requests (events s) /\
  forall code, fst (getBranches E cfg fuel s) <> Exit code.
Proof.
  destruct (getBranches_loop_frame fuel [] 1 s) as (Hr & Hd & Hf & Hdel & Hex).
  unfold getBranches, try_catch.
  destruct (getBranches_loop E fuel [] 1 s) as [[bs | err | code | ] s1];
    cbn [fst snd] in *.
  - repeat split; try assumption; discriminate.
  - destruct (json cfg); cbn; rewrite ?delete_requests_app; cbn;
      rewrite ?app_nil_r; repeat split; try assumption; discriminate.
  - repeat split; try assumption.
  - repeat split; try assumption; discriminate.
Qed.

Lemma fetch_state_run (w : World E) :
  when E (negb (json cfg)) (console E LineFetching) (initial E w) =
  (Return tt, fetch_state E cfg w).
Proof. unfold fetch_state. destruct (json cfg); reflexivity. Qed.

Lemma observe_fetch_state (w : World E) :
  observe (fetch_state E cfg w) = observe (initial E w).
Proof. unfold fetch_state. destruct (json cfg); reflexivity. Qed.

(** The state left by the fetch of a run holds the initial [result] and
    counters, and no delete request. *)
Lemma fetch_frame (fuel : nat) (w : World E) :
  result (snd (fetch E cfg fuel w)) = result (initial E w) /\
  deletedCount (snd (fetch E cfg fuel w)) = 0 /\
  failedCount (snd (fetch E cfg fuel w)) = 0 /\
  delete_requests (events (snd (fetch E cfg fuel w))) = [] /\
  forall code, fst (fetch E cfg fuel w) <> Exit code.
Proof.
  unfold fetch.
  destruct (getBranches_frame fuel (fetch_state E cfg w)) as (Hr & Hd & Hf & Hdel & Hex).
  pose proof (observe_fetch_state w) as Ho. unfold observe in Ho.
  injection Ho as Hr0 Hd0 Hf0 _ Hdel0.
  rewrite Hr, Hd, Hf, Hdel, Hr0, Hd0, Hf0, Hdel0.
  repeat split; try reflexivity. exact Hex.
Qed.

Lemma runCleaner_body_unfold (fuel : nat) :
  runCleaner_body E cfg fuel =
  bind E (when E (negb (json cfg)) (console E LineFetching)) (fun _ =>
  bind E (getBranches E cfg fuel) (after_fetch E cfg)).
Proof. reflexivity. Qed.

(** The rest of the [try] block in a dry run. *)
Lemma after_fetch_dry (branches : list Branch) (s1 : State E) :
  dryRun cfg = true ->
  exists stale s3 fin,
    staleBranches E cfg branches
      (snd (set_branchesScanned E (length_Z branches) s1)) = (Return stale, s3) /\
    after_fetch E cfg branches s1 =
      (if failedCount s1 >? 0 then Exit 2 else Return tt, fin) /\
    seen_result (observe fin) = counted (result s1) (length_Z branches) (length_Z stale) /\
    seen_deletedCount (observe fin) = deletedCount s1 /\
    seen_failedCount (observe fin) = failedCount s1 /\
    seen_gets (observe fin) = get_requests (events s1) /\
    seen_deletes (observe fin) = delete_requests (events s1).
Proof.
  intros Hdry. unfold after_fetch.
  set (s2 := snd (set_branchesScanned E (length_Z branches) s1)).
  destruct (staleBranches_run E cfg branches s2) as (stale & w & Hstale & _).
  set (s3 := snd (set_branchesEligible E (length_Z stale) (set_world w s2))).
  destruct (silent_when E (negb (json cfg)) _
              (silent_console E (LineFound (length_Z stale))) s3) as (s4 & H4 & Ho4).
  destruct (forEach_deleteBranch_dry E cfg stale Hdry s4) as (s5 & H5 & Ho5).
  destruct (silent_when E (negb (json cfg)) _
              (silent_print_summary E cfg (length_Z stale)) s5) as (s6 & H6 & Ho6).
  destruct (silent_when E (json cfg) _ (silent_print_json E) s6) as (s7 & H7 & Ho7).
  exists stale, (set_world w s2), s7.
  split; [exact Hstale|].
  assert (Ho : observe s7 = observe s3) by congruence.
  split.
  - rewrite (bind_Return E _ _ s1 s2 tt) by reflexivity.
    rewrite (bind_Return E _ _ _ _ _ Hstale).
    rewrite (bind_Return E _ _ (set_world w s2) s3 tt) by reflexivity.
    rewrite (bind_Return E _ _ _ _ _ H4).
    rewrite (bind_Return E _ _ _ _ _ H5).
    rewrite (bind_Return E _ _ _ _ _ H6).
    rewrite (bind_Return E _ _ _ _ _ H7).
    rewrite (bind_Return E _ _ s7 s7 (failedCount s7)) by reflexivity.
    assert (Hf : failedCount s7 = failedCount s1).
    { change (seen_failedCount (observe s7) = failedCount s1). now rewrite Ho. }
    rewrite Hf. destruct (failedCount s1 >? 0); reflexivity.
  - rewrite Ho. repeat split; reflexivity.
Qed.

(** The rest of the [try] block outside a dry run. *)
Lemma after_fetch_live (branches : list Branch) (s1 : State E) :
  dryRun cfg = false ->
  exists stale s3 reqs fin,
    staleBranches E cfg branches
      (snd (set_branchesScanned E (length_Z branches) s1)) = (Return stale, s3) /\
    map fst reqs = map name stale /\
    after_fetch E cfg branches s1 =
      (if failedCount s1 + length_Z (rejected reqs) >? 0 then Exit 2 else Return tt, fin) /\
    seen_result (observe fin) =
      fold_left record_deletion reqs
        (counted (result s1) (length_Z branches) (length_Z stale)) /\
    seen_deletedCount (observe fin) = deletedCount s1 + length_Z (accepted reqs) /\
    seen_failedCount (observe fin) = failedCount s1 + length_Z (rejected reqs) /\
    seen_gets (observe fin) = get_requests (events s1) /\
    seen_deletes (observe fin) = delete_requests (events s1) ++ reqs.
Proof.
  intros Hdry. unfold after_fetch.
  set (s2 := snd (set_branchesScanned E (length_Z branches) s1)).
  destruct (staleBranches_run E cfg branches s2) as (stale & w & Hstale & _).
  set (s3 := snd (set_branchesEligible E (length_Z stale) (set_world w s2))).
  destruct (silent_when E (negb (json cfg)) _
              (silent_console E (LineFound (length_Z stale))) s3) as (s4 & H4 & Ho4).
  destruct (forEach_deleteBranch_live E cfg stale Hdry s4) as (reqs & s5 & H5 & Hnames & Ho5).
  destruct (silent_when E (negb (json cfg)) _
              (silent_print_summary E cfg (length_Z stale)) s5) as (s6 & H6 & Ho6).
  destruct (silent_when E (json cfg) _ (silent_print_json E) s6) as (s7 & H7 & Ho7).
  exists stale, (set_world w s2), reqs, s7.
  split; [exact Hstale|]. split; [exact Hnames|].
  assert (Ho : observe s7 = observe s5) by congruence.
  unfold observe in Ho4. injection Ho4 as Hr4 Hd4 Hf4 Hg4 Hdel4.
  rewrite Hr4, Hd4, Hf4, Hg4, Hdel4 in Ho5.
  split.
  - rewrite (bind_Return E _ _ s1 s2 tt) by reflexivity.
    rewrite (bind_Return E _ _ _ _ _ Hstale).
    rewrite (bind_Return E _ _ (set_world w s2) s3 tt) by reflexivity.
    rewrite (bind_Return E _ _ _ _ _ H4).
    rewrite (bind_Return E _ _ _ _ _ H5).
    rewrite (bind_Return E _ _ _ _ _ H6).
    rewrite (bind_Return E _ _ _ _ _ H7).
    rewrite (bind_Return E _ _ s7 s7 (failedCount s7)) by reflexivity.
    assert (Hf : failedCount s7 = failedCount s1 + length_Z (rejected reqs)).
    { change (seen_failedCount (observe s7) = failedCount s1 + length_Z (rejected reqs)).
      rewrite Ho, Ho5. reflexivity. }
    rewrite Hf. destruct (failedCount s1 + length_Z (rejected reqs) >? 0); reflexivity.
  - rewrite Ho, Ho5. repeat split; reflexivity.
Qed.

End RunFacts.

Section RunCases.

Variable E : Env.
Variable cfg : Config.

Lemma run_unfold (fuel : nat) (w : World E) :
  run E cfg fuel w =
  try_catch E
    (bind E (getBranches E cfg fuel) (after_fetch E cfg))
    (fun err =>
       bind E (set_success E false) (fun _ =>
       bind E (if json cfg then print_json E
               else bind E (console E LineAborted)
                      (fun _ => console E (LineMessage (exn_message err))))
         (fun _ => process_exit E 2)))
    (fetch_state E cfg w).
Proof.
  unfold run, runCleaner, try_catch.
  rewrite runCleaner_body_unfold.
  now rewrite (bind_Return E _ _ _ _ _ (fetch_state_run E cfg w)).
Qed.

(** The run whose fetch is still pending is pending. *)
Lemma run_fetch_pending (fuel : nat) (w : World E) (s1 : State E) :
  fetch E cfg fuel w = (Pending, s1) ->
  run E cfg fuel w = (Pending, s1).
Proof.
  intros Hfetch. rewrite run_unfold. unfold try_catch, bind at 1.
  unfold fetch in Hfetch. now rewrite Hfetch.
Qed.

(** The run whose fetch throws: the catch of [runCleaner] marks the failure
    and exits with code 2; nothing else of [result] was touched. *)
Lemma run_fetch_thrown (fuel : nat) (w : World E) (err : Exn) (s1 : State E) :
  fetch E cfg fuel w = (Throw err, s1) ->
  fst (run E cfg fuel w) = Exit 2 /\
  result (snd (run E cfg fuel w)) = aborted_result /\
  deletedCount (snd (run E cfg fuel w)) = 0 /\
  failedCount (snd (run E cfg fuel w)) = 0 /\
  get_requests (events (snd (run E cfg fuel w))) = get_requests (events s1) /\
  delete_requests (events (snd (run E cfg fuel w))) = [].
Proof.
  intros Hfetch.
  destruct (fetch_frame E cfg fuel w) as (Hr & Hd & Hf & Hdel & _).
  rewrite Hfetch in Hr, Hd, Hf, Hdel. cbn [snd] in Hr, Hd, Hf, Hdel.
  assert (Hrun : run E cfg fuel w =
                 bind E (set_success E false) (fun _ =>
                 bind E (if json cfg then print_json E
                         else bind E (console E LineAborted)
                                (fun _ => console E (LineMessage (exn_message err))))
                   (fun _ => process_exit E 2)) s1).
  { rewrite run_unfold. unfold try_catch, bind at 1.
    unfold fetch in Hfetch. now rewrite Hfetch. }
  rewrite Hrun.
  destruct (json cfg); cbn; rewrite ?get_requests_app, ?delete_requests_app; cbn;
    rewrite ?app_nil_r, Hd, Hf, Hdel; destruct (result s1); inversion Hr; subst;
    repeat split; reflexivity.
Qed.

(** The run of a dry run whose fetch returns. *)
Lemma run_fetch_returned_dry (fuel : nat) (w : World E) (bs : list Branch)
  (s1 : State E) :
  dryRun cfg = true ->
  fetch E cfg fuel w = (Return bs, s1) ->
  exists stale s2 s3,
    world s2 = world s1 /\
    staleBranches E cfg bs s2 = (Return stale, s3) /\
    fst (run E cfg fuel w) = Return tt /\
    result (snd (run E cfg fuel w)) =
      counted (result (initial E w)) (length_Z bs) (length_Z stale) /\
    deletedCount (snd (run E cfg fuel w)) = 0 /\
    failedCount (snd (run E cfg fuel w)) = 0 /\
    get_requests (events (snd (run E cfg fuel w))) = get_requests (events s1) /\
    delete_requests (events (snd (run E cfg fuel w))) = [].
Proof.
  intros Hdry Hfetch.
  destruct (fetch_frame E cfg fuel w) as (Hr & Hd & Hf & Hdel & _).
  rewrite Hfetch in Hr, Hd, Hf, Hdel. cbn [snd] in Hr, Hd, Hf, Hdel.
  destruct (after_fetch_dry E cfg bs s1 Hdry)
    as (stale & s3 & fin & Hstale & Hrun & Hres & Hdc & Hfc & Hg & Hdl).
  exists stale, (snd (set_branchesScanned E (length_Z bs) s1)), s3.
  split; [reflexivity|]. split; [exact Hstale|].
  rewrite run_unfold. unfold try_catch.
  unfold fetch in Hfetch. rewrite (bind_Return E _ _ _ _ _ Hfetch), Hrun.
  rewrite Hf. cbn [Z.gtb Z.compare fst snd].
  cbn in Hres, Hdc, Hfc, Hg, Hdl.
  rewrite Hres, Hdc, Hfc, Hg, Hdl, Hr, Hd, Hf, Hdel. repeat split; reflexivity.
Qed.

(** The run outside a dry run whose fetch returns. *)
Lemma run_fetch_returned_live (fuel : nat) (w : World E) (bs : list Branch)
  (s1 : State E) :
  dryRun cfg = false ->
  fetch E cfg fuel w = (Return bs, s1) ->
  exists stale s2 s3,
    world s2 = world s1 /\
    staleBranches E cfg bs s2 = (Return stale, s3) /\
    map fst (delete_requests (events (snd (run E cfg fuel w)))) = map name stale /\
    fst (run E cfg fuel w) =
      (if length_Z (rejected (delete_requests (events (snd (run E cfg fuel w))))) >? 0
       then Exit 2 else Return tt) /\
    result (snd (run E cfg fuel w)) =
      fold_left record_deletion (delete_requests (events (snd (run E cfg fuel w))))
        (counted (result (initial E w)) (length_Z bs) (length_Z stale)) /\
    deletedCount (snd (run E cfg fuel w)) =
      length_Z (accepted (delete_requests (events (snd (run E cfg fuel w))))) /\
    failedCount (snd (run E cfg fuel w)) =
      length_Z (rejected (delete_requests (events (snd (run E cfg fuel w))))) /\
    get_requests (events (snd (run E cfg fuel w))) = get_requests (events s1).
Proof.
  intros Hdry Hfetch.
  destruct (fetch_frame E cfg fuel w) as (Hr & Hd & Hf & Hdel & _).
  rewrite Hfetch in Hr, Hd, Hf, Hdel. cbn [snd] in Hr, Hd, Hf, Hdel.
  destruct (after_fetch_live E cfg bs s1 Hdry)
    as (stale & s3 & reqs & fin & Hstale & Hnames & Hrun & Hres & Hdc & Hfc & Hg & Hdl).
  exists stale, (snd (set_branchesScanned E (length_Z bs) s1)), s3.
  split; [reflexivity|]. split; [exact Hstale|].
  assert (Hrun' : run E cfg fuel w =
                  (if length_Z (rejected reqs) >? 0 then Exit 2 else Return tt, fin)).
  { rewrite run_unfold. unfold try_catch.
    unfold fetch in Hfetch. rewrite (bind_Return E _ _ _ _ _ Hfetch), Hrun.
    rewrite Hf, Z.add_0_l. destruct (length_Z (rejected reqs) >? 0); reflexivity. }
  rewrite Hrun'. cbn [fst snd].
  cbn in Hres, Hdc, Hfc, Hg, Hdl.
  rewrite Hdel in Hdl. cbn in Hdl.
  rewrite Hres, Hdc, Hfc, Hg, Hdl, Hr, Hd, Hf. cbn.
  repeat split; try reflexivity. exact Hnames.
Qed.

(** A run finishes exactly when its listing does: the rest of the program
    has no loop that could go on for ever. *)
Lemma run_finished (fuel : nat) (w : World E) :
  finished (fst (run E cfg fuel w)) = finished (fst (fetch E cfg fuel w)).
Proof.
  destruct (fetch E cfg fuel w) as [[bs | err | code | ] s1] eqn:Hfetch.
  - destruct (dryRun cfg) eqn:Hdry.
    + destruct (run_fetch_returned_dry fuel w bs s1 Hdry Hfetch)
        as (stale & s2 & s3 & _ & _ & Hout & _).
      now rewrite Hout.
    + destruct (run_fetch_returned_live fuel w bs s1 Hdry Hfetch)
        as (stale & s2 & s3 & _ & _ & _ & Hout & _).
      rewrite Hout. now destruct (_ >? 0).
  - destruct (run_fetch_thrown fuel w err s1 Hfetch) as (Hout & _).
    now rewrite Hout.
  - destruct (fetch_frame E cfg fuel w) as (_ & _ & _ & _ & Hex).
    rewrite Hfetch in Hex. now destruct (Hex code).
  - now rewrite (run_fetch_pending fuel w s1 Hfetch).
Qed.

End RunCases.

Section FetchFacts.

Variable E : Env.
Variable cfg : Config.

Lemma world_fetch_state (w : World E) : world (fetch_state E cfg w) = w.
Proof. unfold fetch_state. destruct (json cfg); reflexivity. Qed.

Lemma get_requests_page_requests (n : nat) :
  forall p : Z,
    get_requests (page_requests p n) =
    map (fun i => (perPage, p + Z.of_nat i)) (seq 0 n).
Proof.
  induction n as [|n IH]; intros p; [reflexivity|].
  cbn [page_requests get_requests seq map]. rewrite IH.
  rewrite Z.add_0_r. f_equal.
  rewrite <- seq_shift, map_map.
  apply map_ext. intros i. f_equal. lia.
Qed.

(** [getBranches] against a host that serves full pages and then a short
    one. *)
Lemma getBranches_serves (w : World E) (fulls : list (list Branch))
  (last : list Branch) (w' : World E) (fuel : nat) (s : State E) :
  serves E w 1 fulls last w' ->
  world s = w ->
  (List.length fulls < fuel)%nat ->
  getBranches E cfg fuel s =
  (Return (List.concat fulls ++ last),
   after s w' (page_requests 1 (S (List.length fulls)))).
Proof.
  intros Hserves Hw Hfuel. unfold getBranches, try_catch.
  now rewrite (getBranches_loop_serves E w 1 fulls last w' Hserves fuel [] s Hw Hfuel).
Qed.

(** The list and the requests of [getBranches] against such a host. *)
Lemma getBranches_serves_requests (w : World E) (fulls : list (list Branch))
  (last : list Branch) (w' : World E) (fuel : nat) (s : State E) :
  serves E w 1 fulls last w' ->
  world s = w ->
  (List.length fulls < fuel)%nat ->
  exists s',
    getBranches E cfg fuel s = (Return (List.concat fulls ++ last), s') /\
    world s' = w' /\
    get_requests (events s') =
    get_requests (events s) ++
    map (fun i => (100, 1 + Z.of_nat i)) (seq 0 (S (List.length fulls))).
Proof.
  intros Hserves Hw Hfuel.
  eexists. split; [exact (getBranches_serves w fulls last w' fuel s Hserves Hw Hfuel)|].
  split; [reflexivity|].
  unfold after. cbn [events]. rewrite get_requests_app.
  now rewrite get_requests_page_requests.
Qed.

(** [getBranches] against a host that fails the request for a page. *)
Lemma getBranches_refuses (w : World E) (n : nat) (e : ApiError) (w' : World E)
  (fuel : nat) (s : State E) :
  refuses E w 1 n e w' ->
  world s = w ->
  (n < fuel)%nat ->
  fst (getBranches E cfg fuel s) =
  Throw (JsError "Failed to fetch branches from GitLab.").
Proof.
  intros Hrefuses Hw Hfuel. unfold getBranches, try_catch.
  rewrite (getBranches_loop_refuses E w 1 n e w' Hrefuses fuel [] s Hw Hfuel).
  destruct (json cfg); reflexivity.
Qed.

End FetchFacts.

Section RejectedDeletion.

Variable E : Env.
Variable cfg : Config.

(** A delete request that the host rejects: the [catch] branch of
    [deleteBranch] records it and the function returns normally. *)
Lemma deleteBranch_rejected (branchName : string) (s : State E) (e : ApiError)
  (w' : World E) :
  dryRun cfg = false ->
  api_delete E branchName (world s) = (inl e, w') ->
  exists s',
    deleteBranch E cfg branchName s = (Return tt, s') /\
    result s' = record_deletion (result s) (branchName, false) /\
    failedCount s' = failedCount s + 1 /\
    deletedCount s' = deletedCount s /\
    delete_requests (events s') = delete_requests (events s) ++ [(branchName, false)].
Proof.
  intros Hdry Hdel. unfold deleteBranch. rewrite Hdry.
  unfold try_catch, bind at 1, api_delete_branch. rewrite Hdel. cbn.
  destruct (json cfg); cbn; eexists; (split; [reflexivity|]); cbn;
    rewrite ?delete_requests_app; cbn; rewrite ?app_nil_r; repeat split; reflexivity.
Qed.

(** A delete request that the host accepts: the [try] branch. *)
Lemma deleteBranch_accepted (branchName : string) (s : State E) (u : unit)
  (w' : World E) :
  dryRun cfg = false ->
  api_delete E branchName (world s) = (inr u, w') ->
  exists s',
    deleteBranch E cfg branchName s = (Return tt, s') /\
    result s' = record_deletion (result s) (branchName, true) /\
    failedCount s' = failedCount s /\
    deletedCount s' = deletedCount s + 1 /\
    delete_requests (events s') = delete_requests (events s) ++ [(branchName, true)].
Proof.
  intros Hdry Hdel. unfold deleteBranch. rewrite Hdry.
  unfold try_catch, bind at 1, api_delete_branch. rewrite Hdel. cbn.
  destruct (json cfg); cbn; eexists; (split; [reflexivity|]); cbn;
    rewrite ?delete_requests_app; cbn; rewrite ?app_nil_r; repeat split; reflexivity.
Qed.

Lemma In_rejected (reqs : list (string * bool)) (n : string) :
  In (n, false) reqs <-> In (n, false) (rejected reqs).
Proof.
  unfold rejected. rewrite filter_In. cbn. tauto.
Qed.

End RejectedDeletion.


(* ===================================================================== *)
(** ** The exact trace of each step *)
(* ===================================================================== *)

Section TraceFacts.

Variable E : Env.
Variable cfg : Config.

Lemma console_lines_app (evs1 evs2 : list Event) :
  console_lines (evs1 ++ evs2) = console_lines evs1 ++ console_lines evs2.
Proof.
  induction evs1 as [|[pp p ok | n ok | l] evs1 IH]; cbn; now rewrite ?IH.
Qed.

Lemma previewed_app (evs1 evs2 : list Event) :
  previewed (evs1 ++ evs2) = previewed evs1 ++ previewed evs2.
Proof.
  induction evs1 as [|[pp p ok | n ok | l] evs1 IH]; cbn; rewrite ?IH;
    try reflexivity.
  destruct l; reflexivity.
Qed.

Lemma console_lines_map_Console (ls : list Line) :
  console_lines (map Console ls) = ls.
Proof. induction ls as [|l ls IH]; cbn; now rewrite ?IH. Qed.

Lemma add_events_nil (s : State E) : add_events s [] = s.
Proof. destruct s. unfold add_events. cbn. now rewrite app_nil_r. Qed.

Lemma add_events_add (s : State E) (evs1 evs2 : list Event) :
  add_events (add_events s evs1) evs2 = add_events s (evs1 ++ evs2).
Proof. unfold add_events. cbn. now rewrite app_assoc. Qed.

Lemma went_on_add (s : State E) (w : World E) (r : Result) (d f : Z)
  (evs1 evs2 : list Event) :
  add_events (went_on s w r d f evs1) evs2 = went_on s w r d f (evs1 ++ evs2).
Proof. unfold add_events, went_on. cbn. now rewrite app_assoc. Qed.

Lemma when_console_run (c : bool) (l : Line) (s : State E) :
  when E c (console E l) s =
  (Return tt, add_events s (if c then [Console l] else [])).
Proof.
  destruct c; [reflexivity|]. cbn. now rewrite add_events_nil.
Qed.

Lemma print_json_run (s : State E) :
  print_json E s = (Return tt, add_events s [Console (LineJson (result s))]).
Proof. reflexivity. Qed.

Lemma print_summary_run (n : Z) (s : State E) :
  print_summary E cfg n s =
  (Return tt,
   add_events s (map Console (summary_lines cfg n (deletedCount s) (failedCount s)))).
Proof.
  unfold print_summary, summary_lines, bind, console, emit, get_deletedCount,
    get_failedCount, when, ret, add_events.
  cbn. destruct (failedCount s >? 0); cbn; rewrite <- ?app_assoc; reflexivity.
Qed.

(** The end of the [try] block: the summary or the result is printed, the
    state is otherwise left as it is, and the program goes on with [k]. *)
Lemma closing_run {A} (k : M E A) (n : Z) (s : State E) :
  bind E (when E (negb (json cfg)) (print_summary E cfg n))
    (fun _ => bind E (when E (json cfg) (print_json E)) (fun _ => k)) s =
  k (add_events s
       (map Console (closing_lines cfg (result s) n (deletedCount s) (failedCount s)))).
Proof.
  unfold closing_lines. destruct (json cfg); cbn [negb when].
  - unfold bind at 1, ret. unfold bind. rewrite print_json_run. reflexivity.
  - unfold bind at 1. rewrite print_summary_run. unfold bind, ret.
    now rewrite app_nil_r.
Qed.

Lemma found_run (n : Z) (s : State E) :
  when E (negb (json cfg)) (console E (LineFound n)) s =
  (Return tt, add_events s (found_events cfg n)).
Proof.
  rewrite when_console_run. unfold found_events. now destruct (json cfg).
Qed.

(** One call of [deleteBranch] in a dry run. *)
Lemma deleteBranch_dry_run (branchName : string) (s : State E) :
  dryRun cfg = true ->
  deleteBranch E cfg branchName s =
  (Return tt, add_events s (preview_events cfg branchName)).
Proof.
  intros Hdry. unfold deleteBranch, preview_events. rewrite Hdry.
  destruct (json cfg); cbn; [now rewrite add_events_nil | reflexivity].
Qed.

(** One call of [deleteBranch] outside a dry run, by the answer of the
    host. *)
Lemma deleteBranch_live_run (branchName : string) (s : State E)
  (answer : ApiError + unit) (w : World E) :
  dryRun cfg = false ->
  api_delete E branchName (world s) = (answer, w) ->
  deleteBranch E cfg branchName s =
  (Return tt,
   went_on s w
     (record_deletion (result s) (as_request (branchName, answer)))
     (deletedCount s + (if accepted_by_host answer then 1 else 0))
     (failedCount s + (if accepted_by_host answer then 0 else 1))
     (deletion_events cfg (branchName, answer))).
Proof.
  intros Hdry Hdel. unfold deleteBranch. rewrite Hdry.
  unfold try_catch, bind at 1, api_delete_branch. rewrite Hdel.
  unfold deletion_events, went_on, as_request, record_deletion.
  destruct answer as [e | u]; destruct (json cfg);
    unfold bind, console, emit, when, ret, update_result, incr_deletedCount,
      incr_failedCount, throw, set_world; cbn;
    rewrite ?Z.add_0_r, <- ?app_assoc; reflexivity.
Qed.

(** The loop in a dry run. *)
Lemma forEach_dry_run (l : list Branch) :
  dryRun cfg = true ->
  forall s : State E,
    forEach E (fun branch => deleteBranch E cfg (name branch)) l s =
    (Return tt,
     add_events s (flat_map (preview_events cfg) (map name l))).
Proof.
  intros Hdry. induction l as [|b l IH]; intros s.
  - cbn. now rewrite add_events_nil.
  - cbn [forEach map flat_map].
    rewrite (bind_Return E _ _ _ _ _ (deleteBranch_dry_run (name b) s Hdry)).
    rewrite IH. now rewrite add_events_add.
Qed.

(** The loop outside a dry run: one request per branch, in order. *)
Lemma forEach_live_run (l : list Branch) :
  dryRun cfg = false ->
  forall s : State E,
  exists (answers : list (string * (ApiError + unit))) (w : World E),
    map fst answers = map name l /\
    forEach E (fun branch => deleteBranch E cfg (name branch)) l s =
    (Return tt,
     went_on s w
       (fold_left record_deletion (map as_request answers) (result s))
       (deletedCount s + length_Z (accepted (map as_request answers)))
       (failedCount s + length_Z (rejected (map as_request answers)))
       (flat_map (deletion_events cfg) answers)).
Proof.
  intros Hdry. induction l as [|b l IH]; intros s.
  - exists [], (world s). split; [reflexivity|].
    cbn. unfold went_on, length_Z. cbn. rewrite !Z.add_0_r, app_nil_r.
    now destruct s.
  - destruct (api_delete E (name b) (world s)) as [answer w1] eqn:Hdel.
    pose proof (deleteBranch_live_run (name b) s answer w1 Hdry Hdel) as Hb.
    destruct (IH (went_on s w1
                    (record_deletion (result s) (as_request (name b, answer)))
                    (deletedCount s + (if accepted_by_host answer then 1 else 0))
                    (failedCount s + (if accepted_by_host answer then 0 else 1))
                    (deletion_events cfg (name b, answer))))
      as (answers & w & Hnames & Hl).
    exists ((name b, answer) :: answers), w.
    split; [cbn; now rewrite Hnames|].
    cbn [forEach]. rewrite (bind_Return E _ _ _ _ _ Hb), Hl.
    unfold went_on. cbn [world result deletedCount failedCount events].
    cbn [map fold_left flat_map].
    rewrite <- !app_assoc.
    unfold accepted, rejected, length_Z.
    destruct answer as [e | u];
      cbn [as_request accepted_by_host filter snd fst negb List.length];
      (do 2 f_equal; lia).
Qed.

Lemma after_same (s : State E) : after s (world s) [] = s.
Proof. destruct s. unfold after. cbn. now rewrite app_nil_r. Qed.

(** The trace of the loop of [getBranches], against any host: requests for
    consecutive pages, all answered except possibly the last one. *)
Lemma getBranches_loop_trace (fuel : nat) :
  forall (acc : list Branch) (p : Z) (s : State E),
  exists (k : nat) (w : World E),
    (k <= fuel)%nat /\
    match getBranches_loop E fuel acc p s with
    | (Return _, s') => (0 < k)%nat /\ s' = after s w (page_requests p k)
    | (Throw err, s') =>
        (k < fuel)%nat /\
        exists e, err = AxiosError e /\
                  s' = after s w (page_requests p k ++ [ApiGet perPage (p + Z.of_nat k) false])
    | (Pending, s') => k = fuel /\ s' = after s w (page_requests p k)
    | (Exit _, _) => False
    end.
Proof.
  induction fuel as [|fuel IH]; intros acc p s.
  - exists O, (world s). split; [lia|]. cbn. split; [reflexivity|].
    now rewrite after_same.
  - cbn [getBranches_loop]. unfold bind at 1.
    destruct (api_get E perPage p (world s)) as [[e | data] w1] eqn:Hget.
    + rewrite (api_get_branches_fail E p s e w1 Hget).
      exists O, w1. split; [lia|]. split; [lia|].
      exists e. split; [reflexivity|]. cbn. now rewrite Z.add_0_r.
    + rewrite (api_get_branches_ok E p s data w1 Hget).
      destruct (length_Z data <? perPage).
      * exists 1%nat, w1. split; [lia|]. split; [lia | reflexivity].
      * destruct (IH (acc ++ data) (p + 1) (after s w1 [ApiGet perPage p true]))
          as (k & w & Hk & Hrun).
        exists (S k), w. split; [lia|].
        destruct (getBranches_loop E fuel (acc ++ data) (p + 1)
                    (after s w1 [ApiGet perPage p true])) as [[bs | err | code | ] s'].
        -- destruct Hrun as [_ Hs]. split; [lia|]. subst s'.
           now rewrite after_after.
        -- destruct Hrun as [Hlt (e & He & Hs)]. split; [lia|].
           exists e. split; [exact He|]. subst s'. rewrite after_after.
           cbn [page_requests app].
           replace (p + 1 + Z.of_nat k) with (p + Z.of_nat (S k)) by lia.
           reflexivity.
        -- exact Hrun.
        -- destruct Hrun as [Hkf Hs]. split; [lia|]. subst s'.
           now rewrite after_after.
Qed.

(** The trace of [getBranches], against any host. *)
Lemma getBranches_trace (fuel : nat) (s : State E) :
  exists (k : nat) (w : World E),
    (k <= fuel)%nat /\
    match getBranches E cfg fuel s with
    | (Return _, s') => (0 < k)%nat /\ s' = after s w (page_requests 1 k)
    | (Throw err, s') =>
        (k < fuel)%nat /\
        err = JsError "Failed to fetch branches from GitLab." /\
        exists e,
          s' = after s w
                 (page_requests 1 k
                  ++ [ApiGet perPage (1 + Z.of_nat k) false]
                  ++ map Console (fetch_error_lines cfg (AxiosError e)))
    | (Pending, s') => k = fuel /\ s' = after s w (page_requests 1 k)
    | (Exit _, _) => False
    end.
Proof.
  destruct (getBranches_loop_trace fuel [] 1 s) as (k & w & Hk & Hrun).
  exists k, w. split; [exact Hk|].
  unfold getBranches, try_catch.
  destruct (getBranches_loop E fuel [] 1 s) as [[bs | err | code | ] s'].
  - exact Hrun.
  - destruct Hrun as [Hlt (e & He & Hs)]. subst err s'.
    unfold fetch_error_lines.
    destruct (json cfg); cbn; (split; [exact Hlt|]); (split; [reflexivity|]);
      exists e; unfold after; cbn; rewrite <- ?app_assoc; cbn;
      rewrite ?app_nil_r; reflexivity.
  - exact Hrun.
  - exact Hrun.
Qed.

End TraceFacts.

(* ===================================================================== *)
(** ** The exact trace of a run *)
(* ===================================================================== *)

Section RunTrace.

Variable E : Env.
Variable cfg : Config.

(** The rest of the [try] block in a dry run, with its trace. *)
Lemma after_fetch_dry_run (bs : list Branch) (s1 : State E) :
  dryRun cfg = true ->
  exists (stale : list Branch) (w : World E),
    staleBranches E cfg bs (snd (set_branchesScanned E (length_Z bs) s1)) =
      (Return stale, set_world w (snd (set_branchesScanned E (length_Z bs) s1))) /\
    after_fetch E cfg bs s1 =
    (if failedCount s1 >? 0 then Exit 2 else Return tt,
     went_on s1 w
       (counted (result s1) (length_Z bs) (length_Z stale))
       (deletedCount s1) (failedCount s1)
       (found_events cfg (length_Z stale)
        ++ flat_map (preview_events cfg) (map name stale)
        ++ map Console
             (closing_lines cfg
                (counted (result s1) (length_Z bs) (length_Z stale))
                (length_Z stale) (deletedCount s1) (failedCount s1)))).
Proof.
  intros Hdry.
  set (s2 := snd (set_branchesScanned E (length_Z bs) s1)).
  destruct (staleBranches_run E cfg bs s2) as (stale & w & Hstale & _).
  exists stale, w. split; [exact Hstale|].
  unfold after_fetch.
  rewrite (bind_Return E _ _ s1 s2 tt) by reflexivity.
  rewrite (bind_Return E _ _ _ _ _ Hstale).
  set (s3 := snd (set_branchesEligible E (length_Z stale) (set_world w s2))).
  rewrite (bind_Return E _ _ (set_world w s2) s3 tt) by reflexivity.
  rewrite (bind_Return E _ _ _ _ _ (found_run E cfg (length_Z stale) s3)).
  rewrite (bind_Return E _ _ _ _ _ (forEach_dry_run E cfg stale Hdry _)).
  rewrite closing_run.
  unfold bind, get_failedCount, add_events, went_on. cbn.
  rewrite <- !app_assoc.
  destruct (failedCount s1 >? 0); reflexivity.
Qed.

(** The rest of the [try] block outside a dry run, with its trace. *)
Lemma after_fetch_live_run (bs : list Branch) (s1 : State E) :
  dryRun cfg = false ->
  exists (stale : list Branch) (w : World E)
         (answers : list (string * (ApiError + unit))) (w' : World E),
    staleBranches E cfg bs (snd (set_branchesScanned E (length_Z bs) s1)) =
      (Return stale, set_world w (snd (set_branchesScanned E (length_Z bs) s1))) /\
    map fst answers = map name stale /\
    after_fetch E cfg bs s1 =
    (if failedCount s1 + length_Z (rejected (map as_request answers)) >? 0
     then Exit 2 else Return tt,
     went_on s1 w'
       (fold_left record_deletion (map as_request answers)
          (counted (result s1) (length_Z bs) (length_Z stale)))
       (deletedCount s1 + length_Z (accepted (map as_request answers)))
       (failedCount s1 + length_Z (rejected (map as_request answers)))
       (found_events cfg (length_Z stale)
        ++ flat_map (deletion_events cfg) answers
        ++ map Console
             (closing_lines cfg
                (fold_left record_deletion (map as_request answers)
                   (counted (result s1) (length_Z bs) (length_Z stale)))
                (length_Z stale)
                (deletedCount s1 + length_Z (accepted (map as_request answers)))
                (failedCount s1 + length_Z (rejected (map as_request answers)))))).
Proof.
  intros Hdry.
  set (s2 := snd (set_branchesScanned E (length_Z bs) s1)).
  destruct (staleBranches_run E cfg bs s2) as (stale & w & Hstale & _).
  set (s3 := snd (set_branchesEligible E (length_Z stale) (set_world w s2))).
  destruct (forEach_live_run E cfg stale Hdry
              (add_events s3 (found_events cfg (length_Z stale))))
    as (answers & w' & Hnames & Hloop).
  exists stale, w, answers, w'. split; [exact Hstale|]. split; [exact Hnames|].
  unfold after_fetch.
  rewrite (bind_Return E _ _ s1 s2 tt) by reflexivity.
  rewrite (bind_Return E _ _ _ _ _ Hstale).
  rewrite (bind_Return E _ _ (set_world w s2) s3 tt) by reflexivity.
  rewrite (bind_Return E _ _ _ _ _ (found_run E cfg (length_Z stale) s3)).
  rewrite (bind_Return E _ _ _ _ _ Hloop).
  rewrite closing_run.
  unfold bind, get_failedCount, add_events, went_on. cbn.
  rewrite <- !app_assoc.
  destruct (failedCount s1 + length_Z (rejected (map as_request answers)) >? 0);
    reflexivity.
Qed.

Lemma fetch_state_events (w : World E) :
  fetch_state E cfg w = add_events (initial E w) (fetching_events cfg).
Proof.
  unfold fetch_state, fetching_events. destruct (json cfg); reflexivity.
Qed.

(** The run whose fetch returned is the rest of the [try] block. *)
Lemma run_is_after_fetch (fuel : nat) (w : World E) (bs : list Branch) (s1 : State E) :
  fetch E cfg fuel w = (Return bs, s1) ->
  run E cfg fuel w = after_fetch E cfg bs s1.
Proof.
  intros Hfetch. rewrite run_unfold. unfold try_catch.
  unfold fetch in Hfetch. rewrite (bind_Return E _ _ _ _ _ Hfetch).
  destruct (dryRun cfg) eqn:Hdry.
  - destruct (after_fetch_dry_run bs s1 Hdry) as (stale & w' & _ & Hrun).
    rewrite Hrun. now destruct (failedCount s1 >? 0).
  - destruct (after_fetch_live_run bs s1 Hdry) as (stale & w' & answers & w'' & _ & _ & Hrun).
    rewrite Hrun. now destruct (_ >? 0).
Qed.

(** The state that the fetch of a run leaves, when it returned. *)
Lemma fetch_returned_state (fuel : nat) (w : World E) (bs : list Branch) (s1 : State E) :
  fetch E cfg fuel w = (Return bs, s1) ->
  exists (k : nat) (w1 : World E),
    (0 < k <= fuel)%nat /\
    s1 = went_on (initial E w) w1 (result (initial E w)) 0 0
           (fetching_events cfg ++ page_requests 1 k).
Proof.
  intros Hfetch. unfold fetch in Hfetch.
  destruct (getBranches_trace E cfg fuel (fetch_state E cfg w)) as (k & w1 & Hk & Hrun).
  rewrite Hfetch in Hrun. destruct Hrun as [Hpos Hs].
  exists k, w1. split; [lia|]. subst s1.
  rewrite fetch_state_events. unfold after, add_events, went_on. cbn.
  reflexivity.
Qed.

(** The whole dry run whose fetch returned. *)
Lemma run_trace_dry (fuel : nat) (w : World E) (bs : list Branch) (s1 : State E) :
  dryRun cfg = true ->
  fetch E cfg fuel w = (Return bs, s1) ->
  exists (k : nat) (stale : list Branch) (s2 s3 : State E) (w' : World E),
    (0 < k <= fuel)%nat /\
    world s2 = world s1 /\
    staleBranches E cfg bs s2 = (Return stale, s3) /\
    run E cfg fuel w =
    (Return tt,
     went_on (initial E w) w'
       (counted (result (initial E w)) (length_Z bs) (length_Z stale)) 0 0
       (fetching_events cfg
        ++ page_requests 1 k
        ++ found_events cfg (length_Z stale)
        ++ flat_map (preview_events cfg) (map name stale)
        ++ map Console
             (closing_lines cfg
                (counted (result (initial E w)) (length_Z bs) (length_Z stale))
                (length_Z stale) 0 0))).
Proof.
  intros Hdry Hfetch.
  destruct (fetch_returned_state fuel w bs s1 Hfetch) as (k & w1 & Hk & Hs1).
  destruct (after_fetch_dry_run bs s1 Hdry) as (stale & w' & Hstale & Hrun).
  exists k, stale, (snd (set_branchesScanned E (length_Z bs) s1)),
    (set_world w' (snd (set_branchesScanned E (length_Z bs) s1))), w'.
  split; [exact Hk|]. split; [reflexivity|]. split; [exact Hstale|].
  rewrite (run_is_after_fetch fuel w bs s1 Hfetch), Hrun.
  subst s1. unfold went_on. cbn. rewrite <- !app_assoc. reflexivity.
Qed.

(** The whole run outside a dry run whose fetch returned. *)
Lemma run_trace_live (fuel : nat) (w : World E) (bs : list Branch) (s1 : State E) :
  dryRun cfg = false ->
  fetch E cfg fuel w = (Return bs, s1) ->
  exists (k : nat) (stale : list Branch) (s2 s3 : State E)
         (answers : list (string * (ApiError + unit))) (w' : World E),
    (0 < k <= fuel)%nat /\
    world s2 = world s1 /\
    staleBranches E cfg bs s2 = (Return stale, s3) /\
    map fst answers = map name stale /\
    run E cfg fuel w =
    (if length_Z (rejected (map as_request answers)) >? 0 then Exit 2 else Return tt,
     went_on (initial E w) w'
       (fold_left record_deletion (map as_request answers)
          (counted (result (initial E w)) (length_Z bs) (length_Z stale)))
       (length_Z (accepted (map as_request answers)))
       (length_Z (rejected (map as_request answers)))
       (fetching_events cfg
        ++ page_requests 1 k
        ++ found_events cfg (length_Z stale)
        ++ flat_map (deletion_events cfg) answers
        ++ map Console
             (closing_lines cfg
                (fold_left record_deletion (map as_request answers)
                   (counted (result (initial E w)) (length_Z bs) (length_Z stale)))
                (length_Z stale)
                (length_Z (accepted (map as_request answers)))
                (length_Z (rejected (map as_request answers)))))).
Proof.
  intros Hdry Hfetch.
  destruct (fetch_returned_state fuel w bs s1 Hfetch) as (k & w1 & Hk & Hs1).
  destruct (after_fetch_live_run bs s1 Hdry)
    as (stale & w' & answers & w'' & Hstale & Hnames & Hrun).
  exists k, stale, (snd (set_branchesScanned E (length_Z bs) s1)),
    (set_world w' (snd (set_branchesScanned E (length_Z bs) s1))), answers, w''.
  split; [exact Hk|]. split; [reflexivity|]. split; [exact Hstale|].
  split; [exact Hnames|].
  rewrite (run_is_after_fetch fuel w bs s1 Hfetch), Hrun.
  subst s1. unfold went_on. cbn. rewrite <- !app_assoc. reflexivity.
Qed.

(** The whole run whose fetch threw. *)
Lemma run_trace_thrown (fuel : nat) (w : World E) (err : Exn) (s1 : State E) :
  fetch E cfg fuel w = (Throw err, s1) ->
  exists (k : nat) (e : ApiError) (w' : World E),
    (k < fuel)%nat /\
    run E cfg fuel w =
    (Exit 2,
     went_on (initial E w) w' aborted_result 0 0
       (fetching_events cfg
        ++ page_requests 1 k
        ++ [ApiGet perPage (1 + Z.of_nat k) false]
        ++ map Console (fetch_error_lines cfg (AxiosError e))
        ++ map Console
             (abort_lines cfg aborted_result
                (JsError "Failed to fetch branches from GitLab.")))).
Proof.
  intros Hfetch.
  destruct (getBranches_trace E cfg fuel (fetch_state E cfg w)) as (k & w1 & Hk & Hrun).
  pose proof Hfetch as Hfetch'. unfold fetch in Hfetch'.
  rewrite Hfetch' in Hrun. destruct Hrun as (Hlt & Herr & e & Hs).
  exists k, e, w1. split; [exact Hlt|].
  rewrite run_unfold. unfold try_catch, bind at 1. rewrite Hfetch'.
  subst err s1. rewrite fetch_state_events.
  unfold abort_lines, after, add_events, went_on.
  destruct (json cfg); cbn; rewrite <- !app_assoc; cbn; reflexivity.
Qed.

(** The whole run whose fetch is pending. *)
Lemma run_trace_pending (fuel : nat) (w : World E) (s1 : State E) :
  fetch E cfg fuel w = (Pending, s1) ->
  exists w' : World E,
    run E cfg fuel w =
    (Pending,
     went_on (initial E w) w' (result (initial E w)) 0 0
       (fetching_events cfg ++ page_requests 1 fuel)).
Proof.
  intros Hfetch.
  destruct (getBranches_trace E cfg fuel (fetch_state E cfg w)) as (k & w1 & Hk & Hrun).
  pose proof Hfetch as Hfetch'. unfold fetch in Hfetch'.
  rewrite Hfetch' in Hrun. destruct Hrun as (Hkf & Hs).
  exists w1. rewrite (run_fetch_pending E cfg fuel w s1 Hfetch).
  subst k s1. rewrite fetch_state_events.
  unfold after, add_events, went_on. cbn. reflexivity.
Qed.

End RunTrace.

(* ===================================================================== *)
(** ** What the pieces of a trace hold *)
(* ===================================================================== *)

Section TracePieces.

Variable cfg : Config.

Lemma get_requests_consoles (ls : list Line) : get_requests (map Console ls) = [].
Proof. induction ls as [|l ls IH]; cbn; now rewrite ?IH. Qed.

Lemma delete_requests_consoles (ls : list Line) : delete_requests (map Console ls) = [].
Proof. induction ls as [|l ls IH]; cbn; now rewrite ?IH. Qed.

Lemma delete_requests_pages (p : Z) (n : nat) : delete_requests (page_requests p n) = [].
Proof. revert p. induction n as [|n IH]; intros p; cbn; [reflexivity | apply IH]. Qed.

Lemma console_lines_pages (p : Z) (n : nat) : console_lines (page_requests p n) = [].
Proof. revert p. induction n as [|n IH]; intros p; cbn; [reflexivity | apply IH]. Qed.

Lemma previewed_pages (p : Z) (n : nat) : previewed (page_requests p n) = [].
Proof. revert p. induction n as [|n IH]; intros p; cbn; [reflexivity | apply IH]. Qed.

Lemma delete_requests_previews (names : list string) :
  delete_requests (flat_map (preview_events cfg) names) = [].
Proof.
  induction names as [|n names IH]; cbn [flat_map]; [reflexivity|].
  rewrite delete_requests_app, IH. unfold preview_events.
  now destruct (json cfg).
Qed.

Lemma get_requests_previews (names : list string) :
  get_requests (flat_map (preview_events cfg) names) = [].
Proof.
  induction names as [|n names IH]; cbn [flat_map]; [reflexivity|].
  rewrite get_requests_app, IH. unfold preview_events.
  now destruct (json cfg).
Qed.

Lemma previewed_previews (names : list string) :
  previewed (flat_map (preview_events cfg) names) =
  if json cfg then [] else names.
Proof.
  induction names as [|n names IH]; cbn [flat_map].
  - now destruct (json cfg).
  - rewrite previewed_app, IH. unfold preview_events.
    now destruct (json cfg).
Qed.

Lemma console_lines_previews (names : list string) :
  console_lines (flat_map (preview_events cfg) names) =
  if json cfg then [] else map LineDryRun names.
Proof.
  induction names as [|n names IH]; cbn [flat_map].
  - now destruct (json cfg).
  - rewrite console_lines_app, IH. unfold preview_events.
    now destruct (json cfg).
Qed.

Lemma delete_requests_deletions (answers : list (string * (ApiError + unit))) :
  delete_requests (flat_map (deletion_events cfg) answers) = map as_request answers.
Proof.
  induction answers as [|[n a] answers IH]; cbn [flat_map map]; [reflexivity|].
  rewrite delete_requests_app, IH. unfold deletion_events, as_request.
  destruct a; destruct (json cfg); reflexivity.
Qed.

Lemma get_requests_deletions (answers : list (string * (ApiError + unit))) :
  get_requests (flat_map (deletion_events cfg) answers) = [].
Proof.
  induction answers as [|[n a] answers IH]; cbn [flat_map]; [reflexivity|].
  rewrite get_requests_app, IH. unfold deletion_events.
  destruct a; destruct (json cfg); reflexivity.
Qed.

Lemma previewed_deletions (answers : list (string * (ApiError + unit))) :
  previewed (flat_map (deletion_events cfg) answers) = [].
Proof.
  induction answers as [|[n a] answers IH]; cbn [flat_map]; [reflexivity|].
  rewrite previewed_app, IH. unfold deletion_events.
  destruct a; destruct (json cfg); reflexivity.
Qed.

Lemma console_lines_deletions_json (answers : list (string * (ApiError + unit))) :
  json cfg = true ->
  console_lines (flat_map (deletion_events cfg) answers) = [].
Proof.
  intros Hjson. induction answers as [|[n a] answers IH]; cbn [flat_map]; [reflexivity|].
  rewrite console_lines_app, IH. unfold deletion_events. rewrite Hjson.
  destruct a; reflexivity.
Qed.

Lemma previewed_closing (r : Result) (n d f : Z) :
  previewed (map Console (closing_lines cfg r n d f)) = [].
Proof.
  unfold closing_lines, summary_lines.
  destruct (json cfg); destruct (f >? 0); reflexivity.
Qed.

Lemma map_fst_as_request (answers : list (string * (ApiError + unit))) :
  map fst (map as_request answers) = map fst answers.
Proof.
  rewrite map_map. apply map_ext. intros [n a]. reflexivity.
Qed.

End TracePieces.

(* ===================================================================== *)
(** ** More on the filter *)
(* ===================================================================== *)

Section MoreFilterFacts.

Variable E : Env.
Variable cfg : Config.

(** Every branch that the filter keeps passed the predicate at a reading of
    the clock, and the list it returns is a subsequence of its input. *)
Lemma staleBranches_run_readings (l : list Branch) :
  forall s : State E,
  exists l' w,
    staleBranches E cfg l s = (Return l', set_world w s) /\
    subsequence l' l /\
    (forall b, In b l' ->
               exists w0, eligible_at E cfg (fst (Date_now E w0)) b = true).
Proof.
  unfold staleBranches.
  induction l as [|x xs IH]; intros s.
  - exists [], (world s). cbn. rewrite set_world_same.
    split; [reflexivity|]. split; [constructor | intros b []].
  - destruct (eligible_run E cfg x s) as [w Hx].
    destruct (IH (set_world w s)) as (l' & w' & Hxs & Hsub & Hin).
    cbn [filterM]. unfold bind at 1. rewrite Hx.
    unfold bind at 1. rewrite Hxs. rewrite set_world_twice.
    unfold ret.
    destruct (eligible_at E cfg (fst (Date_now E (world s))) x) eqn:Hel.
    + exists (x :: l'), w'. split; [reflexivity|].
      split; [now constructor|].
      intros b [Hb | Hb]; [subst b; eauto | auto].
    + exists l', w'. split; [reflexivity|].
      split; [now constructor | exact Hin].
Qed.

Lemma subsequence_In {A} (l' l : list A) :
  subsequence l' l -> forall x, In x l' -> In x l.
Proof.
  induction 1 as [| x l' l _ IH | x l' l _ IH]; intros y Hy.
  - destruct Hy.
  - right. now apply IH.
  - destruct Hy as [Hy | Hy]; [now left | right; now apply IH].
Qed.

Lemma subsequence_length {A} (l' l : list A) :
  subsequence l' l -> length_Z l' <= length_Z l.
Proof.
  unfold length_Z. induction 1; cbn [List.length]; lia.
Qed.

(** The filter does not depend on the [dryRun] flag. *)
Lemma staleBranches_with_dryRun (dry : bool) (l : list Branch) (s : State E) :
  staleBranches E (with_dryRun dry cfg) l s = staleBranches E cfg l s.
Proof. reflexivity. Qed.

(** Nor does the listing. *)
Lemma getBranches_with_dryRun (dry : bool) (fuel : nat) (s : State E) :
  getBranches E (with_dryRun dry cfg) fuel s = getBranches E cfg fuel s.
Proof. reflexivity. Qed.

Lemma fetch_with_dryRun (dry : bool) (fuel : nat) (w : World E) :
  fetch E (with_dryRun dry cfg) fuel w = fetch E cfg fuel w.
Proof. reflexivity. Qed.

(** Staleness only grows with the reading of the clock and shrinks with
    the threshold. *)
Lemma stale_monotone (b : Branch) (t t' : Z) (T T' : JS.number) :
  t <= t' ->
  JS.gt T T' = true \/ T = T' ->
  JS.gt (daysSinceLastUpdate E t b) T = true ->
  JS.gt (daysSinceLastUpdate E t' b) T' = true.
Proof.
  intros Ht HT.
  unfold daysSinceLastUpdate, getTime.
  destruct (Date_parse E (committed_date b)) as [t0|]; [|discriminate].
  assert (Hage : ((inject_Z t - inject_Z t0) / inject_Z msPerDay <=
                  (inject_Z t' - inject_Z t0) / inject_Z msPerDay)%Q).
  { rewrite !age_as_fraction.
    unfold Qle, Qdiv, Qmult, Qinv, inject_Z, msPerDay. cbn. lia. }
  cbn [JS.sub JS.of_Z JS.div]. change (Qeq_bool (inject_Z msPerDay) 0) with false.
  cbn iota.
  destruct T as [|q]; [discriminate|]. destruct T' as [|q'].
  - destruct HT as [HT | HT]; discriminate.
  - rewrite !gt_true_iff. intros Hs.
    destruct HT as [HT | HT].
    + apply gt_true_iff in HT.
      eapply Qlt_le_trans; [|exact Hage].
      eapply Qlt_trans; eauto.
    + injection HT as <-. eapply Qlt_le_trans; eauto.
Qed.

End MoreFilterFacts.

Section LaterRuns.

Variable E : Env.
Variable cfg : Config.

Lemma eligible_at_later (t t' : Z) (b : Branch) :
  t <= t' ->
  eligible_at E cfg t b = true ->
  eligible_at E cfg t' b = true.
Proof.
  intros Ht. unfold eligible_at. rewrite !andb_true_iff.
  intros [[[Hn Hp] Hs] Hx]. repeat split; try assumption.
  apply (stale_monotone E b t t' (staleDays cfg) (staleDays cfg) Ht); auto.
Qed.

(** A run of the filter from a world whose clock is not behind keeps every
    branch that the run from the other world keeps. *)
Lemma staleBranches_later (R : World E -> World E -> Prop) (l : list Branch) :
  later_readings E R ->
  forall (s1 s2 : State E) (l1 l2 : list Branch) (s1' s2' : State E),
    R (world s1) (world s2) ->
    staleBranches E cfg l s1 = (Return l1, s1') ->
    staleBranches E cfg l s2 = (Return l2, s2') ->
    subsequence l1 l2.
Proof.
  intros HR. unfold staleBranches.
  induction l as [|x xs IH]; intros s1 s2 l1 l2 s1' s2' Hw H1 H2.
  - cbn in H1, H2. injection H1 as <- _. injection H2 as <- _. constructor.
  - cbn [filterM] in H1, H2. unfold bind at 1 in H1. unfold bind at 1 in H2.
    rewrite (eligible_run_world E cfg x s1) in H1.
    rewrite (eligible_run_world E cfg x s2) in H2.
    destruct (HR _ _ Hw) as [Hread Hnext].
    set (n1 := if reads_clock cfg x
               then set_world (snd (Date_now E (world s1))) s1 else s1) in *.
    set (n2 := if reads_clock cfg x
               then set_world (snd (Date_now E (world s2))) s2 else s2) in *.
    assert (Hn : R (world n1) (world n2)).
    { unfold n1, n2. destruct (reads_clock cfg x); [exact Hnext | exact Hw]. }
    destruct (staleBranches_run E cfg xs n1) as (r1 & w1 & Hr1 & _).
    destruct (staleBranches_run E cfg xs n2) as (r2 & w2 & Hr2 & _).
    unfold staleBranches in Hr1, Hr2.
    unfold bind in H1, H2. rewrite Hr1 in H1. rewrite Hr2 in H2.
    unfold ret in H1, H2.
    pose proof (IH n1 n2 r1 r2 _ _ Hn Hr1 Hr2) as Hsub.
    injection H1 as <- _. injection H2 as <- _.
    destruct (eligible_at E cfg (fst (Date_now E (world s1))) x) eqn:He1.
    + rewrite (eligible_at_later _ _ x Hread He1). now constructor.
    + destruct (eligible_at E cfg (fst (Date_now E (world s2))) x);
        [now constructor | exact Hsub].
Qed.

End LaterRuns.

Section DeleteOrigin.

Variable E : Env.
Variable cfg : Config.

(** A delete request in the trace of a run comes from the loop over the
    list that the filter returned, outside a dry run. *)
Lemma delete_request_origin (fuel : nat) (w : World E) (branchName : string) (ok : bool) :
  In (branchName, ok) (delete_requests (events (snd (run E cfg fuel w)))) ->
  dryRun cfg = false /\
  exists (bs : list Branch) (s1 : State E) (stale : list Branch) (s2 s3 : State E),
    fetch E cfg fuel w = (Return bs, s1) /\
    staleBranches E cfg bs s2 = (Return stale, s3) /\
    In branchName (map name stale).
Proof.
  intros Hin.
  destruct (fetch E cfg fuel w) as [[bs | err | code | ] s1] eqn:Hfetch.
  - destruct (dryRun cfg) eqn:Hdry.
    + destruct (run_fetch_returned_dry E cfg fuel w bs s1 Hdry Hfetch)
        as (stale & s2 & s3 & _ & _ & _ & _ & _ & _ & _ & Hdel).
      rewrite Hdel in Hin. destruct Hin.
    + destruct (run_fetch_returned_live E cfg fuel w bs s1 Hdry Hfetch)
        as (stale & s2 & s3 & _ & Hstale & Hnames & _).
      split; [reflexivity|].
      exists bs, s1, stale, s2, s3.
      split; [reflexivity|]. split; [exact Hstale|].
      rewrite <- Hnames. apply (in_map fst) in Hin. exact Hin.
  - destruct (run_fetch_thrown E cfg fuel w err s1 Hfetch) as (_ & _ & _ & _ & _ & Hdel).
    rewrite Hdel in Hin. destruct Hin.
  - destruct (fetch_frame E cfg fuel w) as (_ & _ & _ & _ & Hex).
    rewrite Hfetch in Hex. now destruct (Hex code).
  - destruct (fetch_frame E cfg fuel w) as (_ & _ & _ & Hdel & _).
    rewrite Hfetch in Hdel. cbn [snd] in Hdel.
    rewrite (run_fetch_pending E cfg fuel w s1 Hfetch) in Hin. cbn [snd] in Hin.
    rewrite Hdel in Hin. destruct Hin.
Qed.

End DeleteOrigin.

Section RunEnds.

Variable E : Env.
Variable cfg : Config.

(** How a run can end, with the [success] it leaves. *)
Lemma run_ends (fuel : nat) (w : World E) :
  match fst (run E cfg fuel w) with
  | Return _ => success (result (snd (run E cfg fuel w))) = true
  | Exit code => code = 2 /\ success (result (snd (run E cfg fuel w))) = false
  | Throw _ => False
  | Pending => fst (fetch E cfg fuel w) = Pending
  end.
Proof.
  destruct (fetch E cfg fuel w) as [[bs | err | code | ] s1] eqn:Hfetch.
  - destruct (dryRun cfg) eqn:Hdry.
    + destruct (run_fetch_returned_dry E cfg fuel w bs s1 Hdry Hfetch)
        as (stale & s2 & s3 & _ & _ & Hout & Hres & _).
      rewrite Hout, Hres. reflexivity.
    + destruct (run_fetch_returned_live E cfg fuel w bs s1 Hdry Hfetch)
        as (stale & s2 & s3 & _ & _ & _ & Hout & Hres & _).
      set (reqs := delete_requests (events (snd (run E cfg fuel w)))) in *.
      rewrite Hout.
      assert (Hsucc : success (result (snd (run E cfg fuel w))) = forallb snd reqs).
      { rewrite Hres, record_deletions_success. reflexivity. }
      rewrite Hsucc.
      destruct (length_Z (rejected reqs) >? 0) eqn:Hrej.
      * split; [reflexivity|].
        destruct (forallb snd reqs) eqn:Hall; [|reflexivity].
        apply rejected_nil_iff in Hall. rewrite Hall in Hrej. discriminate.
      * apply rejected_nil_iff, length_Z_nil_iff.
        unfold length_Z in *. lia.
  - destruct (run_fetch_thrown E cfg fuel w err s1 Hfetch) as (Hout & Hres & _).
    rewrite Hout, Hres. split; reflexivity.
  - destruct (fetch_frame E cfg fuel w) as (_ & _ & _ & _ & Hex).
    rewrite Hfetch in Hex. now destruct (Hex code).
  - rewrite (run_fetch_pending E cfg fuel w s1 Hfetch). reflexivity.
Qed.

End RunEnds.

Section CliFacts.

Variable E : Env.

(** The program, once the prompt has answered and the input is complete:
    it is the run of the cleaner, followed by [process.exit(0)]. *)
Lemma cli_run_complete (prompt : list Question -> Exn + Answers) (options : Options)
  (fuel : nat) (w : World E) (a : Answers) :
  promptForMissingOptions prompt options = inr a ->
  missing_input options a = false ->
  cli_run E prompt options fuel w =
  (match fst (run E (finalInput options a) fuel w) with
   | Return _ => Exit 0
   | o => o
   end,
   snd (run E (finalInput options a) fuel w)).
Proof.
  intros Hp Hm. unfold cli_run, cli, try_catch. rewrite Hp, Hm.
  unfold bind at 1. fold (run E (finalInput options a) fuel w).
  pose proof (run_ends E (finalInput options a) fuel w) as Hends.
  destruct (run E (finalInput options a) fuel w) as [[u | err | code | ] s];
    cbn [fst snd] in *; try reflexivity.
  destruct Hends.
Qed.

Lemma cli_run_missing (prompt : list Question -> Exn + Answers) (options : Options)
  (fuel : nat) (w : World E) (a : Answers) :
  promptForMissingOptions prompt options = inr a ->
  missing_input options a = true ->
  cli_run E prompt options fuel w =
  (Exit 1, add_events (initial E w) [Console (LineMessage usage_error)]).
Proof.
  intros Hp Hm. unfold cli_run, cli, try_catch. rewrite Hp, Hm. reflexivity.
Qed.

Lemma cli_run_prompt_failed (prompt : list Question -> Exn + Answers) (options : Options)
  (fuel : nat) (w : World E) (err : Exn) :
  promptForMissingOptions prompt options = inl err ->
  cli_run E prompt options fuel w =
  (Exit 2,
   add_events (initial E w)
     [Console (LineMessage ("ERROR: " ++ exn_message err)%string)]).
Proof.
  intros Hp. unfold cli_run, cli, try_catch. rewrite Hp. reflexivity.
Qed.

End CliFacts.

(* ===================================================================== *)
(** ** Splitting and trimming *)
(* ===================================================================== *)

Section ExcludeFacts.

Import Exclude.

Variable white : ascii -> bool.

Lemma split_not_nil (sep : ascii) (s : string) : split sep s <> [].
Proof.
  destruct s as [|c s]; cbn; [discriminate|].
  destruct (Ascii.eqb c sep); [discriminate|].
  destruct (split sep s); discriminate.
Qed.

Lemma concat_cons_char (sep : string) (c : ascii) (p : string) (ps : list string) :
  String.concat sep (String c p :: ps) = String c (String.concat sep (p :: ps)).
Proof. destruct ps; reflexivity. Qed.

(** Joining the pieces with the separator gives the string back. *)
Lemma concat_split (sep : ascii) (s : string) :
  String.concat (String sep EmptyString) (split sep s) = s.
Proof.
  induction s as [|c s IH]; [reflexivity|].
  cbn [split]. destruct (Ascii.eqb_spec c sep) as [-> | Hc].
  - destruct (split sep s) as [|p ps] eqn:Hs; [now destruct (split_not_nil sep s)|].
    change (String.concat (String sep EmptyString) (EmptyString :: p :: ps))
      with (String sep (String.concat (String sep EmptyString) (p :: ps))).
    now rewrite IH.
  - destruct (split sep s) as [|p ps] eqn:Hs; [now destruct (split_not_nil sep s)|].
    rewrite concat_cons_char, IH. reflexivity.
Qed.

Lemma split_length (sep : ascii) (s : string) :
  List.length (split sep s) = S (occurrences sep s).
Proof.
  induction s as [|c s IH]; [reflexivity|].
  cbn [split occurrences]. destruct (Ascii.eqb c sep).
  - cbn. now rewrite IH.
  - destruct (split sep s) as [|p ps]; [discriminate|]. cbn in *. exact IH.
Qed.

Lemma split_no_separator (sep : ascii) (s : string) :
  Forall (fun piece => contains sep piece = false) (split sep s).
Proof.
  induction s as [|c s IH]; [repeat constructor|].
  cbn [split]. destruct (Ascii.eqb c sep) eqn:Hc.
  - constructor; [reflexivity | exact IH].
  - destruct (split sep s) as [|p ps]; [repeat constructor; cbn; now rewrite Hc|].
    inversion IH as [|? ? Hp Hps]; subst.
    constructor; [cbn; now rewrite Hc | exact Hps].
Qed.

(** A string without the separator is its only piece. *)
Lemma split_whole (sep : ascii) (s : string) :
  contains sep s = false -> split sep s = [s].
Proof.
  induction s as [|c s IH]; [reflexivity|].
  cbn [contains split]. intros H. apply orb_false_iff in H. destruct H as [Hc Hs].
  rewrite Hc, (IH Hs). reflexivity.
Qed.

Lemma split_app (sep : ascii) (a b : string) :
  contains sep a = false ->
  split sep (a ++ String sep b) = a :: split sep b.
Proof.
  induction a as [|c a IH]; intros H.
  - cbn. now rewrite Ascii.eqb_refl.
  - cbn [contains] in H. apply orb_false_iff in H. destruct H as [Hc Ha].
    cbn [String.append split]. rewrite Hc, (IH Ha). reflexivity.
Qed.

Lemma contains_app (c : ascii) (a b : string) :
  contains c (a ++ b) = contains c a || contains c b.
Proof.
  induction a as [|c' a IH]; [reflexivity|].
  cbn. now rewrite IH, orb_assoc.
Qed.

Lemma all_white_no (c : ascii) (s : string) :
  white c = false -> all_white white s = true -> contains c s = false.
Proof.
  intros Hc. induction s as [|c' s IH]; [reflexivity|].
  cbn. intros H. apply andb_true_iff in H. destruct H as [Hw Hs].
  rewrite (IH Hs), orb_false_r.
  destruct (Ascii.eqb_spec c' c) as [-> | ]; [congruence | reflexivity].
Qed.

Lemma trimStart_white (l s : string) :
  all_white white l = true -> trimStart white (l ++ s) = trimStart white s.
Proof.
  induction l as [|c l IH]; [reflexivity|].
  cbn. intros H. apply andb_true_iff in H. destruct H as [Hc Hl].
  now rewrite Hc, (IH Hl).
Qed.

Lemma trimStart_all_white (r : string) :
  all_white white r = true -> trimStart white r = EmptyString.
Proof.
  induction r as [|c r IH]; [reflexivity|].
  cbn. intros H. apply andb_true_iff in H. destruct H as [Hc Hr].
  now rewrite Hc, (IH Hr).
Qed.

Lemma trimEnd_all_white (r : string) :
  all_white white r = true -> trimEnd white r = EmptyString.
Proof.
  induction r as [|c r IH]; [reflexivity|].
  cbn. intros H. apply andb_true_iff in H. destruct H as [Hc Hr].
  now rewrite (IH Hr), Hc.
Qed.

Lemma trimEnd_white (s r : string) :
  all_white white r = true -> trimEnd white (s ++ r) = trimEnd white s.
Proof.
  intros Hr. induction s as [|c s IH].
  - cbn. now apply trimEnd_all_white.
  - cbn. now rewrite IH.
Qed.

Lemma trimStart_length (s : string) :
  (String.length (trimStart white s) <= String.length s)%nat.
Proof.
  induction s as [|c s IH]; [cbn; lia|].
  cbn [trimStart]. destruct (white c); cbn [String.length]; lia.
Qed.

(** A string that [trimStart] leaves alone is empty or starts with a
    character that is not white. *)
Lemma trimStart_fixed (s : string) :
  trimStart white s = s ->
  s = EmptyString \/ exists c s', s = String c s' /\ white c = false.
Proof.
  destruct s as [|c s]; [now left|].
  cbn. destruct (white c) eqn:Hc; [|right; eauto].
  intros H. pose proof (trimStart_length s) as Hlen.
  rewrite H in Hlen. cbn in Hlen. lia.
Qed.

Lemma trimEnd_idempotent (s : string) :
  trimEnd white (trimEnd white s) = trimEnd white s.
Proof.
  induction s as [|c s IH]; [reflexivity|].
  cbn [trimEnd]. destruct (trimEnd white s) as [|c' t] eqn:Ht.
  - destruct (white c) eqn:Hc; [reflexivity|]. cbn. now rewrite Hc.
  - cbn [trimEnd]. cbn [trimEnd] in IH. rewrite IH. reflexivity.
Qed.

Lemma trimStart_trimEnd (s : string) :
  trimStart white s = s ->
  trimStart white (trimEnd white s) = trimEnd white s.
Proof.
  intros H. destruct (trimStart_fixed s H) as [-> | (c & s' & -> & Hc)];
    [reflexivity|].
  cbn [trimEnd]. destruct (trimEnd white s'); rewrite ?Hc; cbn; now rewrite Hc.
Qed.

Lemma trimStart_idempotent (s : string) :
  trimStart white (trimStart white s) = trimStart white s.
Proof.
  induction s as [|c s IH]; [reflexivity|].
  cbn [trimStart]. destruct (white c) eqn:Hc; [exact IH|].
  cbn. now rewrite Hc.
Qed.

Lemma contains_trimStart (c : ascii) (s : string) :
  contains c s = false -> contains c (trimStart white s) = false.
Proof.
  induction s as [|c' s IH]; [reflexivity|].
  cbn [trimStart]. destruct (white c'); [|auto].
  cbn. intros H. apply orb_false_iff in H. now apply IH.
Qed.

Lemma contains_trimEnd (c : ascii) (s : string) :
  contains c s = false -> contains c (trimEnd white s) = false.
Proof.
  induction s as [|c' s IH]; [reflexivity|].
  cbn [contains trimEnd]. intros H. apply orb_false_iff in H. destruct H as [Hc Hs].
  specialize (IH Hs).
  destruct (trimEnd white s) as [|c'' t].
  - destruct (white c'); cbn; now rewrite ?Hc.
  - cbn [contains] in *. now rewrite Hc, IH.
Qed.

(** Trimming a written name with white space around it gives the name. *)
Lemma trim_padded (p : Padded) :
  all_white white (before p) = true ->
  all_white white (behind p) = true ->
  trimStart white (written p) = written p ->
  trimEnd white (written p) = written p ->
  trim white (padded p) = written p.
Proof.
  intros Hl Hr Hs He. unfold trim, padded.
  rewrite (trimStart_white _ _ Hl).
  destruct (trimStart_fixed _ Hs) as [Hn | (c & s' & Hn & Hc)]; rewrite Hn in *.
  - cbn [String.append]. rewrite (trimStart_all_white _ Hr). reflexivity.
  - cbn [String.append trimStart]. rewrite Hc.
    change (String c (s' ++ behind p)) with (String c s' ++ behind p)%string.
    now rewrite (trimEnd_white _ _ Hr).
Qed.

Lemma contains_padded (p : Padded) :
  white ","%char = false ->
  all_white white (before p) = true ->
  all_white white (behind p) = true ->
  contains ","%char (written p) = false ->
  contains ","%char (padded p) = false.
Proof.
  intros Hc Hl Hr Hn. unfold padded.
  now rewrite !contains_app, (all_white_no _ _ Hc Hl), (all_white_no _ _ Hc Hr), Hn.
Qed.

End ExcludeFacts.

(* ===================================================================== *)
(** ** The staleness test in binary64 *)
(* ===================================================================== *)

(** With a threshold that has a fraction of a day, the rounding of the
    division decides the boundary: the number 0.3 of binary64 lies below
    3/10, an age of 25920000 ms is 3/10 of a day, and the test of the
    program, which rounds the quotient to the number 0.3, says not stale. *)
Lemma isBranchStale_binary64_fraction :
  Binary64.isBranchStale 25920000 0 0x1.3333333333333p-2 = false /\
  Prim2SF 0x1.3333333333333p-2 = S754_finite false 5404319552844595 (-54) /\
  (inject_Z 5404319552844595 * 2 ^ (-54) < inject_Z 25920000 / inject_Z msPerDay)%Q.
Proof. repeat split; reflexivity. Qed.

Section RoundingFacts.

Import Rounded.

Lemma representable_integer (z : Z) :
  Z.abs z < 2 ^ 53 -> representable (inject_Z z).
Proof.
  intros H. exists z, 0. split; [exact H|]. split; [lia|].
  cbn. ring.
Qed.

Lemma nearest_Qeq (q q' f : Q) :
  (q == q')%Q -> nearest q f -> nearest q' f.
Proof.
  intros Hq [Hr Hn]. split; [exact Hr|].
  intros g Hg. specialize (Hn g Hg).
  now rewrite <- Hq.
Qed.

(** No result lies beyond a number of binary64 that is on the other side of
    the exact result. *)
Lemma nearest_below (q f g : Q) :
  nearest q f -> representable g -> (q <= g)%Q -> (f <= g)%Q.
Proof.
  intros [_ Hn] Hg Hq. specialize (Hn g Hg).
  assert (H1 : (Qabs.Qabs (q - g) == g - q)%Q).
  { rewrite Qabs.Qabs_neg by Lqa.lra. ring. }
  assert (H2 : (f - q <= Qabs.Qabs (q - f))%Q).
  { rewrite <- Qabs.Qabs_opp. eapply Qle_trans; [|apply Qabs.Qle_Qabs]. Lqa.lra. }
  Lqa.lra.
Qed.

Lemma nearest_above (q f g : Q) :
  nearest q f -> representable g -> (g <= q)%Q -> (g <= f)%Q.
Proof.
  intros [_ Hn] Hg Hq. specialize (Hn g Hg).
  assert (H1 : (Qabs.Qabs (q - g) == q - g)%Q).
  { rewrite Qabs.Qabs_pos by Lqa.lra. ring. }
  assert (H2 : (q - f <= Qabs.Qabs (q - f))%Q) by apply Qabs.Qle_Qabs.
  Lqa.lra.
Qed.

(** A number of binary64 at a distance below [d] keeps the result within
    [d]. *)
Lemma nearest_within (q f g d : Q) :
  nearest q f -> representable g -> (Qabs.Qabs (q - g) < d)%Q -> (Qabs.Qabs (q - f) < d)%Q.
Proof.
  intros [_ Hn] Hg Hd. specialize (Hn g Hg). Lqa.lra.
Qed.

(** An operation whose exact result is an integer below 2^53 is exact. *)
Lemma nearest_exact (z : Z) (f : Q) :
  Z.abs z < 2 ^ 53 -> nearest (inject_Z z) f -> (f == inject_Z z)%Q.
Proof.
  intros Hz Hn. pose proof (representable_integer z Hz) as Hr.
  apply Qle_antisym.
  - apply (nearest_below _ _ _ Hn Hr). Lqa.lra.
  - apply (nearest_above _ _ _ Hn Hr). Lqa.lra.
Qed.

(** Such a result exists: the integer itself. *)
Lemma nearest_integer (z : Z) :
  Z.abs z < 2 ^ 53 -> nearest (inject_Z z) (inject_Z z).
Proof.
  intros Hz. split; [now apply representable_integer|].
  intros g _. setoid_replace (inject_Z z - inject_Z z)%Q with 0%Q by ring.
  apply Qabs.Qabs_nonneg.
Qed.

Lemma age_quotient (elapsed : Z) :
  (inject_Z elapsed / inject_Z msPerDay * 86400000 == inject_Z elapsed)%Q.
Proof.
  change (inject_Z msPerDay) with (86400000%Q). field.
Qed.

(** The rounding of the division does not change the comparison with a
    whole number of days, for integers that binary64 holds exactly: between
    two whole days, a number of binary64 lies within 2^-27 of the age,
    which is less than the millisecond, 1/86400000 of a day, that separates
    the age from the whole day below it. *)
Lemma rounded_age_exceeds_days (elapsed days : Z) (f : Q) :
  Z.abs days < 2 ^ 53 ->
  Z.abs elapsed < 2 ^ 53 ->
  nearest (inject_Z elapsed / inject_Z msPerDay) f ->
  (inject_Z days < f)%Q <-> days * msPerDay < elapsed.
Proof.
  intros Hdays Helapsed Hn.
  pose proof (age_quotient elapsed) as Hq.
  set (q := (inject_Z elapsed / inject_Z msPerDay)%Q) in *. clearbody q.
  assert (Hrd : representable (inject_Z days)) by (apply representable_integer; lia).
  split.
  - intros Hlt. destruct (Z_lt_le_dec (days * msPerDay) elapsed) as [H | H]; [exact H|].
    exfalso.
    assert (Hle : (q <= inject_Z days)%Q).
    { rewrite Zle_Qle, inject_Z_mult in H.
      change (inject_Z msPerDay) with (86400000%Q) in H. Lqa.lra. }
    pose proof (nearest_below _ _ _ Hn Hrd Hle). Lqa.lra.
  - intros Hlt. apply Qnot_le_lt. intros Hf.
    destruct (Z_lt_le_dec elapsed ((days + 1) * msPerDay)) as [H | H].
    + set (r := elapsed - days * msPerDay).
      set (k := (134217728 * r + 86400000) / 172800000).
      assert (Hr : 1 <= r /\ r < 86400000) by (unfold r, msPerDay in *; lia).
      assert (Hsmall : Z.abs days <= 104249992) by (unfold msPerDay in *; lia).
      assert (Hk : 172800000 * k <= 134217728 * r + 86400000 /\
                   134217728 * r + 86400000 < 172800000 * k + 172800000).
      { unfold k. pose proof (Z.div_mod (134217728 * r + 86400000) 172800000).
        pose proof (Z.mod_pos_bound (134217728 * r + 86400000) 172800000).
        lia. }
      assert (Hk0 : 0 <= k <= 2 ^ 26) by lia.
      set (g := (inject_Z (days * 2 ^ 26 + k) * 2 ^ (-26))%Q).
      assert (Hg : representable g).
      { exists (days * 2 ^ 26 + k), (-26). split; [lia|]. split; [lia|]. reflexivity. }
      assert (Hgv : (g * 67108864 == inject_Z days * 67108864 + inject_Z k)%Q).
      { unfold g. rewrite inject_Z_plus, inject_Z_mult.
        change (inject_Z (2 ^ 26)) with (67108864%Q).
        change ((2 ^ (-26))%Q) with (/ 67108864)%Q. field. }
      assert (He : (inject_Z elapsed == inject_Z days * 86400000 + inject_Z r)%Q).
      { change (86400000%Q) with (inject_Z 86400000).
        rewrite <- inject_Z_mult, <- inject_Z_plus.
        apply inject_Z_injective. unfold r, msPerDay. lia. }
      clearbody g k r.
      destruct Hk as [Hk1 Hk2]. destruct Hr as [Hr1 Hr2].
      rewrite Zle_Qle in Hk1, Hr1. rewrite Zlt_Qlt in Hk2, Hr2.
      repeat rewrite ?inject_Z_plus, ?inject_Z_mult in Hk1.
      repeat rewrite ?inject_Z_plus, ?inject_Z_mult in Hk2.
      change (inject_Z 134217728) with (134217728%Q) in *.
      change (inject_Z 172800000) with (172800000%Q) in *.
      change (inject_Z 86400000) with (86400000%Q) in *.
      change (inject_Z 1) with (1%Q) in *.
      assert (Hd : (Qabs.Qabs (q - g) < 1 # 86400000)%Q).
      { apply Qabs.Qabs_Qlt_condition. split; Lqa.lra. }
      pose proof (nearest_within _ _ _ _ Hn Hg Hd) as Hfd.
      apply Qabs.Qabs_Qlt_condition in Hfd. destruct Hfd as [_ Hfd].
      rewrite Zlt_Qlt, inject_Z_mult in Hlt.
      change (inject_Z msPerDay) with (86400000%Q) in Hlt.
      Lqa.lra.
    + assert (Hr1 : representable (inject_Z (days + 1))).
      { apply representable_integer. unfold msPerDay in *. lia. }
      assert (Hle : (inject_Z (days + 1) <= q)%Q).
      { rewrite Zle_Qle, inject_Z_mult in H.
        change (inject_Z msPerDay) with (86400000%Q) in H. Lqa.lra. }
      pose proof (nearest_above _ _ _ Hn Hr1 Hle) as Hge.
      rewrite inject_Z_plus in Hge. change (inject_Z 1) with (1%Q) in Hge. Lqa.lra.
Qed.

Variable E : Env.
Variable cfg : Config.

(** The test of the model, which subtracts and divides exactly, returns
    what the test of the program returns, which rounds the difference [d]
    and the quotient [f] to binary64: for a threshold that is a whole
    number of days and an elapsed time in milliseconds that are both below
    2^53, the integers that binary64 holds exactly. *)
Lemma isBranchStale_rounded (b : Branch) (s : State E) (T : Q) (days t0 : Z)
  (d f : Q) :
  staleDays cfg = JS.Num T ->
  (T == inject_Z days)%Q ->
  Date_parse E (committed_date b) = Some t0 ->
  Z.abs days < 2 ^ 53 ->
  Z.abs (fst (Date_now E (world s)) - t0) < 2 ^ 53 ->
  nearest (inject_Z (fst (Date_now E (world s))) - inject_Z t0) d ->
  nearest (d / inject_Z msPerDay) f ->
  fst (isBranchStale E cfg b s) = Return (JS.gt (JS.Num f) (JS.Num T)).
Proof.
  intros HT HTd Hdate Hdays Hel Hd Hf.
  set (t := fst (Date_now E (world s))) in *.
  rewrite isBranchStale_run. cbn [fst]. fold t.
  rewrite HT, (daysSinceLastUpdate_valid E _ t0 b Hdate). f_equal.
  assert (Hexact : (d == inject_Z (t - t0))%Q).
  { apply nearest_exact; [exact Hel|].
    apply (nearest_Qeq (inject_Z t - inject_Z t0)); [|exact Hd].
    unfold Z.sub. rewrite inject_Z_plus, inject_Z_opp. reflexivity. }
  assert (Hf' : nearest (inject_Z (t - t0) / inject_Z msPerDay) f).
  { apply (nearest_Qeq (d / inject_Z msPerDay)); [|exact Hf]. now rewrite Hexact. }
  pose proof (rounded_age_exceeds_days (t - t0) days f Hdays Hel Hf') as Hround.
  pose proof (age_exceeds_days (t - t0) days) as Hmodel.
  destruct (JS.gt (JS.Num f) (JS.Num T)) eqn:Hgt.
  - apply gt_true_iff. rewrite age_as_fraction, HTd. apply Hmodel, Hround.
    apply gt_true_iff in Hgt. now rewrite <- HTd.
  - apply gt_false_iff. rewrite age_as_fraction, HTd.
    apply gt_false_iff in Hgt. apply Qnot_lt_le. intros Hlt.
    apply Hmodel, Hround in Hlt. rewrite HTd in Hgt. Lqa.lra.
Qed.

End RoundingFacts.


(** For one: on day 200 the branch feat/x of the example is 70 days old;
    the difference and the quotient are whole numbers, which the operations
    of binary64 return as they are, and 70 exceeds the 60 days of the
    threshold. *)
Lemma isBranchStale_rounded_example :
  fst (isBranchStale (Sim.env Scenario.day200) Scenario.example_config
         Scenario.feat_x (initial (Sim.env Scenario.day200) 0))
  = Return true.
Proof.
  rewrite (isBranchStale_rounded (Sim.env Scenario.day200) Scenario.example_config
             Scenario.feat_x (initial (Sim.env Scenario.day200) 0)
             (inject_Z 60) 60 (130 * Sim.day) (inject_Z (70 * Sim.day))
             (inject_Z 70)).
  - reflexivity.
  - reflexivity.
  - reflexivity.
  - reflexivity.
  - cbn. lia.
  - reflexivity.
  - apply (nearest_Qeq (inject_Z (70 * Sim.day))); [reflexivity|].
    apply nearest_integer. cbn. lia.
  - apply (nearest_Qeq (inject_Z 70)); [reflexivity|].
    apply nearest_integer. cbn. lia.
Qed.

(* ===================================================================== *)
(** ** Claims about the staleness filter *)
(* ===================================================================== *)

(** C1. For every branch list, main-branch name, exclusion list, threshold
    and current time (a clock that shows [t] while the filter runs), the
    filter returns, and a branch is in the list it returns if and only if it
    is in the input list, its name differs from the main branch name, its
    protected flag is false, its age in days strictly exceeds the threshold
    and its name is not in the exclusion list.  In the example of the
    specification (main branch "main", threshold 60, branches main of age
    200, feat/x of age 70, release of age 90 and protected, feat/y of age
    10) the filter returns exactly feat/x. *)
Theorem staleBranches_eligible_iff :
  (forall (E : Env) (cfg : Config) (t : Z) (branches : list Branch) (s : State E),
      clock_reads E t ->
      exists l s',
        staleBranches E cfg branches s = (Return l, s') /\
        forall b,
          In b l <->
          In b branches /\
          name b <> mainBranch cfg /\
          protected b = false /\
          JS.gt (daysSinceLastUpdate E t b) (staleDays cfg) = true /\
          ~ In (name b) (excludedBranches cfg))
  /\
  (exists l s',
      staleBranches (Sim.env Scenario.day200) Scenario.example_config
        Scenario.example_branches (initial (Sim.env Scenario.day200) 0)
      = (Return l, s') /\
      map name l = ["feat/x"]).
Proof.
  split.
  - intros E cfg t branches s Hclock.
    destruct (staleBranches_fixed_clock E cfg t branches Hclock s) as [w Hrun].
    exists (filter (eligible_at E cfg t) branches), (set_world w s).
    split; [exact Hrun|].
    intros b. rewrite filter_In, eligible_at_spec. tauto.
  - exists [Scenario.feat_x]. eexists. split; [vm_compute|]; reflexivity.
Qed.

Lemma staleBranches_eligible_iff_witness :
  exists l s',
    staleBranches (Sim.env Scenario.day200) Scenario.example_config
      Scenario.example_branches (initial (Sim.env Scenario.day200) 0)
    = (Return l, s') /\
    forall b,
      In b l <->
      In b Scenario.example_branches /\
      name b <> mainBranch Scenario.example_config /\
      protected b = false /\
      JS.gt (daysSinceLastUpdate (Sim.env Scenario.day200) (200 * Sim.day) b)
            (staleDays Scenario.example_config) = true /\
      ~ In (name b) (excludedBranches Scenario.example_config).
Proof.
  apply (proj1 staleBranches_eligible_iff (Sim.env Scenario.day200)
           Scenario.example_config (200 * Sim.day) Scenario.example_branches).
  intros w. cbn. lia.
Defined.

(** C7. For every branch with a valid commit date and every threshold that
    is a whole number of days, which the specification requires of the
    threshold, [isBranchStale] returns true exactly when the elapsed
    milliseconds exceed that many days, and false exactly when they do not:
    the comparison is strict, and the age is compared as a fraction of a
    day, not truncated to whole days.  When the whole days that have
    elapsed equal the threshold, the branch is stale exactly when a
    fraction of a day has elapsed beyond them.  An age of exactly the
    threshold (60 days against 60) is not stale; an age of 60.01 days is,
    although it truncates to 60 whole days.  The program computes the
    difference and the quotient in binary64, and the same holds of what it
    computes: for a threshold and an elapsed time in milliseconds below
    2^53, the branch is stale exactly when the threshold is below the
    rounded quotient [f] that the program compares it with.  (Thresholds
    with a fraction of a day are left out: there the rounding of the
    division decides the boundary, see [isBranchStale_binary64_fraction].) *)
Theorem isBranchStale_strict_fractional :
  forall (E : Env) (cfg : Config) (b : Branch) (s : State E) (T : Q)
         (days t0 : Z),
    staleDays cfg = JS.Num T ->
    (T == inject_Z days)%Q ->
    Date_parse E (committed_date b) = Some t0 ->
    let t := fst (Date_now E (world s)) in
    (fst (isBranchStale E cfg b s) = Return true <-> days * msPerDay < t - t0) /\
    (fst (isBranchStale E cfg b s) = Return false <-> t - t0 <= days * msPerDay) /\
    ((t - t0) / msPerDay = days ->
     (fst (isBranchStale E cfg b s) = Return true <-> 0 < (t - t0) mod msPerDay)) /\
    (days = 60 -> t - t0 = 60 * msPerDay ->
     fst (isBranchStale E cfg b s) = Return false) /\
    (days = 60 -> t - t0 = 60 * msPerDay + 864000 ->
     fst (isBranchStale E cfg b s) = Return true /\ (t - t0) / msPerDay = 60) /\
    (forall d f : Q,
        Z.abs days < 2 ^ 53 ->
        Z.abs (t - t0) < 2 ^ 53 ->
        Rounded.nearest (inject_Z t - inject_Z t0) d ->
        Rounded.nearest (d / inject_Z msPerDay) f ->
        (fst (isBranchStale E cfg b s) = Return true <-> (inject_Z days < f)%Q)).
Proof.
  intros E cfg b s T days t0 HT Hdays Hdate t.
  assert (Hrun : fst (isBranchStale E cfg b s) =
                 Return (JS.gt (JS.Num ((inject_Z t - inject_Z t0) / inject_Z msPerDay))
                               (JS.Num T))).
  { rewrite isBranchStale_run. cbn [fst]. rewrite HT.
    now rewrite (daysSinceLastUpdate_valid E _ t0 b Hdate). }
  assert (Htrue : fst (isBranchStale E cfg b s) = Return true <->
                  days * msPerDay < t - t0).
  { rewrite Hrun, <- age_exceeds_days, <- Hdays, <- age_as_fraction, <- gt_true_iff.
    split; [intros H; now inversion H | intros ->; reflexivity]. }
  assert (Hfalse : fst (isBranchStale E cfg b s) = Return false <->
                   t - t0 <= days * msPerDay).
  { rewrite Hrun.
    destruct (JS.gt (JS.Num ((inject_Z t - inject_Z t0) / inject_Z msPerDay))
                    (JS.Num T)) eqn:Hgt.
    - rewrite Hrun in Htrue.
      split; [discriminate|]. intros Hle.
      assert (days * msPerDay < t - t0) by now apply Htrue. lia.
    - split; [|reflexivity]. intros _.
      destruct (Z_lt_le_dec (days * msPerDay) (t - t0)) as [Hlt | Hle]; [|exact Hle].
      apply Htrue in Hlt. rewrite Hrun in Hlt. discriminate. }
  split; [exact Htrue|]. split; [exact Hfalse|].
  split; [|split; [|split]].
  - intros Hwhole. rewrite Htrue.
    pose proof (Z.div_mod (t - t0) msPerDay) as Hdm.
    rewrite Hwhole in Hdm. unfold msPerDay in *. lia.
  - intros -> Hel. apply Hfalse. lia.
  - intros -> Hel. split; [apply Htrue; lia|].
    rewrite Hel. reflexivity.
  - intros d f Hrange Hel Hd Hf.
    rewrite (isBranchStale_rounded E cfg b s T days t0 d f HT Hdays Hdate
               Hrange Hel Hd Hf).
    rewrite <- Hdays, <- gt_true_iff.
    split; [intros H; now inversion H | intros ->; reflexivity].
Qed.

Lemma isBranchStale_strict_fractional_witness :
  fst (isBranchStale (Sim.env Scenario.day60_01) Scenario.example_config
         Scenario.sixty_days_old (initial (Sim.env Scenario.day60_01) 0))
  = Return true.
Proof.
  apply (isBranchStale_strict_fractional (Sim.env Scenario.day60_01)
           Scenario.example_config Scenario.sixty_days_old
           (initial (Sim.env Scenario.day60_01) 0) 60 60 0).
  - reflexivity.
  - reflexivity.
  - reflexivity.
  - reflexivity.
  - reflexivity.
Defined.

(** C8, as stated, fails: the filter reads the clock at every branch it
    tests, so it is not a function of the branch list and the configuration
    alone.  Two runs of the filter on the same list and the same
    configuration, the second right after the first, with a clock that
    advances by one millisecond per reading: the branch is exactly 60 days
    old at the first run and is kept only by the second. *)
Lemma staleBranches_depends_on_clock :
  fst (staleBranches (Sim.env Scenario.ticking) Scenario.example_config
         [Scenario.sixty_days_old] (initial (Sim.env Scenario.ticking) 0))
  = Return []
  /\
  fst (staleBranches (Sim.env Scenario.ticking) Scenario.example_config
         [Scenario.sixty_days_old]
         (snd (staleBranches (Sim.env Scenario.ticking) Scenario.example_config
                 [Scenario.sixty_days_old] (initial (Sim.env Scenario.ticking) 0))))
  = Return [Scenario.sixty_days_old].
Proof.
  split; vm_compute; reflexivity.
Qed.

(** C8, amended.  Two runs of the filter on the same branch list and the
    same configuration return the same list whenever the clock shows the
    same readings in both runs (for instance when it does not advance); and
    a run of the filter has no effect on the result object, the counters or
    the trace: it only reads the clock. *)
Theorem staleBranches_deterministic_given_clock :
  forall (E : Env) (cfg : Config) (R : World E -> World E -> Prop)
         (branches : list Branch) (s1 s2 : State E),
    same_readings E R ->
    R (world s1) (world s2) ->
    exists l s1' s2',
      staleBranches E cfg branches s1 = (Return l, s1') /\
      staleBranches E cfg branches s2 = (Return l, s2') /\
      result s1' = result s1 /\
      deletedCount s1' = deletedCount s1 /\
      failedCount s1' = failedCount s1 /\
      events s1' = events s1.
Proof.
  intros E cfg R branches s1 s2 HR Hw.
  destruct (staleBranches_run E cfg branches s1) as (l1 & w1 & H1 & _).
  destruct (staleBranches_run E cfg branches s2) as (l2 & w2 & H2 & _).
  pose proof (staleBranches_same_readings E cfg R branches HR s1 s2 Hw) as Hsame.
  rewrite H1, H2 in Hsame. cbn [fst] in Hsame. injection Hsame as Hl. subst l2.
  exists l1, (set_world w1 s1), (set_world w2 s2).
  repeat split; assumption.
Qed.

Lemma staleBranches_deterministic_given_clock_witness :
  exists l s1' s2',
    staleBranches (Sim.env Scenario.day200) Scenario.example_config
      Scenario.example_branches (initial (Sim.env Scenario.day200) 0)
    = (Return l, s1') /\
    staleBranches (Sim.env Scenario.day200) Scenario.example_config
      Scenario.example_branches (initial (Sim.env Scenario.day200) 7)
    = (Return l, s2') /\
    result s1' = result (initial (Sim.env Scenario.day200) 0) /\
    deletedCount s1' = deletedCount (initial (Sim.env Scenario.day200) 0) /\
    failedCount s1' = failedCount (initial (Sim.env Scenario.day200) 0) /\
    events s1' = events (initial (Sim.env Scenario.day200) 0).
Proof.
  apply (staleBranches_deterministic_given_clock (Sim.env Scenario.day200)
           Scenario.example_config (fun _ _ => True)).
  - intros w1 w2 _. split; [cbn; lia | exact I].
  - exact I.
Defined.

(** C10. For every branch whose commit date does not parse, the age is NaN
    at every reading of the clock, [isBranchStale] returns false, and the
    filter, which always returns, never keeps the branch. *)
Theorem invalid_date_never_stale :
  forall (E : Env) (cfg : Config) (b : Branch),
    Date_parse E (committed_date b) = None ->
    (forall t, daysSinceLastUpdate E t b = JS.NaN) /\
    (forall s : State E, fst (isBranchStale E cfg b s) = Return false) /\
    (forall (branches : list Branch) (s : State E),
        exists l s',
          staleBranches E cfg branches s = (Return l, s') /\ ~ In b l).
Proof.
  intros E cfg b Hdate.
  assert (Hnan : forall t, daysSinceLastUpdate E t b = JS.NaN).
  { intros t. now apply daysSinceLastUpdate_invalid. }
  split; [exact Hnan|]. split.
  - intros s. rewrite isBranchStale_run. cbn [fst]. now rewrite Hnan.
  - intros branches s.
    destruct (staleBranches_run E cfg branches s) as (l & w & Hrun & Hin).
    exists l, (set_world w s). split; [exact Hrun|].
    intros Hb. destruct (Hin b Hb) as [_ [t Ht]].
    apply eligible_at_spec in Ht. destruct Ht as (_ & _ & Hgt & _).
    rewrite Hnan in Hgt. discriminate.
Qed.

Lemma invalid_date_never_stale_witness :
  fst (isBranchStale (Sim.env Scenario.day200) Scenario.example_config
         Scenario.undated (initial (Sim.env Scenario.day200) 0))
  = Return false.
Proof.
  apply (invalid_date_never_stale (Sim.env Scenario.day200)
           Scenario.example_config Scenario.undated).
  reflexivity.
Defined.

(* ===================================================================== *)
(** ** Claims about the branch lister *)
(* ===================================================================== *)

(** C4. The lister requests the pages 1, 2, ... with page size 100.  Against
    every host that answers these requests first with full pages (pages of
    100 items; the guard of the loop is [data.length < perPage], so a page
    that a host would send with more items counts as full too) and then with
    a page of fewer than 100 items, the lister, given fuel for these pages,
    returns the items of all of them in order, and its requests are exactly
    those for the pages 1 to the short page, none for a later page.  In
    particular, when the pages 1 and 2 have exactly 100 items and the page 3
    has 37, it returns 237 branches after the requests for the pages 1, 2
    and 3. *)
Theorem getBranches_pagination :
  (forall (E : Env) (cfg : Config) (w : World E) (fulls : list (list Branch))
          (last : list Branch) (w' : World E) (fuel : nat) (s : State E),
      serves E w 1 fulls last w' ->
      world s = w ->
      (List.length fulls < fuel)%nat ->
      exists s',
        getBranches E cfg fuel s = (Return (List.concat fulls ++ last), s') /\
        world s' = w' /\
        get_requests (events s') =
        get_requests (events s) ++
        map (fun i => (100, 1 + Z.of_nat i)) (seq 0 (S (List.length fulls))))
  /\
  (forall (E : Env) (cfg : Config) (w : World E) (p1 p2 p3 : list Branch)
          (w' : World E) (fuel : nat) (s : State E),
      serves E w 1 [p1; p2] p3 w' ->
      List.length p1 = 100%nat ->
      List.length p2 = 100%nat ->
      List.length p3 = 37%nat ->
      world s = w ->
      (3 <= fuel)%nat ->
      exists bs s',
        getBranches E cfg fuel s = (Return bs, s') /\
        List.length bs = 237%nat /\
        get_requests (events s') =
        get_requests (events s) ++ [(100, 1); (100, 2); (100, 3)]).
Proof.
  split.
  - intros E cfg w fulls last w' fuel s.
    apply getBranches_serves_requests.
  - intros E cfg w p1 p2 p3 w' fuel s Hserves H1 H2 H3 Hw Hfuel.
    destruct (getBranches_serves_requests E cfg w [p1; p2] p3 w' fuel s Hserves Hw)
      as (s' & Hrun & _ & Hreq).
    { cbn. lia. }
    exists (List.concat [p1; p2] ++ p3), s'.
    split; [exact Hrun|]. split; [|exact Hreq].
    cbn [List.concat]. rewrite !length_app, H1, H2, H3. reflexivity.
Qed.

Lemma getBranches_pagination_witness :
  exists s' : State (Sim.env Scenario.three_pages),
    getBranches (Sim.env Scenario.three_pages) Scenario.live_config 5%nat
      (initial (Sim.env Scenario.three_pages) 0)
    = (Return (List.concat [Scenario.page1; Scenario.page2] ++ Scenario.page3), s') /\
    world s' = 0 /\
    get_requests (events s') =
    get_requests (events (initial (Sim.env Scenario.three_pages) 0)) ++
    map (fun i => (100, 1 + Z.of_nat i)) (seq 0 3).
Proof.
  apply (proj1 getBranches_pagination (Sim.env Scenario.three_pages)
           Scenario.live_config 0 [Scenario.page1; Scenario.page2] Scenario.page3 0 5%nat).
  - eapply serves_full; [reflexivity | vm_compute; discriminate |].
    eapply serves_full; [reflexivity | vm_compute; discriminate |].
    apply serves_short; [reflexivity | vm_compute; reflexivity].
  - reflexivity.
  - cbn. lia.
Defined.

(** C5. In every run in which the request for some page of the listing
    fails (after any number of full pages), [getBranches] throws instead of
    returning a list, the run exits with code 2 without a single delete
    request, and its result still holds the initial zero of every count,
    with [success] false. *)
Theorem fetch_failure_aborts_run :
  forall (E : Env) (cfg : Config) (w : World E) (n : nat) (e : ApiError)
         (w' : World E) (fuel : nat),
    refuses E w 1 n e w' ->
    (n < fuel)%nat ->
    fst (fetch E cfg fuel w) = Throw (JsError "Failed to fetch branches from GitLab.") /\
    fst (run E cfg fuel w) = Exit 2 /\
    delete_requests (events (snd (run E cfg fuel w))) = [] /\
    result (snd (run E cfg fuel w)) =
    {| branchesScanned := 0; branchesEligible := 0; branchesDeleted := 0;
       branchesFailed := 0; failedBranches := []; success := false |}.
Proof.
  intros E cfg w n e w' fuel Hrefuses Hfuel.
  pose proof (getBranches_refuses E cfg w n e w' fuel (fetch_state E cfg w)
                Hrefuses (world_fetch_state E cfg w) Hfuel) as Hthrow.
  fold (fetch E cfg fuel w) in Hthrow.
  destruct (fetch E cfg fuel w) as [o s1] eqn:Hfetch. cbn [fst] in Hthrow. subst o.
  destruct (run_fetch_thrown E cfg fuel w _ s1 Hfetch) as (Hout & Hres & _ & _ & _ & Hdel).
  repeat split; assumption.
Qed.

Lemma fetch_failure_aborts_run_witness :
  fst (fetch (Sim.env Scenario.second_page_forbidden) Scenario.live_config 5%nat 0)
  = Throw (JsError "Failed to fetch branches from GitLab.") /\
  fst (run (Sim.env Scenario.second_page_forbidden) Scenario.live_config 5%nat 0) = Exit 2 /\
  delete_requests
    (events (snd (run (Sim.env Scenario.second_page_forbidden) Scenario.live_config 5%nat 0)))
  = [] /\
  result (snd (run (Sim.env Scenario.second_page_forbidden) Scenario.live_config 5%nat 0)) =
  {| branchesScanned := 0; branchesEligible := 0; branchesDeleted := 0;
     branchesFailed := 0; failedBranches := []; success := false |}.
Proof.
  apply (fetch_failure_aborts_run (Sim.env Scenario.second_page_forbidden)
           Scenario.live_config 0 1%nat Sim.forbidden 0 5%nat).
  - eapply refuses_later; [reflexivity | vm_compute; discriminate |].
    apply refuses_now. reflexivity.
  - lia.
Defined.

(* ===================================================================== *)
(** ** Claims about the deletion loop and the result *)
(* ===================================================================== *)

(** C3. In every run with [dryRun = true], however far it got and whatever
    the host answered, the trace holds no delete request and the deleted
    count of the result is 0. *)
Theorem dry_run_issues_no_delete :
  forall (E : Env) (cfg : Config) (fuel : nat) (w : World E),
    dryRun cfg = true ->
    delete_requests (events (final E cfg fuel w)) = [] /\
    branchesDeleted (result (final E cfg fuel w)) = 0.
Proof.
  intros E cfg fuel w Hdry. unfold final.
  destruct (fetch E cfg fuel w) as [[bs | err | code | ] s1] eqn:Hfetch.
  - destruct (run_fetch_returned_dry E cfg fuel w bs s1 Hdry Hfetch)
      as (stale & s2 & s3 & _ & _ & _ & Hres & _ & _ & _ & Hdel).
    rewrite Hres, Hdel. split; reflexivity.
  - destruct (run_fetch_thrown E cfg fuel w err s1 Hfetch)
      as (_ & Hres & _ & _ & _ & Hdel).
    rewrite Hres, Hdel. split; reflexivity.
  - destruct (fetch_frame E cfg fuel w) as (_ & _ & _ & _ & Hex).
    rewrite Hfetch in Hex. now destruct (Hex code).
  - destruct (fetch_frame E cfg fuel w) as (Hres & _ & _ & Hdel & _).
    rewrite Hfetch in Hres, Hdel. cbn [snd] in Hres, Hdel.
    rewrite (run_fetch_pending E cfg fuel w s1 Hfetch). cbn [snd].
    rewrite Hres, Hdel. split; reflexivity.
Qed.

Lemma dry_run_issues_no_delete_witness :
  delete_requests
    (events (final (Sim.env Scenario.third_fails) Scenario.example_config 5%nat 0)) = [] /\
  branchesDeleted
    (result (final (Sim.env Scenario.third_fails) Scenario.example_config 5%nat 0)) = 0.
Proof.
  apply (dry_run_issues_no_delete (Sim.env Scenario.third_fails)
           Scenario.example_config 5%nat 0).
  reflexivity.
Defined.

(** C6. In every run that finishes, the [success] field of the result is
    true if and only if [getBranches] returned and the failed count of the
    result is zero. *)
Theorem success_iff_fetched_and_none_failed :
  forall (E : Env) (cfg : Config) (fuel : nat) (w : World E),
    finished (outcome E cfg fuel w) = true ->
    (success (result (final E cfg fuel w)) = true <->
     returned (fst (fetch E cfg fuel w)) = true /\
     branchesFailed (result (final E cfg fuel w)) = 0).
Proof.
  intros E cfg fuel w Hfin. unfold final, outcome in *.
  destruct (fetch E cfg fuel w) as [[bs | err | code | ] s1] eqn:Hfetch; cbn [fst returned].
  - destruct (dryRun cfg) eqn:Hdry.
    + destruct (run_fetch_returned_dry E cfg fuel w bs s1 Hdry Hfetch)
        as (stale & s2 & s3 & _ & _ & _ & Hres & _).
      rewrite Hres. cbn. tauto.
    + destruct (run_fetch_returned_live E cfg fuel w bs s1 Hdry Hfetch)
        as (stale & s2 & s3 & _ & _ & _ & _ & Hres & _).
      rewrite Hres at 1 2.
      rewrite record_deletions_success, record_deletions_failed. cbn.
      rewrite <- rejected_nil_iff, <- length_Z_nil_iff. tauto.
  - destruct (run_fetch_thrown E cfg fuel w err s1 Hfetch) as (_ & Hres & _).
    rewrite Hres. cbn. split; [discriminate | intros [H _]; discriminate].
  - destruct (fetch_frame E cfg fuel w) as (_ & _ & _ & _ & Hex).
    rewrite Hfetch in Hex. now destruct (Hex code).
  - rewrite (run_fetch_pending E cfg fuel w s1 Hfetch) in Hfin. discriminate.
Qed.

Lemma success_iff_fetched_and_none_failed_witness :
  success (result (final (Sim.env Scenario.third_fails) Scenario.live_config 5%nat 0)) = true <->
  returned (fst (fetch (Sim.env Scenario.third_fails) Scenario.live_config 5%nat 0)) = true /\
  branchesFailed (result (final (Sim.env Scenario.third_fails) Scenario.live_config 5%nat 0)) = 0.
Proof.
  apply (success_iff_fetched_and_none_failed (Sim.env Scenario.third_fails)
           Scenario.live_config 5%nat 0).
  vm_compute. reflexivity.
Defined.

(** C9. In every run with [dryRun = false] whose fetch returned, the
    deleted and the failed count add up to the eligible count, the length of
    [failedBranches] is the failed count, and [failedBranches] lists the
    names of the rejected delete requests in the order in which the requests
    were issued; there is one delete request per eligible branch, and the
    processing of a branch always returns having incremented exactly one of
    the two counts. *)
Theorem deleted_plus_failed_is_eligible :
  forall (E : Env) (cfg : Config) (fuel : nat) (w : World E),
    dryRun cfg = false ->
    returned (fst (fetch E cfg fuel w)) = true ->
    branchesDeleted (result (final E cfg fuel w)) +
    branchesFailed (result (final E cfg fuel w)) =
    branchesEligible (result (final E cfg fuel w)) /\
    length_Z (failedBranches (result (final E cfg fuel w))) =
    branchesFailed (result (final E cfg fuel w)) /\
    failedBranches (result (final E cfg fuel w)) =
    map fst (rejected (delete_requests (events (final E cfg fuel w)))) /\
    length_Z (delete_requests (events (final E cfg fuel w))) =
    branchesEligible (result (final E cfg fuel w)) /\
    (forall (branchName : string) (s : State E),
        exists s',
          deleteBranch E cfg branchName s = (Return tt, s') /\
          (branchesDeleted (result s') = branchesDeleted (result s) + 1 /\
           branchesFailed (result s') = branchesFailed (result s)
           \/
           branchesDeleted (result s') = branchesDeleted (result s) /\
           branchesFailed (result s') = branchesFailed (result s) + 1)).
Proof.
  intros E cfg fuel w Hdry Hret. unfold final.
  destruct (fetch E cfg fuel w) as [[bs | err | code | ] s1] eqn:Hfetch;
    try discriminate.
  destruct (run_fetch_returned_live E cfg fuel w bs s1 Hdry Hfetch)
    as (stale & s2 & s3 & _ & _ & Hnames & _ & Hres & _).
  set (reqs := delete_requests (events (snd (run E cfg fuel w)))) in *.
  assert (Hlen : length_Z reqs = length_Z stale).
  { unfold length_Z. f_equal.
    rewrite <- (length_map fst reqs), Hnames. apply length_map. }
  rewrite Hres.
  rewrite record_deletions_deleted, record_deletions_failed,
    record_deletions_names, record_deletions_eligible.
  cbn [counted initial result branchesDeleted branchesFailed failedBranches
       branchesEligible app].
  pose proof (accepted_rejected reqs) as Hsum.
  repeat split.
  - lia.
  - unfold length_Z. now rewrite length_map.
  - exact Hlen.
  - intros branchName s.
    destruct (api_delete E branchName (world s)) as [[e | u] w'] eqn:Hdel.
    + destruct (deleteBranch_rejected E cfg branchName s e w' Hdry Hdel)
        as (s' & Hrun & Hr & _).
      exists s'. split; [exact Hrun|]. right. rewrite Hr. split; reflexivity.
    + destruct (deleteBranch_accepted E cfg branchName s u w' Hdry Hdel)
        as (s' & Hrun & Hr & _).
      exists s'. split; [exact Hrun|]. left. rewrite Hr. split; reflexivity.
Qed.

Lemma deleted_plus_failed_is_eligible_witness :
  branchesDeleted (result (final (Sim.env Scenario.third_fails) Scenario.live_config 5%nat 0)) +
  branchesFailed (result (final (Sim.env Scenario.third_fails) Scenario.live_config 5%nat 0)) =
  branchesEligible (result (final (Sim.env Scenario.third_fails) Scenario.live_config 5%nat 0)).
Proof.
  apply (deleted_plus_failed_is_eligible (Sim.env Scenario.third_fails)
           Scenario.live_config 5%nat 0).
  - reflexivity.
  - vm_compute. reflexivity.
Defined.

(** C2. In every run with [dryRun = false] whose fetch returned: a delete
    request that the host rejects makes [deleteBranch] append the name to
    [failedBranches], increment the failed count, set [success] to false and
    return normally; the loop issues one delete request for every eligible
    branch, in order, whatever the earlier requests answered; and at the end
    every rejected name is in [failedBranches], the failed count is the
    number of rejected requests and [success] is false as soon as there is
    one.  With five eligible branches of which the host rejects the third,
    the result is deleted = 4, failed = 1, failedBranches = [branch#3],
    success = false, and the branches 4 and 5 were requested after the
    failure. *)
Theorem deletion_failure_recorded_and_skipped :
  (forall (E : Env) (cfg : Config) (branchName : string) (s : State E)
          (e : ApiError) (w' : World E),
      dryRun cfg = false ->
      api_delete E branchName (world s) = (inl e, w') ->
      exists s',
        deleteBranch E cfg branchName s = (Return tt, s') /\
        failedBranches (result s') = failedBranches (result s) ++ [branchName] /\
        branchesFailed (result s') = branchesFailed (result s) + 1 /\
        success (result s') = false)
  /\
  (forall (E : Env) (cfg : Config) (fuel : nat) (w : World E)
          (bs : list Branch) (s1 : State E),
      dryRun cfg = false ->
      fetch E cfg fuel w = (Return bs, s1) ->
      exists stale s2 s3,
        world s2 = world s1 /\
        staleBranches E cfg bs s2 = (Return stale, s3) /\
        map fst (delete_requests (events (final E cfg fuel w))) = map name stale /\
        failedBranches (result (final E cfg fuel w)) =
          map fst (rejected (delete_requests (events (final E cfg fuel w)))) /\
        branchesFailed (result (final E cfg fuel w)) =
          length_Z (rejected (delete_requests (events (final E cfg fuel w)))) /\
        forall n,
          In (n, false) (delete_requests (events (final E cfg fuel w))) ->
          In n (failedBranches (result (final E cfg fuel w))) /\
          0 < branchesFailed (result (final E cfg fuel w)) /\
          success (result (final E cfg fuel w)) = false)
  /\
  (result (final (Sim.env Scenario.third_fails) Scenario.live_config 5%nat 0) =
     {| branchesScanned := 5; branchesEligible := 5; branchesDeleted := 4;
        branchesFailed := 1; failedBranches := ["branch#3"]; success := false |}
   /\
   delete_requests (events (final (Sim.env Scenario.third_fails) Scenario.live_config 5%nat 0)) =
     [("branch#1", true); ("branch#2", true); ("branch#3", false);
      ("branch#4", true); ("branch#5", true)]).
Proof.
  split; [|split].
  - intros E cfg branchName s e w' Hdry Hdel.
    destruct (deleteBranch_rejected E cfg branchName s e w' Hdry Hdel)
      as (s' & Hrun & Hr & _).
    exists s'. split; [exact Hrun|]. rewrite Hr. repeat split; reflexivity.
  - intros E cfg fuel w bs s1 Hdry Hfetch. unfold final.
    destruct (run_fetch_returned_live E cfg fuel w bs s1 Hdry Hfetch)
      as (stale & s2 & s3 & Hw & Hstale & Hnames & _ & Hres & _).
    exists stale, s2, s3.
    set (reqs := delete_requests (events (snd (run E cfg fuel w)))) in *.
    split; [exact Hw|]. split; [exact Hstale|]. split; [exact Hnames|].
    assert (Hfb : failedBranches (result (snd (run E cfg fuel w))) = map fst (rejected reqs)).
    { rewrite Hres, record_deletions_names. reflexivity. }
    assert (Hbf : branchesFailed (result (snd (run E cfg fuel w))) = length_Z (rejected reqs)).
    { rewrite Hres, record_deletions_failed. reflexivity. }
    split; [exact Hfb|]. split; [exact Hbf|].
    intros n Hin. apply In_rejected in Hin.
    split; [|split].
    + rewrite Hfb. apply (in_map fst) in Hin. exact Hin.
    + rewrite Hbf. unfold length_Z.
      destruct (rejected reqs); [destruct Hin | cbn; lia].
    + rewrite Hres, record_deletions_success. cbn [counted initial result success andb].
      destruct (forallb snd reqs) eqn:Hall; [|reflexivity].
      apply rejected_nil_iff in Hall. rewrite Hall in Hin. destruct Hin.
  - split; vm_compute; reflexivity.
Qed.

Lemma deletion_failure_recorded_and_skipped_witness :
  exists (stale : list Branch) (s2 s3 : State (Sim.env Scenario.third_fails)),
    world s2 =
      world (snd (fetch (Sim.env Scenario.third_fails) Scenario.live_config 5%nat 0)) /\
    staleBranches (Sim.env Scenario.third_fails) Scenario.live_config
      Scenario.five_branches s2 = (Return stale, s3) /\
    map fst (delete_requests
               (events (final (Sim.env Scenario.third_fails) Scenario.live_config 5%nat 0)))
    = map name stale /\
    failedBranches (result (final (Sim.env Scenario.third_fails) Scenario.live_config 5%nat 0)) =
      map fst (rejected (delete_requests
                 (events (final (Sim.env Scenario.third_fails) Scenario.live_config 5%nat 0)))) /\
    branchesFailed (result (final (Sim.env Scenario.third_fails) Scenario.live_config 5%nat 0)) =
      length_Z (rejected (delete_requests
                  (events (final (Sim.env Scenario.third_fails) Scenario.live_config 5%nat 0)))) /\
    forall n,
      In (n, false)
         (delete_requests
            (events (final (Sim.env Scenario.third_fails) Scenario.live_config 5%nat 0))) ->
      In n (failedBranches
              (result (final (Sim.env Scenario.third_fails) Scenario.live_config 5%nat 0))) /\
      0 < branchesFailed
            (result (final (Sim.env Scenario.third_fails) Scenario.live_config 5%nat 0)) /\
      success (result (final (Sim.env Scenario.third_fails) Scenario.live_config 5%nat 0)) = false.
Proof.
  apply (proj1 (proj2 deletion_failure_recorded_and_skipped)
           (Sim.env Scenario.third_fails) Scenario.live_config 5%nat 0
           Scenario.five_branches
           (snd (fetch (Sim.env Scenario.third_fails) Scenario.live_config 5%nat 0))).
  - reflexivity.
  - vm_compute. reflexivity.
Defined.

(* ===================================================================== *)
(** ** Further properties: the classification of errors *)
(* ===================================================================== *)

(** X1. [formatGitLabError] puts every error into one of its six classes;
    the class is "network" exactly when the error carries no response (an
    axios error without one, or any other exception); with a response the
    class is decided by the status alone (401, 403, 404, 429, anything
    else); and neither the message nor the suggested action is ever
    empty. *)
Theorem formatGitLabError_classes :
  forall err : Exn,
    In (type (formatGitLabError err)) error_types /\
    (type (formatGitLabError err) = "network" <-> exn_response err = None) /\
    (forall r,
        exn_response err = Some r ->
        (type (formatGitLabError err) = "auth" <-> status r = 401) /\
        (type (formatGitLabError err) = "permission" <-> status r = 403) /\
        (type (formatGitLabError err) = "not_found" <-> status r = 404) /\
        (type (formatGitLabError err) = "rate_limit" <-> status r = 429) /\
        (type (formatGitLabError err) = "unknown" <->
         status r <> 401 /\ status r <> 403 /\ status r <> 404 /\ status r <> 429)) /\
    message (formatGitLabError err) <> "" /\
    action (formatGitLabError err) <> "".
Proof.
  intros err. unfold formatGitLabError, error_types.
  destruct (exn_response err) as [r|].
  - destruct (Z.eqb_spec (status r) 401) as [H401 | H401];
      [|destruct (Z.eqb_spec (status r) 403) as [H403 | H403];
        [|destruct (Z.eqb_spec (status r) 404) as [H404 | H404];
          [|destruct (Z.eqb_spec (status r) 429) as [H429 | H429]]]];
      cbn [type message action];
      (split; [cbn; tauto|]);
      (split; [split; discriminate|]);
      (split;
       [intros r' Hr'; injection Hr' as <-;
        repeat split; intros; try discriminate; try lia; try tauto
       |]);
      try (split; discriminate).
    split; [discriminate|].
    destruct (data_message r) as [m|]; [|discriminate].
    destruct (String.eqb_spec m ""); [discriminate | assumption].
  - cbn [type message action].
    split; [cbn; tauto|]. split; [tauto|].
    split; [intros r Hr; discriminate|]. split; discriminate.
Qed.

(* ===================================================================== *)
(** ** Further properties: how a run ends and what it leaves *)
(* ===================================================================== *)

(** X2. [runCleaner] never lets an exception escape and never exits with a
    code other than 2: a run that returns normally leaves [success] true, a
    run that exits does so with code 2 and leaves [success] false, and a run
    is unfinished only while its listing is. *)
Theorem runCleaner_exit_status :
  forall (E : Env) (cfg : Config) (fuel : nat) (w : World E),
    match outcome E cfg fuel w with
    | Return _ => success (result (final E cfg fuel w)) = true
    | Exit code => code = 2 /\ success (result (final E cfg fuel w)) = false
    | Throw _ => False
    | Pending => fst (fetch E cfg fuel w) = Pending
    end.
Proof.
  intros E cfg fuel w. unfold outcome, final.
  pose proof (run_ends E cfg fuel w) as H.
  destruct (fst (run E cfg fuel w)) as [u | err | code | ]; exact H.
Qed.

(** X3. In the machine-readable mode a finished run prints exactly one
    line, the [result] object as the run leaves it: whether the listing
    failed, deletions failed or everything went well, and in a dry run
    too. *)
Theorem json_mode_prints_the_result_once :
  forall (E : Env) (cfg : Config) (fuel : nat) (w : World E),
    json cfg = true ->
    finished (outcome E cfg fuel w) = true ->
    console_lines (events (final E cfg fuel w)) =
    [LineJson (result (final E cfg fuel w))].
Proof.
  intros E cfg fuel w Hjson Hfin. unfold outcome, final in *.
  destruct (fetch E cfg fuel w) as [[bs | err | code | ] s1] eqn:Hfetch.
  - destruct (dryRun cfg) eqn:Hdry.
    + destruct (run_trace_dry E cfg fuel w bs s1 Hdry Hfetch)
        as (k & stale & s2 & s3 & w' & _ & _ & _ & Hrun).
      rewrite Hrun. cbn [snd went_on events result initial app].
      rewrite !console_lines_app, console_lines_pages, console_lines_previews,
        console_lines_map_Console.
      unfold fetching_events, found_events, closing_lines. rewrite Hjson.
      reflexivity.
    + destruct (run_trace_live E cfg fuel w bs s1 Hdry Hfetch)
        as (k & stale & s2 & s3 & answers & w' & _ & _ & _ & _ & Hrun).
      rewrite Hrun. cbn [snd went_on events result initial app].
      rewrite !console_lines_app, console_lines_pages,
        (console_lines_deletions_json cfg answers Hjson),
        console_lines_map_Console.
      unfold fetching_events, found_events, closing_lines. rewrite Hjson.
      reflexivity.
  - destruct (run_trace_thrown E cfg fuel w err s1 Hfetch)
      as (k & e & w' & _ & Hrun).
    rewrite Hrun. cbn [snd went_on events result initial].
    unfold fetching_events, fetch_error_lines, abort_lines. rewrite Hjson.
    cbn [map app].
    rewrite console_lines_app, console_lines_pages. reflexivity.
  - destruct (fetch_frame E cfg fuel w) as (_ & _ & _ & _ & Hex).
    rewrite Hfetch in Hex. now destruct (Hex code).
  - rewrite (run_fetch_pending E cfg fuel w s1 Hfetch) in Hfin. discriminate.
Qed.

Lemma json_mode_prints_the_result_once_witness :
  console_lines
    (events (final (Sim.env Scenario.third_fails) Scenario.live_config 5%nat 0)) =
  [LineJson (result (final (Sim.env Scenario.third_fails) Scenario.live_config 5%nat 0))].
Proof.
  apply (json_mode_prints_the_result_once (Sim.env Scenario.third_fails)
           Scenario.live_config 5%nat 0).
  - reflexivity.
  - vm_compute. reflexivity.
Defined.

(** X4. At every point at which a run can stop, finished or not: the two
    closure counters equal the deleted and the failed count of [result],
    [failedBranches] has as many names as the failed count, no count is
    negative, and deleted + failed <= eligible <= scanned. *)
Theorem counts_are_consistent :
  forall (E : Env) (cfg : Config) (fuel : nat) (w : World E),
    deletedCount (final E cfg fuel w) = branchesDeleted (result (final E cfg fuel w)) /\
    failedCount (final E cfg fuel w) = branchesFailed (result (final E cfg fuel w)) /\
    length_Z (failedBranches (result (final E cfg fuel w))) =
      branchesFailed (result (final E cfg fuel w)) /\
    0 <= branchesDeleted (result (final E cfg fuel w)) /\
    0 <= branchesFailed (result (final E cfg fuel w)) /\
    branchesDeleted (result (final E cfg fuel w)) +
      branchesFailed (result (final E cfg fuel w)) <=
      branchesEligible (result (final E cfg fuel w)) /\
    branchesEligible (result (final E cfg fuel w)) <=
      branchesScanned (result (final E cfg fuel w)).
Proof.
  intros E cfg fuel w. unfold final.
  destruct (fetch E cfg fuel w) as [[bs | err | code | ] s1] eqn:Hfetch.
  - destruct (dryRun cfg) eqn:Hdry.
    + destruct (run_trace_dry E cfg fuel w bs s1 Hdry Hfetch)
        as (k & stale & s2 & s3 & w' & _ & _ & Hstale & Hrun).
      rewrite Hrun. cbn.
      destruct (staleBranches_run_readings E cfg bs s2) as (l' & w2 & Hl' & Hsub & _).
      rewrite Hstale in Hl'. injection Hl' as Hl' _. subst l'.
      pose proof (subsequence_length _ _ Hsub).
      unfold length_Z in *. repeat split; lia.
    + destruct (run_trace_live E cfg fuel w bs s1 Hdry Hfetch)
        as (k & stale & s2 & s3 & answers & w' & _ & _ & Hstale & Hnames & Hrun).
      rewrite Hrun. cbn [snd went_on deletedCount failedCount result].
      rewrite record_deletions_deleted, record_deletions_failed,
        record_deletions_names, record_deletions_eligible, record_deletions_scanned.
      cbn [counted initial result branchesDeleted branchesFailed failedBranches
           branchesEligible branchesScanned app].
      destruct (staleBranches_run_readings E cfg bs s2) as (l' & w2 & Hl' & Hsub & _).
      rewrite Hstale in Hl'. injection Hl' as Hl' _. subst l'.
      pose proof (subsequence_length _ _ Hsub) as Hle.
      pose proof (accepted_rejected (map as_request answers)) as Hsum.
      assert (Hlen : length_Z (map as_request answers) = length_Z stale).
      { unfold length_Z. f_equal. rewrite length_map.
        rewrite <- (length_map fst answers), Hnames. apply length_map. }
      assert (Hnm : length_Z (map fst (rejected (map as_request answers))) =
                    length_Z (rejected (map as_request answers))).
      { unfold length_Z. now rewrite length_map. }
      unfold length_Z in *. repeat split; lia.
  - destruct (run_trace_thrown E cfg fuel w err s1 Hfetch) as (k & e & w' & _ & Hrun).
    rewrite Hrun. cbn. repeat split; lia.
  - destruct (fetch_frame E cfg fuel w) as (_ & _ & _ & _ & Hex).
    rewrite Hfetch in Hex. now destruct (Hex code).
  - destruct (run_trace_pending E cfg fuel w s1 Hfetch) as (w' & Hrun).
    rewrite Hrun. cbn. repeat split; lia.
Qed.

(** X5. The trace of every run, finished or not, falls into two parts:
    first the requests for the pages 1, 2, ..., n of the listing, each with
    page size 100, never more than the fuel allows and without a single
    delete request among them; then the delete requests, without a single
    page request among them. *)
Theorem requests_come_in_two_phases :
  forall (E : Env) (cfg : Config) (fuel : nat) (w : World E),
  exists (n : nat) (listing deleting : list Event),
    (n <= fuel)%nat /\
    events (final E cfg fuel w) = listing ++ deleting /\
    get_requests listing = map (fun i => (100, 1 + Z.of_nat i)) (seq 0 n) /\
    delete_requests listing = [] /\
    get_requests deleting = [].
Proof.
  intros E cfg fuel w. unfold final.
  destruct (fetch E cfg fuel w) as [[bs | err | code | ] s1] eqn:Hfetch.
  - destruct (dryRun cfg) eqn:Hdry.
    + destruct (run_trace_dry E cfg fuel w bs s1 Hdry Hfetch)
        as (k & stale & s2 & s3 & w' & Hk & _ & _ & Hrun).
      rewrite Hrun. cbn [snd went_on events initial app].
      eexists k, (fetching_events cfg ++ page_requests 1 k), _.
      split; [lia|]. split; [now rewrite <- app_assoc|].
      rewrite !get_requests_app, !delete_requests_app,
        get_requests_page_requests, delete_requests_pages,
        get_requests_previews, get_requests_consoles.
      unfold fetching_events, found_events. destruct (json cfg); cbn; auto.
    + destruct (run_trace_live E cfg fuel w bs s1 Hdry Hfetch)
        as (k & stale & s2 & s3 & answers & w' & Hk & _ & _ & _ & Hrun).
      rewrite Hrun. cbn [snd went_on events initial app].
      eexists k, (fetching_events cfg ++ page_requests 1 k), _.
      split; [lia|]. split; [now rewrite <- app_assoc|].
      rewrite !get_requests_app, !delete_requests_app,
        get_requests_page_requests, delete_requests_pages,
        get_requests_deletions, get_requests_consoles.
      unfold fetching_events, found_events. destruct (json cfg); cbn; auto.
  - destruct (run_trace_thrown E cfg fuel w err s1 Hfetch) as (k & e & w' & Hk & Hrun).
    rewrite Hrun. cbn [snd went_on events initial app].
    eexists (S k),
      (fetching_events cfg ++ page_requests 1 k ++ [ApiGet perPage (1 + Z.of_nat k) false]), _.
    split; [lia|]. split; [now rewrite <- !app_assoc|].
    rewrite !get_requests_app, !delete_requests_app,
      get_requests_page_requests, delete_requests_pages, !get_requests_consoles.
    rewrite seq_S, map_app.
    unfold fetching_events. destruct (json cfg); cbn; auto.
  - destruct (fetch_frame E cfg fuel w) as (_ & _ & _ & _ & Hex).
    rewrite Hfetch in Hex. now destruct (Hex code).
  - destruct (run_trace_pending E cfg fuel w s1 Hfetch) as (w' & Hrun).
    rewrite Hrun. cbn [snd went_on events initial app].
    exists fuel, (fetching_events cfg ++ page_requests 1 fuel), [].
    split; [lia|]. split; [now rewrite app_nil_r|].
    rewrite !get_requests_app, !delete_requests_app,
      get_requests_page_requests, delete_requests_pages.
    unfold fetching_events. destruct (json cfg); cbn; auto.
Qed.

(* ===================================================================== *)
(** ** Further properties: which branches are deleted *)
(* ===================================================================== *)

(** X6. Whatever the host and the clock do, every delete request of a run
    is for the name of a branch that the listing returned, that is not the
    main branch, not in the exclusion list, not protected, and that was
    older than the threshold at a reading of the clock; and the run is not
    a dry run. *)
Theorem only_stale_unprotected_branches_are_deleted :
  forall (E : Env) (cfg : Config) (fuel : nat) (w : World E)
         (branchName : string) (ok : bool),
    In (branchName, ok) (delete_requests (events (final E cfg fuel w))) ->
    dryRun cfg = false /\
    branchName <> mainBranch cfg /\
    ~ In branchName (excludedBranches cfg) /\
    exists (bs : list Branch) (s1 : State E) (b : Branch) (w0 : World E),
      fetch E cfg fuel w = (Return bs, s1) /\
      In b bs /\
      name b = branchName /\
      protected b = false /\
      JS.gt (daysSinceLastUpdate E (fst (Date_now E w0)) b) (staleDays cfg) = true.
Proof.
  intros E cfg fuel w branchName ok Hin. unfold final in Hin.
  destruct (delete_request_origin E cfg fuel w branchName ok Hin)
    as (Hdry & bs & s1 & stale & s2 & s3 & Hfetch & Hstale & Hn).
  destruct (staleBranches_run_readings E cfg bs s2) as (l' & w2 & Hl' & Hsub & Hel).
  rewrite Hstale in Hl'. injection Hl' as Hl' _. subst l'.
  apply in_map_iff in Hn. destruct Hn as (b & Hb & Hbin).
  destruct (Hel b Hbin) as (w0 & Hw0).
  apply eligible_at_spec in Hw0. destruct Hw0 as (Hmain & Hprot & Hgt & Hexc).
  rewrite Hb in Hmain, Hexc.
  split; [exact Hdry|]. split; [exact Hmain|]. split; [exact Hexc|].
  exists bs, s1, b, w0.
  split; [exact Hfetch|]. split; [exact (subsequence_In _ _ Hsub b Hbin)|].
  repeat split; assumption.
Qed.

Lemma only_stale_unprotected_branches_are_deleted_witness :
  dryRun Scenario.live_config = false /\
  "branch#3" <> mainBranch Scenario.live_config /\
  ~ In "branch#3" (excludedBranches Scenario.live_config) /\
  exists (bs : list Branch) (s1 : State (Sim.env Scenario.third_fails))
         (b : Branch) (w0 : World (Sim.env Scenario.third_fails)),
    fetch (Sim.env Scenario.third_fails) Scenario.live_config 5%nat 0 = (Return bs, s1) /\
    In b bs /\
    name b = "branch#3" /\
    protected b = false /\
    JS.gt (daysSinceLastUpdate (Sim.env Scenario.third_fails)
             (fst (Date_now (Sim.env Scenario.third_fails) w0)) b)
          (staleDays Scenario.live_config) = true.
Proof.
  apply (only_stale_unprotected_branches_are_deleted (Sim.env Scenario.third_fails)
           Scenario.live_config 5%nat 0 "branch#3" false).
  vm_compute. tauto.
Defined.

(** X7. If [Number(staleDays)] is NaN (a threshold that is not a number),
    no branch is eligible and no run issues a delete request. *)
Theorem NaN_threshold_deletes_nothing :
  forall (E : Env) (cfg : Config) (fuel : nat) (w : World E),
    staleDays cfg = JS.NaN ->
    delete_requests (events (final E cfg fuel w)) = [] /\
    branchesEligible (result (final E cfg fuel w)) = 0 /\
    forall (branches : list Branch) (s : State E),
      fst (staleBranches E cfg branches s) = Return [].
Proof.
  intros E cfg fuel w Hnan.
  assert (Hnone : forall (branches : list Branch) (s : State E),
             fst (staleBranches E cfg branches s) = Return []).
  { intros branches s.
    destruct (staleBranches_run_readings E cfg branches s) as (l' & w2 & Hl' & _ & Hel).
    rewrite Hl'. cbn [fst]. destruct l' as [|b l']; [reflexivity|].
    destruct (Hel b (or_introl eq_refl)) as (w0 & Hw0).
    apply eligible_at_spec in Hw0. destruct Hw0 as (_ & _ & Hgt & _).
    rewrite Hnan in Hgt. destruct (daysSinceLastUpdate E _ b); discriminate. }
  split; [|split; [|exact Hnone]].
  - destruct (delete_requests (events (final E cfg fuel w))) as [|[n ok] reqs] eqn:Hreqs;
      [reflexivity|].
    destruct (delete_request_origin E cfg fuel w n ok)
      as (_ & bs & s1 & stale & s2 & s3 & _ & Hstale & Hn).
    { unfold final in Hreqs. rewrite Hreqs. now left. }
    pose proof (Hnone bs s2) as H0. rewrite Hstale in H0.
    injection H0 as ->. destruct Hn.
  - unfold final.
    destruct (fetch E cfg fuel w) as [[bs | err | code | ] s1] eqn:Hfetch.
    + assert (Hel : forall stale s2 s3,
                 staleBranches E cfg bs s2 = (Return stale, s3) -> length_Z stale = 0).
      { intros stale s2 s3 Hs. pose proof (Hnone bs s2) as H0.
        rewrite Hs in H0. injection H0 as ->. reflexivity. }
      destruct (dryRun cfg) eqn:Hdry.
      * destruct (run_fetch_returned_dry E cfg fuel w bs s1 Hdry Hfetch)
          as (stale & s2 & s3 & _ & Hstale & _ & Hres & _).
        rewrite Hres. cbn. exact (Hel _ _ _ Hstale).
      * destruct (run_fetch_returned_live E cfg fuel w bs s1 Hdry Hfetch)
          as (stale & s2 & s3 & _ & Hstale & _ & _ & Hres & _).
        rewrite Hres, record_deletions_eligible. cbn. exact (Hel _ _ _ Hstale).
    + destruct (run_fetch_thrown E cfg fuel w err s1 Hfetch) as (_ & Hres & _).
      now rewrite Hres.
    + destruct (fetch_frame E cfg fuel w) as (_ & _ & _ & _ & Hex).
      rewrite Hfetch in Hex. now destruct (Hex code).
    + destruct (fetch_frame E cfg fuel w) as (Hres & _).
      rewrite Hfetch in Hres. cbn [snd] in Hres.
      rewrite (run_fetch_pending E cfg fuel w s1 Hfetch). cbn [snd].
      now rewrite Hres.
Qed.

Lemma NaN_threshold_deletes_nothing_witness :
  delete_requests
    (events (final (Sim.env Scenario.third_fails) Scenario2.no_threshold 5%nat 0)) = [].
Proof.
  apply (NaN_threshold_deletes_nothing (Sim.env Scenario.third_fails)
           Scenario2.no_threshold 5%nat 0).
  reflexivity.
Defined.

(** X8. A dry run announces exactly the deletions that the real run
    requests: in the human-readable mode, against the same host and clock
    and with the same fuel, the names of the "would delete" lines of the run
    with [dryRun = true] are, in order, the names of the delete requests of
    the run with [dryRun = false]. *)
Theorem dry_run_announces_the_deletions :
  forall (E : Env) (cfg : Config) (fuel : nat) (w : World E),
    json cfg = false ->
    previewed (events (final E (with_dryRun true cfg) fuel w)) =
    map fst (delete_requests (events (final E (with_dryRun false cfg) fuel w))).
Proof.
  intros E cfg fuel w Hjson. unfold final.
  assert (Hja : json (with_dryRun true cfg) = false) by exact Hjson.
  assert (Hjb : json (with_dryRun false cfg) = false) by exact Hjson.
  pose proof (fetch_with_dryRun E cfg true fuel w) as Hfa.
  pose proof (fetch_with_dryRun E cfg false fuel w) as Hfb.
  destruct (fetch E cfg fuel w) as [[bs | err | code | ] s1] eqn:Hfetch.
  - destruct (run_trace_dry E (with_dryRun true cfg) fuel w bs s1 eq_refl Hfa)
      as (k & stale & s2 & s3 & w' & _ & Hw2 & Hstale & Hrun).
    destruct (run_trace_live E (with_dryRun false cfg) fuel w bs s1 eq_refl Hfb)
      as (k' & stale' & s2' & s3' & answers & w'' & _ & Hw2' & Hstale' & Hnames & Hrun').
    rewrite Hrun, Hrun'. cbn [snd went_on events initial app].
    rewrite !previewed_app, previewed_pages, previewed_previews, previewed_closing.
    rewrite !delete_requests_app, delete_requests_pages, delete_requests_deletions,
      delete_requests_consoles.
    unfold fetching_events, found_events. rewrite Hja, Hjb. cbn.
    rewrite !app_nil_r, map_fst_as_request, Hnames.
    f_equal.
    rewrite staleBranches_with_dryRun in Hstale, Hstale'.
    assert (Hsame : fst (staleBranches E cfg bs s2) = fst (staleBranches E cfg bs s2')).
    { apply (staleBranches_same_readings E cfg eq).
      - intros w1 w2 <-. split; reflexivity.
      - congruence. }
    rewrite Hstale, Hstale' in Hsame. now injection Hsame.
  - destruct (run_trace_thrown E (with_dryRun true cfg) fuel w err s1 Hfa)
      as (k & e & w' & _ & Hrun).
    destruct (run_trace_thrown E (with_dryRun false cfg) fuel w err s1 Hfb)
      as (k' & e' & w'' & _ & Hrun').
    rewrite Hrun, Hrun'. cbn [snd went_on events initial].
    unfold fetching_events, fetch_error_lines, abort_lines. rewrite Hja, Hjb.
    cbn [map].
    rewrite !previewed_app, previewed_pages, !delete_requests_app, delete_requests_pages.
    reflexivity.
  - destruct (fetch_frame E cfg fuel w) as (_ & _ & _ & _ & Hex).
    rewrite Hfetch in Hex. now destruct (Hex code).
  - destruct (run_trace_pending E (with_dryRun true cfg) fuel w s1 Hfa) as (w' & Hrun).
    destruct (run_trace_pending E (with_dryRun false cfg) fuel w s1 Hfb) as (w'' & Hrun').
    rewrite Hrun, Hrun'. cbn [snd went_on events initial app].
    rewrite !previewed_app, previewed_pages, !delete_requests_app, delete_requests_pages.
    unfold fetching_events. rewrite Hja, Hjb. reflexivity.
Qed.

Lemma dry_run_announces_the_deletions_witness :
  previewed
    (events (final (Sim.env Scenario.third_fails)
               (with_dryRun true Scenario2.live_verbose) 5%nat 0)) =
  map fst
    (delete_requests
       (events (final (Sim.env Scenario.third_fails)
                  (with_dryRun false Scenario2.live_verbose) 5%nat 0))).
Proof.
  apply (dry_run_announces_the_deletions (Sim.env Scenario.third_fails)
           Scenario2.live_verbose 5%nat 0).
  reflexivity.
Defined.

(* ===================================================================== *)
(** ** Further properties: what the run prints *)
(* ===================================================================== *)

(** X9. In the human-readable mode, a run whose listing succeeded ends its
    output with the summary, and the summary shows the counts of [result]:
    the eligible count, the deleted count (under the word "previewed" in a
    dry run, where it is 0), the failed count on a line that is printed
    only when it is positive, and the exclusion list. *)
Theorem summary_shows_the_result :
  forall (E : Env) (cfg : Config) (fuel : nat) (w : World E),
    json cfg = false ->
    returned (fst (fetch E cfg fuel w)) = true ->
    exists before : list Line,
      console_lines (events (final E cfg fuel w)) =
      before ++
      summary_lines cfg
        (branchesEligible (result (final E cfg fuel w)))
        (branchesDeleted (result (final E cfg fuel w)))
        (branchesFailed (result (final E cfg fuel w))).
Proof.
  intros E cfg fuel w Hjson Hret. unfold final.
  destruct (fetch E cfg fuel w) as [[bs | err | code | ] s1] eqn:Hfetch;
    try discriminate.
  destruct (dryRun cfg) eqn:Hdry.
  - destruct (run_trace_dry E cfg fuel w bs s1 Hdry Hfetch)
      as (k & stale & s2 & s3 & w' & _ & _ & _ & Hrun).
    rewrite Hrun. cbn [snd went_on events result initial].
    rewrite !console_lines_app, console_lines_map_Console.
    unfold closing_lines. rewrite Hjson, app_nil_r.
    eexists. rewrite !app_assoc. cbn. reflexivity.
  - destruct (run_trace_live E cfg fuel w bs s1 Hdry Hfetch)
      as (k & stale & s2 & s3 & answers & w' & _ & _ & _ & _ & Hrun).
    rewrite Hrun. cbn [snd went_on events result initial].
    rewrite !console_lines_app, console_lines_map_Console.
    unfold closing_lines. rewrite Hjson, app_nil_r.
    rewrite record_deletions_deleted, record_deletions_failed,
      record_deletions_eligible.
    cbn [counted branchesDeleted branchesFailed branchesEligible].
    eexists. rewrite !app_assoc, !Z.add_0_l. reflexivity.
Qed.

Lemma summary_shows_the_result_witness :
  exists before : list Line,
    console_lines
      (events (final (Sim.env Scenario.third_fails) Scenario2.live_verbose 5%nat 0)) =
    before ++
    summary_lines Scenario2.live_verbose
      (branchesEligible
         (result (final (Sim.env Scenario.third_fails) Scenario2.live_verbose 5%nat 0)))
      (branchesDeleted
         (result (final (Sim.env Scenario.third_fails) Scenario2.live_verbose 5%nat 0)))
      (branchesFailed
         (result (final (Sim.env Scenario.third_fails) Scenario2.live_verbose 5%nat 0))).
Proof.
  apply (summary_shows_the_result (Sim.env Scenario.third_fails)
           Scenario2.live_verbose 5%nat 0).
  - reflexivity.
  - vm_compute. reflexivity.
Defined.

(** X10. In the human-readable mode, a run in which the request for a page
    fails prints, after the opening line: the message and the suggested
    action that [formatGitLabError] gives for the error of the host, the
    abort line, and the message of the error that [getBranches] throws; it
    has requested the pages up to the failing one and no other. *)
Theorem fetch_failure_is_explained :
  forall (E : Env) (cfg : Config) (w : World E) (n : nat) (e : ApiError)
         (w' : World E) (fuel : nat),
    refuses E w 1 n e w' ->
    (n < fuel)%nat ->
    json cfg = false ->
    console_lines (events (final E cfg fuel w)) =
    [LineFetching;
     LineFetchError (message (formatGitLabError (AxiosError e)));
     LineFetchAction (action (formatGitLabError (AxiosError e)));
     LineAborted;
     LineMessage "Failed to fetch branches from GitLab."] /\
    get_requests (events (final E cfg fuel w)) =
    map (fun i => (100, 1 + Z.of_nat i)) (seq 0 (S n)).
Proof.
  intros E cfg w n e w' fuel Hrefuses Hfuel Hjson.
  pose proof (getBranches_loop_refuses E w 1 n e w' Hrefuses fuel []
                (fetch_state E cfg w) (world_fetch_state E cfg w) Hfuel) as Hloop.
  assert (Hrun : run E cfg fuel w =
                 (Exit 2,
                  went_on (initial E w) w' aborted_result 0 0
                    ([Console LineFetching]
                     ++ page_requests 1 n
                     ++ [ApiGet perPage (1 + Z.of_nat n) false]
                     ++ [Console (LineFetchError (message (formatGitLabError (AxiosError e))));
                         Console (LineFetchAction (action (formatGitLabError (AxiosError e))));
                         Console LineAborted;
                         Console (LineMessage "Failed to fetch branches from GitLab.")]))).
  { rewrite run_unfold. unfold try_catch at 1, bind at 1, getBranches, try_catch.
    rewrite Hloop, fetch_state_events. unfold fetching_events.
    rewrite Hjson. unfold after, add_events, went_on. cbn.
    rewrite <- !app_assoc. reflexivity. }
  unfold final. rewrite Hrun. cbn [snd went_on events initial].
  split.
  - rewrite !console_lines_app, console_lines_pages. reflexivity.
  - rewrite !get_requests_app, get_requests_page_requests.
    rewrite seq_S, map_app. reflexivity.
Qed.

Lemma fetch_failure_is_explained_witness :
  console_lines
    (events (final (Sim.env Scenario.second_page_forbidden) Scenario2.live_verbose 5%nat 0)) =
  [LineFetching;
   LineFetchError (message (formatGitLabError (AxiosError Sim.forbidden)));
   LineFetchAction (action (formatGitLabError (AxiosError Sim.forbidden)));
   LineAborted;
   LineMessage "Failed to fetch branches from GitLab."] /\
  get_requests
    (events (final (Sim.env Scenario.second_page_forbidden) Scenario2.live_verbose 5%nat 0)) =
  map (fun i => (100, 1 + Z.of_nat i)) (seq 0 2).
Proof.
  apply (fetch_failure_is_explained (Sim.env Scenario.second_page_forbidden)
           Scenario2.live_verbose 0 1%nat Sim.forbidden 0 5%nat).
  - eapply refuses_later; [reflexivity | vm_compute; discriminate |].
    apply refuses_now. reflexivity.
  - lia.
  - reflexivity.
Defined.

(* ===================================================================== *)
(** ** Further properties: the lister and the filter *)
(* ===================================================================== *)

(** X11. The lister has no bound on the number of pages: against a host
    that answers the requests for the pages 1 to n with pages that are not
    shorter than 100 items, whatever n is, the lister has requested exactly
    these n pages after n iterations and is still running. *)
Theorem lister_has_no_page_limit :
  forall (E : Env) (cfg : Config) (w : World E) (n : nat) (w' : World E)
         (s : State E),
    serves_full_pages E w 1 n w' ->
    world s = w ->
    exists s',
      getBranches E cfg n s = (Pending, s') /\
      world s' = w' /\
      get_requests (events s') =
      get_requests (events s) ++ map (fun i => (100, 1 + Z.of_nat i)) (seq 0 n).
Proof.
  intros E cfg w n w' s Hserves Hw.
  assert (Hloop : forall (p : Z) (acc : list Branch) (s0 : State E),
             serves_full_pages E (world s0) p n w' ->
             getBranches_loop E n acc p s0 = (Pending, after s0 w' (page_requests p n))).
  { clear s Hw Hserves. induction n as [|n IH]; intros p acc s0 Hs.
    - inversion Hs; subst. cbn. unfold pending. now rewrite after_same.
    - inversion Hs as [| w0 p0 data w1 n0 w'0 Hget Hfull Hrest]; subst.
      cbn [getBranches_loop]. unfold bind at 1.
      rewrite (api_get_branches_ok E p s0 data w1 Hget).
      assert (Hge : (length_Z data <? perPage) = false) by (apply Z.ltb_ge; exact Hfull).
      rewrite Hge.
      rewrite (IH (p + 1) (acc ++ data) (after s0 w1 [ApiGet perPage p true]) Hrest).
      now rewrite after_after. }
  subst w. exists (after s w' (page_requests 1 n)).
  split; [|split].
  - unfold getBranches, try_catch. now rewrite (Hloop 1 [] s Hserves).
  - reflexivity.
  - unfold after. cbn [events]. rewrite get_requests_app.
    now rewrite get_requests_page_requests.
Qed.

Lemma lister_has_no_page_limit_witness :
  exists s' : State (Sim.env Scenario3.endless),
    getBranches (Sim.env Scenario3.endless) Scenario.live_config 3%nat
      (initial (Sim.env Scenario3.endless) 0) = (Pending, s') /\
    world s' = 0 /\
    get_requests (events s') =
    get_requests (events (initial (Sim.env Scenario3.endless) 0)) ++
    map (fun i => (100, 1 + Z.of_nat i)) (seq 0 3).
Proof.
  apply (lister_has_no_page_limit (Sim.env Scenario3.endless) Scenario.live_config
           0 3%nat 0).
  - eapply serves_one_more; [reflexivity | vm_compute; discriminate |].
    eapply serves_one_more; [reflexivity | vm_compute; discriminate |].
    eapply serves_one_more; [reflexivity | vm_compute; discriminate |].
    apply serves_none.
  - reflexivity.
Defined.

(** X12. Whatever the clock does, the filter returns a subsequence of the
    list it is given: branches of the list, each at most as often as in the
    list, in the order of the list. *)
Theorem staleBranches_keeps_the_order :
  forall (E : Env) (cfg : Config) (branches : list Branch) (s : State E),
  exists l s',
    staleBranches E cfg branches s = (Return l, s') /\
    subsequence l branches.
Proof.
  intros E cfg branches s.
  destruct (staleBranches_run_readings E cfg branches s) as (l & w & Hrun & Hsub & _).
  exists l, (set_world w s). split; assumption.
Qed.

(** X13. The eligible set only grows with time: when the clock of a second
    run of the filter shows, at each of its readings, a time that is not
    earlier than at the corresponding reading of a first run, then on the
    same list and configuration the second run keeps every branch that the
    first one keeps. *)
Theorem later_run_keeps_what_was_stale :
  forall (E : Env) (cfg : Config) (R : World E -> World E -> Prop)
         (branches : list Branch) (s1 s2 : State E),
    later_readings E R ->
    R (world s1) (world s2) ->
    exists l1 l2 s1' s2',
      staleBranches E cfg branches s1 = (Return l1, s1') /\
      staleBranches E cfg branches s2 = (Return l2, s2') /\
      subsequence l1 l2.
Proof.
  intros E cfg R branches s1 s2 HR Hw.
  destruct (staleBranches_run E cfg branches s1) as (l1 & w1 & H1 & _).
  destruct (staleBranches_run E cfg branches s2) as (l2 & w2 & H2 & _).
  exists l1, l2, (set_world w1 s1), (set_world w2 s2).
  split; [exact H1|]. split; [exact H2|].
  exact (staleBranches_later E cfg R branches HR s1 s2 l1 l2 _ _ Hw H1 H2).
Qed.

Lemma later_run_keeps_what_was_stale_witness :
  exists l1 l2 s1' s2',
    staleBranches (Sim.env Scenario.ticking) Scenario.example_config
      [Scenario.sixty_days_old] (initial (Sim.env Scenario.ticking) 0)
    = (Return l1, s1') /\
    staleBranches (Sim.env Scenario.ticking) Scenario.example_config
      [Scenario.sixty_days_old] (initial (Sim.env Scenario.ticking) 1)
    = (Return l2, s2') /\
    subsequence l1 l2.
Proof.
  apply (later_run_keeps_what_was_stale (Sim.env Scenario.ticking)
           Scenario.example_config (fun w1 w2 => w1 <= w2)).
  - intros w1 w2 H. cbn. split; lia.
  - cbn. lia.
Defined.

(* ===================================================================== *)
(** ** Further properties: the command line *)
(* ===================================================================== *)

(** X14. The exit code of [run], the function of index.js (lines 152-186)
    that is called once commander has parsed the command line, for any
    parsed options: it is 0 exactly when the prompt answered, token and
    project id are present, and the cleaner finished with [success] true;
    it is 1 exactly when the prompt answered and the token or the project
    id is missing; [run] exits with no other code than 0, 1 and 2, and no
    exception escapes it.  (The parsing of the command line, which comes
    before [run] and can end the program by itself, with status 1 on an
    argument that it refuses, is commander's and is not covered.) *)
Theorem cli_exit_codes :
  forall (E : Env) (prompt : list Question -> Exn + Answers) (options : Options)
         (fuel : nat) (w : World E),
    (fst (cli_run E prompt options fuel w) = Exit 0 <->
     exists a,
       promptForMissingOptions prompt options = inr a /\
       missing_input options a = false /\
       finished (outcome E (finalInput options a) fuel w) = true /\
       success (result (final E (finalInput options a) fuel w)) = true) /\
    (fst (cli_run E prompt options fuel w) = Exit 1 <->
     exists a,
       promptForMissingOptions prompt options = inr a /\
       missing_input options a = true) /\
    (forall code,
        fst (cli_run E prompt options fuel w) = Exit code ->
        code = 0 \/ code = 1 \/ code = 2) /\
    (forall err, fst (cli_run E prompt options fuel w) <> Throw err).
Proof.
  intros E prompt options fuel w. unfold outcome, final.
  destruct (promptForMissingOptions prompt options) as [err | a] eqn:Hp.
  - rewrite (cli_run_prompt_failed E prompt options fuel w err Hp). cbn [fst].
    split; [|split; [|split]].
    + split; [discriminate | intros (a & Ha & _); discriminate].
    + split; [discriminate | intros (a & Ha & _); discriminate].
    + intros code H. injection H as <-. auto.
    + discriminate.
  - destruct (missing_input options a) eqn:Hm.
    + rewrite (cli_run_missing E prompt options fuel w a Hp Hm). cbn [fst].
      split; [|split; [|split]].
      * split; [discriminate|].
        intros (a' & Ha' & Hm' & _). injection Ha' as <-. congruence.
      * split; [intros _; exists a; auto | reflexivity].
      * intros code H. injection H as <-. auto.
      * discriminate.
    + rewrite (cli_run_complete E prompt options fuel w a Hp Hm). cbn [fst].
      pose proof (run_ends E (finalInput options a) fuel w) as Hends.
      destruct (fst (run E (finalInput options a) fuel w)) as [u | err | code | ] eqn:Hout.
      * split; [|split; [|split]].
        -- split; [|reflexivity]. intros _. exists a.
           split; [reflexivity|]. split; [exact Hm|].
           split; [now rewrite Hout | exact Hends].
        -- split; [discriminate|].
           intros (a' & Ha' & Hm'). injection Ha' as <-. congruence.
        -- intros code H. injection H as <-. auto.
        -- discriminate.
      * destruct Hends.
      * destruct Hends as [-> Hs].
        split; [|split; [|split]].
        -- split; [discriminate|].
           intros (a' & Ha' & _ & _ & Hs'). injection Ha' as <-. congruence.
        -- split; [discriminate|].
           intros (a' & Ha' & Hm'). injection Ha' as <-. congruence.
        -- intros code H. injection H as <-. auto.
        -- discriminate.
      * split; [|split; [|split]].
        -- split; [discriminate|].
           intros (a' & Ha' & _ & Hf & _). injection Ha' as <-.
           rewrite Hout in Hf. discriminate.
        -- split; [discriminate|].
           intros (a' & Ha' & Hm'). injection Ha' as <-. congruence.
        -- discriminate.
        -- discriminate.
Qed.

(** X15. When the token or the project id is missing after the prompt, the
    program prints the usage error and exits with code 1 before any request
    to the host; a token or project id given as an empty flag is not
    replaced by what is typed at the prompt, so the program then exits with
    code 1 whatever is typed; and when the prompt fails, the program prints
    the error and exits with code 2, again without a request. *)
Theorem cli_refuses_incomplete_input :
  forall (E : Env) (prompt : list Question -> Exn + Answers) (options : Options)
         (fuel : nat) (w : World E),
    (forall a,
        promptForMissingOptions prompt options = inr a ->
        missing_input options a = true ->
        cli_run E prompt options fuel w =
        (Exit 1, add_events (initial E w) [Console (LineMessage usage_error)])) /\
    (forall a,
        promptForMissingOptions prompt options = inr a ->
        opt_token options = Some "" \/ opt_projectId options = Some "" ->
        fst (cli_run E prompt options fuel w) = Exit 1) /\
    (forall err,
        promptForMissingOptions prompt options = inl err ->
        fst (cli_run E prompt options fuel w) = Exit 2 /\
        get_requests (events (snd (cli_run E prompt options fuel w))) = [] /\
        delete_requests (events (snd (cli_run E prompt options fuel w))) = []).
Proof.
  intros E prompt options fuel w. split; [|split].
  - intros a Hp Hm. exact (cli_run_missing E prompt options fuel w a Hp Hm).
  - intros a Hp Hempty.
    assert (Hm : missing_input options a = true).
    { unfold missing_input, final_token, final_projectId.
      destruct Hempty as [H | H]; rewrite H; cbn; [reflexivity|].
      now rewrite orb_true_r. }
    now rewrite (cli_run_missing E prompt options fuel w a Hp Hm).
  - intros err Hp.
    rewrite (cli_run_prompt_failed E prompt options fuel w err Hp).
    repeat split; reflexivity.
Qed.

Lemma cli_refuses_incomplete_input_witness :
  fst (cli_run (Sim.env Scenario.third_fails) CliScenario.types_token
         CliScenario.empty_token 5%nat 0) = Exit 1.
Proof.
  apply (proj1 (proj2 (cli_refuses_incomplete_input (Sim.env Scenario.third_fails)
                         CliScenario.types_token CliScenario.empty_token 5%nat 0))
           {| ans_token := Some "typed-token"; ans_projectId := None;
              ans_mainBranch := None; ans_staleDays := None; ans_exclude := None;
              ans_dryRun := None |}).
  - reflexivity.
  - left. reflexivity.
Defined.

(** X16. The parser of [--exclude] loses nothing and cleans every name:
    joining the pieces of the split with commas gives the value of the flag
    back; the parser returns one name more than the value has commas (so
    never an empty list); and no name it returns contains a comma or starts
    or ends with a character that [trim] removes. *)
Theorem exclude_parser_splits_and_trims :
  forall (white : ascii -> bool) (value : string),
    String.concat "," (Exclude.split ","%char value) = value /\
    List.length (Exclude.parse white value) = S (Exclude.occurrences ","%char value) /\
    Forall (fun n =>
              Exclude.contains ","%char n = false /\
              Exclude.trimStart white n = n /\
              Exclude.trimEnd white n = n)
           (Exclude.parse white value).
Proof.
  intros white value. split; [|split].
  - apply concat_split.
  - unfold Exclude.parse. rewrite length_map. apply split_length.
  - unfold Exclude.parse. apply Forall_map.
    pose proof (split_no_separator ","%char value) as Hpieces.
    induction Hpieces as [|p ps Hp _ IH]; constructor; [|exact IH].
    unfold Exclude.trim. split; [|split].
    + now apply contains_trimEnd, contains_trimStart.
    + apply trimStart_trimEnd, trimStart_idempotent.
    + apply trimEnd_idempotent.
Qed.

(** X17. Names written in the flag are read back as written: for every
    non-empty list of names that contain no comma and neither start nor end
    with white space, each written with any white space before and after it
    and separated by commas, the parser returns exactly these names, in
    order. *)
Theorem exclude_parser_reads_names_back :
  forall (white : ascii -> bool) (items : list Exclude.Padded),
    white ","%char = false ->
    items <> [] ->
    Forall (fun p =>
              Exclude.all_white white (Exclude.before p) = true /\
              Exclude.all_white white (Exclude.behind p) = true /\
              Exclude.contains ","%char (Exclude.written p) = false /\
              Exclude.trimStart white (Exclude.written p) = Exclude.written p /\
              Exclude.trimEnd white (Exclude.written p) = Exclude.written p)
           items ->
    Exclude.parse white (String.concat "," (map Exclude.padded items)) =
    map Exclude.written items.
Proof.
  intros white items Hcomma Hne Hall.
  destruct items as [|item items]; [now destruct Hne|]. clear Hne.
  revert item Hall. induction items as [|next items IH]; intros item Hall.
  - inversion Hall as [|? ? (Hl & Hr & Hc & Hs & He) _]; subst.
    cbn [map String.concat]. unfold Exclude.parse.
    rewrite (split_whole _ _ (contains_padded white item Hcomma Hl Hr Hc)).
    cbn [map]. now rewrite (trim_padded white item Hl Hr Hs He).
  - inversion Hall as [|? ? (Hl & Hr & Hc & Hs & He) Hrest]; subst.
    specialize (IH next Hrest).
    change (String.concat "," (map Exclude.padded (item :: next :: items)))
      with (Exclude.padded item
            ++ String ","%char (String.concat "," (map Exclude.padded (next :: items))))%string.
    unfold Exclude.parse in *.
    rewrite (split_app _ _ _ (contains_padded white item Hcomma Hl Hr Hc)).
    cbn [map]. rewrite (trim_padded white item Hl Hr Hs He).
    f_equal. exact IH.
Qed.

Lemma exclude_parser_reads_names_back_witness :
  Exclude.parse Exclude.ascii_white "main, develop ,release" =
  ["main"; "develop"; "release"].
Proof.
  apply (exclude_parser_reads_names_back Exclude.ascii_white ExcludeScenario.names).
  - reflexivity.
  - discriminate.
  - repeat constructor.
Defined.

(* ===================================================================== *)
(** ** Further properties: the whole pipeline *)
(* ===================================================================== *)

(** X18. Against every host whose listing ends (full pages, then a short
    one), a run with fuel for these pages finishes, whatever the deletions
    answer; its listing returned all the branches of these pages, and the
    scanned count of the result is their number. *)
Theorem run_finishes_when_the_listing_ends :
  forall (E : Env) (cfg : Config) (w : World E) (fulls : list (list Branch))
         (last : list Branch) (w' : World E) (fuel : nat),
    serves E w 1 fulls last w' ->
    (List.length fulls < fuel)%nat ->
    finished (outcome E cfg fuel w) = true /\
    fst (fetch E cfg fuel w) = Return (List.concat fulls ++ last) /\
    branchesScanned (result (final E cfg fuel w)) =
    length_Z (List.concat fulls ++ last).
Proof.
  intros E cfg w fulls last w' fuel Hserves Hfuel.
  pose proof (getBranches_serves E cfg w fulls last w' fuel (fetch_state E cfg w)
                Hserves (world_fetch_state E cfg w) Hfuel) as Hfetch.
  fold (fetch E cfg fuel w) in Hfetch.
  unfold outcome, final.
  split; [|split].
  - rewrite run_finished, Hfetch. reflexivity.
  - now rewrite Hfetch.
  - destruct (dryRun cfg) eqn:Hdry.
    + destruct (run_fetch_returned_dry E cfg fuel w _ _ Hdry Hfetch)
        as (stale & s2 & s3 & _ & _ & _ & Hres & _).
      now rewrite Hres.
    + destruct (run_fetch_returned_live E cfg fuel w _ _ Hdry Hfetch)
        as (stale & s2 & s3 & _ & _ & _ & _ & Hres & _).
      now rewrite Hres, record_deletions_scanned.
Qed.

Lemma run_finishes_when_the_listing_ends_witness :
  finished (outcome (Sim.env Scenario.three_pages) Scenario.live_config 5%nat 0) = true /\
  fst (fetch (Sim.env Scenario.three_pages) Scenario.live_config 5%nat 0) =
    Return (List.concat [Scenario.page1; Scenario.page2] ++ Scenario.page3) /\
  branchesScanned (result (final (Sim.env Scenario.three_pages) Scenario.live_config 5%nat 0)) =
    length_Z (List.concat [Scenario.page1; Scenario.page2] ++ Scenario.page3).
Proof.
  apply (run_finishes_when_the_listing_ends (Sim.env Scenario.three_pages)
           Scenario.live_config 0 [Scenario.page1; Scenario.page2] Scenario.page3 0 5%nat).
  - eapply serves_full; [reflexivity | vm_compute; discriminate |].
    eapply serves_full; [reflexivity | vm_compute; discriminate |].
    apply serves_short; [reflexivity | vm_compute; reflexivity].
  - cbn. lia.
Defined.
